(** * py-lz4framed: the CPython extension module [_lz4framed]

    A shallow embedding of [lz4framed/py-lz4framed.c] and the properties of it
    that the specification states.

    The C file is a binding: every operation validates its arguments, sizes a
    Python [bytes] buffer, calls one or more [LZ4F_*] primitives of the LZ4 frame
    library and trims the buffer.  The embedding keeps that shape:

    - [size_t] values are integers modulo [2^64], the wrap-around written out;
    - a Python [bytes] under construction is a [pybuf]: its allocated size and
      the bytes written so far;
    - the LZ4 frame library is an interface ([LZ4F]); the functions of the C file
      are written against the interface, and [Ref] gives one implementation of
      it that follows the frame format described by the specification;
    - loops that the C code does not bound are run with fuel. *)

From Stdlib Require Import ZArith Lia Bool String Ascii List.
From Stdlib.Strings Require Import Byte.
From Stdlib Require Import DecimalString.
Import ListNotations.
Local Open Scope Z_scope.

(* ================================================================= *)
(** ** Machine integers and byte strings *)

(** [size_t] on the LP64 targets the module is built for. *)
Definition SIZE_MOD : Z := 2 ^ 64.

Definition size_wrap (z : Z) : Z := z mod SIZE_MOD.
Definition size_neg (a : Z) : Z := size_wrap (- a).
Definition size_add (a b : Z) : Z := size_wrap (a + b).
Definition size_sub (a b : Z) : Z := size_wrap (a - b).
Definition size_mul (a b : Z) : Z := size_wrap (a * b).

(** [int] as [PyArg_ParseTuple]'s ["i"] format accepts it. *)
Definition INT_MIN : Z := - 2 ^ 31.
Definition INT_MAX : Z := 2 ^ 31 - 1.

Definition len {A : Type} (l : list A) : Z := Z.of_nat (length l).

Definition byte_of_Z (z : Z) : byte :=
  match Byte.of_N (Z.to_N (z mod 256)) with
  | Some b => b
  | None => x00
  end.

Definition Z_of_byte (b : byte) : Z := Z.of_N (Byte.to_N b).

(** Little-endian encodings of 32- and 64-bit words. *)
Fixpoint le_bytes (n : nat) (z : Z) : list byte :=
  match n with
  | O => []
  | S n' => byte_of_Z z :: le_bytes n' (z / 256)
  end.

Fixpoint le_value (l : list byte) : Z :=
  match l with
  | [] => 0
  | b :: l' => Z_of_byte b + 256 * le_value l'
  end.

Definition dec (z : Z) : string := NilZero.string_of_int (Z.to_int z).

(* ================================================================= *)
(** ** The part of the Python runtime the module touches *)

Inductive PyObject : Type :=
| PyBytes (b : list byte)
| PyLong (z : Z)
| PyBool (b : bool).

Inductive PyExc : Type :=
| ValueError (msg : string)
| OverflowError
| Lz4FramedError (name : string) (code : Z)
| RuntimeWarning (msg : string).

(** What a call of an extension function comes to.  [OutOfFuel] is the
    embedding's own: the loop was cut before the C code would have left it. *)
Inductive outcome (A : Type) : Type :=
| Returns (a : A)
| Raises (e : PyExc)
| OutOfFuel.
Arguments Returns {A} a.
Arguments Raises {A} e.
Arguments OutOfFuel {A}.

(** Observable steps of the buffer management: [PyBytes_FromStringAndSize(NULL, n)],
    [_PyBytes_Resize(&o, n)] and [PyErr_WarnEx]. *)
Inductive event : Type :=
| EvAlloc (n : Z)
| EvResize (n : Z)
| EvWarn (msg : string).

(** The interpreter's warning filter decides whether [PyErr_WarnEx] returns 0
    (the warning is shown or ignored) or -1 (the warning is raised as an
    exception, as under [-W error]). *)
Record PyRuntime : Type := { warnings_as_errors : bool }.

(** A [bytes] object being filled: [buf_size] bytes are allocated, [buf_data]
    holds the bytes from offset 0 up to the highest offset written so far.
    Bytes never written read as [x00]. *)
Record pybuf : Type := { buf_size : Z; buf_data : list byte }.

Definition take_pad (n : nat) (l : list byte) : list byte :=
  firstn n l ++ repeat x00 (n - length l).

Definition buf_new (n : Z) : pybuf := {| buf_size := n; buf_data := [] |}.

(** The callee wrote [w] at offset [pos]. *)
Definition buf_write (b : pybuf) (pos : Z) (w : list byte) : pybuf :=
  {| buf_size := buf_size b;
     buf_data := take_pad (Z.to_nat pos) (buf_data b) ++ w
                 ++ skipn (Z.to_nat pos + length w) (buf_data b) |}.

Definition buf_resize (b : pybuf) (n : Z) : pybuf :=
  {| buf_size := n; buf_data := firstn (Z.to_nat n) (buf_data b) |}.

Definition PyBytes_value (b : pybuf) : list byte :=
  take_pad (Z.to_nat (buf_size b)) (buf_data b).

(** *** Computations: state, event log and exceptions

    [Py St A] is a computation over a mutable [St] (the codec context a capsule
    points to) that logs events and either returns, raises or runs out of
    fuel. *)
Definition Py (St A : Type) : Type := St -> outcome A * St * list event.

Definition ret {St A : Type} (a : A) : Py St A := fun s => (Returns a, s, []).

Definition bind {St A B : Type} (m : Py St A) (k : A -> Py St B) : Py St B :=
  fun s =>
    match m s with
    | (Returns a, s1, e1) =>
      match k a s1 with
      | (r, s2, e2) => (r, s2, e1 ++ e2)
      end
    | (Raises x, s1, e1) => (Raises x, s1, e1)
    | (OutOfFuel, s1, e1) => (OutOfFuel, s1, e1)
    end.

Definition raise {St A : Type} (x : PyExc) : Py St A := fun s => (Raises x, s, []).

Definition emit {St : Type} (e : event) : Py St unit := fun s => (Returns tt, s, [e]).

Notation "x <- m ;; k" := (bind m (fun x => k))
  (at level 61, m at next level, right associativity).
Notation "' pat <- m ;; k" := (bind m (fun x => match x with pat => k end))
  (at level 61, pat pattern, m at next level, right associativity).
Notation "m ;;; k" := (bind m (fun _ => k))
  (at level 61, right associativity).

(** One turn of a [while] body. *)
Inductive iter (S : Type) : Type :=
| Continue (s : S)
| Break (s : S).
Arguments Continue {S} s.
Arguments Break {S} s.

Fixpoint while_loop {St S : Type} (fuel : nat) (cond : S -> bool)
         (body : S -> Py St (iter S)) (s : S) : Py St S :=
  match fuel with
  | O => fun st => (OutOfFuel, st, [])
  | S fuel' =>
    if cond s then
      r <- body s ;;
      match r with
      | Continue s' => while_loop fuel' cond body s'
      | Break s' => ret s'
      end
    else ret s
  end.

(** ["i"]: a Python integer that fits a C [int]; an absent optional argument
    leaves the variable at its initial value. *)
Definition arg_int {St : Type} (initial : Z) (a : option Z) : Py St Z :=
  match a with
  | None => ret initial
  | Some z => if (INT_MIN <=? z) && (z <=? INT_MAX) then ret z else raise OverflowError
  end.

(** ["i"] given the address of a [size_t]: the four low-order bytes of the
    variable are overwritten with the [int], the four high-order bytes keep
    what the initialiser put there (little-endian LP64). *)
Definition store_int_in_size_t (old v : Z) : Z := (old / 2 ^ 32) * 2 ^ 32 + v mod 2 ^ 32.

Definition arg_int_into_size_t {St : Type} (initial : Z) (a : option Z) : Py St Z :=
  match a with
  | None => ret initial
  | Some z =>
    if (INT_MIN <=? z) && (z <=? INT_MAX) then ret (store_int_in_size_t initial z)
    else raise OverflowError
  end.

(** [PyBytes_FromStringAndSize(NULL, n)] and [_PyBytes_Resize].  Allocation of
    Python objects is taken to succeed. *)
Definition PyBytes_FromStringAndSize {St : Type} (n : Z) : Py St pybuf :=
  emit (EvAlloc n) ;;; ret (buf_new n).

Definition _PyBytes_Resize {St : Type} (b : pybuf) (n : Z) : Py St pybuf :=
  emit (EvResize n) ;;; ret (buf_resize b n).

Definition PyErr_WarnEx {St : Type} (rt : PyRuntime) (msg : string) : Py St unit :=
  emit (EvWarn msg) ;;;
  if warnings_as_errors rt then raise (RuntimeWarning msg) else ret tt.

(** A capsule argument: what the caller passed where a context is expected. *)
Inductive capsule : Type :=
| Capsule (name : string)
| NotACapsule.

Definition COMPRESSION_CAPSULE_NAME : string := "_lz4fcctx".
Definition DECOMPRESSION_CAPSULE_NAME : string := "_lz4fdctx".

Definition PyCapsule_IsValid (c : capsule) (name : string) : bool :=
  match c with
  | Capsule n => String.eqb n name
  | NotACapsule => false
  end.

(** [PyDict_SetItemString] on a dictionary kept in insertion order. *)
Fixpoint PyDict_SetItemString (d : list (string * PyObject)) (k : string) (v : PyObject)
  : list (string * PyObject) :=
  match d with
  | [] => [(k, v)]
  | (k', v') :: d' =>
    if String.eqb k' k then (k, v) :: d' else (k', v') :: PyDict_SetItemString d' k v
  end.

(* ================================================================= *)
(** ** The LZ4 frame library, as the module sees it ([lz4frame_static.h]) *)

(** Block size identifiers ([LZ4F_blockSizeID_t]). *)
Definition LZ4F_default : Z := 0.
Definition LZ4F_max64KB : Z := 4.
Definition LZ4F_max256KB : Z := 5.
Definition LZ4F_max1MB : Z := 6.
Definition LZ4F_max4MB : Z := 7.

Inductive LZ4F_blockMode_t : Type := LZ4F_blockLinked | LZ4F_blockIndependent.
Inductive LZ4F_contentChecksum_t : Type := LZ4F_noContentChecksum | LZ4F_contentChecksumEnabled.

Record LZ4F_frameInfo_t : Type := {
  blockSizeID : Z;
  blockMode : LZ4F_blockMode_t;
  contentChecksumFlag : LZ4F_contentChecksum_t;
  contentSize : Z
}.

Record LZ4F_preferences_t : Type := {
  frameInfo : LZ4F_frameInfo_t;
  compressionLevel : Z;
  autoFlush : Z
}.

(** The library's error list, in the order in which the module exports the
    codes ([PyModule_AddIntMacro], one per code). *)
Inductive LZ4F_errorCodes : Type :=
| LZ4F_OK_NoError
| LZ4F_ERROR_GENERIC
| LZ4F_ERROR_maxBlockSize_invalid
| LZ4F_ERROR_blockMode_invalid
| LZ4F_ERROR_contentChecksumFlag_invalid
| LZ4F_ERROR_compressionLevel_invalid
| LZ4F_ERROR_headerVersion_wrong
| LZ4F_ERROR_blockChecksum_unsupported
| LZ4F_ERROR_reservedFlag_set
| LZ4F_ERROR_allocation_failed
| LZ4F_ERROR_srcSize_tooLarge
| LZ4F_ERROR_dstMaxSize_tooSmall
| LZ4F_ERROR_frameHeader_incomplete
| LZ4F_ERROR_frameType_unknown
| LZ4F_ERROR_frameSize_wrong
| LZ4F_ERROR_srcPtr_wrong
| LZ4F_ERROR_decompressionFailed
| LZ4F_ERROR_headerChecksum_invalid
| LZ4F_ERROR_contentChecksum_invalid
| LZ4F_ERROR_maxCode.

Definition LZ4F_errorList : list (LZ4F_errorCodes * string) :=
  [ (LZ4F_OK_NoError, "OK_NoError"%string);
    (LZ4F_ERROR_GENERIC, "ERROR_GENERIC"%string);
    (LZ4F_ERROR_maxBlockSize_invalid, "ERROR_maxBlockSize_invalid"%string);
    (LZ4F_ERROR_blockMode_invalid, "ERROR_blockMode_invalid"%string);
    (LZ4F_ERROR_contentChecksumFlag_invalid, "ERROR_contentChecksumFlag_invalid"%string);
    (LZ4F_ERROR_compressionLevel_invalid, "ERROR_compressionLevel_invalid"%string);
    (LZ4F_ERROR_headerVersion_wrong, "ERROR_headerVersion_wrong"%string);
    (LZ4F_ERROR_blockChecksum_unsupported, "ERROR_blockChecksum_unsupported"%string);
    (LZ4F_ERROR_reservedFlag_set, "ERROR_reservedFlag_set"%string);
    (LZ4F_ERROR_allocation_failed, "ERROR_allocation_failed"%string);
    (LZ4F_ERROR_srcSize_tooLarge, "ERROR_srcSize_tooLarge"%string);
    (LZ4F_ERROR_dstMaxSize_tooSmall, "ERROR_dstMaxSize_tooSmall"%string);
    (LZ4F_ERROR_frameHeader_incomplete, "ERROR_frameHeader_incomplete"%string);
    (LZ4F_ERROR_frameType_unknown, "ERROR_frameType_unknown"%string);
    (LZ4F_ERROR_frameSize_wrong, "ERROR_frameSize_wrong"%string);
    (LZ4F_ERROR_srcPtr_wrong, "ERROR_srcPtr_wrong"%string);
    (LZ4F_ERROR_decompressionFailed, "ERROR_decompressionFailed"%string);
    (LZ4F_ERROR_headerChecksum_invalid, "ERROR_headerChecksum_invalid"%string);
    (LZ4F_ERROR_contentChecksum_invalid, "ERROR_contentChecksum_invalid"%string);
    (LZ4F_ERROR_maxCode, "ERROR_maxCode"%string) ].

Definition LZ4F_errorCodes_eqb (a b : LZ4F_errorCodes) : bool :=
  match a, b with
  | LZ4F_OK_NoError, LZ4F_OK_NoError
  | LZ4F_ERROR_GENERIC, LZ4F_ERROR_GENERIC
  | LZ4F_ERROR_maxBlockSize_invalid, LZ4F_ERROR_maxBlockSize_invalid
  | LZ4F_ERROR_blockMode_invalid, LZ4F_ERROR_blockMode_invalid
  | LZ4F_ERROR_contentChecksumFlag_invalid, LZ4F_ERROR_contentChecksumFlag_invalid
  | LZ4F_ERROR_compressionLevel_invalid, LZ4F_ERROR_compressionLevel_invalid
  | LZ4F_ERROR_headerVersion_wrong, LZ4F_ERROR_headerVersion_wrong
  | LZ4F_ERROR_blockChecksum_unsupported, LZ4F_ERROR_blockChecksum_unsupported
  | LZ4F_ERROR_reservedFlag_set, LZ4F_ERROR_reservedFlag_set
  | LZ4F_ERROR_allocation_failed, LZ4F_ERROR_allocation_failed
  | LZ4F_ERROR_srcSize_tooLarge, LZ4F_ERROR_srcSize_tooLarge
  | LZ4F_ERROR_dstMaxSize_tooSmall, LZ4F_ERROR_dstMaxSize_tooSmall
  | LZ4F_ERROR_frameHeader_incomplete, LZ4F_ERROR_frameHeader_incomplete
  | LZ4F_ERROR_frameType_unknown, LZ4F_ERROR_frameType_unknown
  | LZ4F_ERROR_frameSize_wrong, LZ4F_ERROR_frameSize_wrong
  | LZ4F_ERROR_srcPtr_wrong, LZ4F_ERROR_srcPtr_wrong
  | LZ4F_ERROR_decompressionFailed, LZ4F_ERROR_decompressionFailed
  | LZ4F_ERROR_headerChecksum_invalid, LZ4F_ERROR_headerChecksum_invalid
  | LZ4F_ERROR_contentChecksum_invalid, LZ4F_ERROR_contentChecksum_invalid
  | LZ4F_ERROR_maxCode, LZ4F_ERROR_maxCode => true
  | _, _ => false
  end.

(** The enumerator's value: its position in the list. *)
Fixpoint index_of (e : LZ4F_errorCodes) (l : list (LZ4F_errorCodes * string)) : Z :=
  match l with
  | [] => 0
  | (e', _) :: l' => if LZ4F_errorCodes_eqb e' e then 0 else 1 + index_of e l'
  end.

Definition error_number (e : LZ4F_errorCodes) : Z := index_of e LZ4F_errorList.

(** A primitive reports an error as [(size_t)-code]. *)
Definition LZ4F_error (e : LZ4F_errorCodes) : Z := size_neg (error_number e).

Definition LZ4F_isError (code : Z) : bool :=
  size_neg (error_number LZ4F_ERROR_maxCode) <? code.

Definition LZ4F_getErrorName (code : Z) : string :=
  if LZ4F_isError code then
    match nth_error LZ4F_errorList (Z.to_nat (size_neg code)) with
    | Some (_, name) => name
    | None => "Unspecified error code"%string
    end
  else "Unspecified error code"%string.

(** The primitives.  A destination buffer is passed as its capacity and comes
    back as the bytes written to it; a source buffer is the bytes the pointer
    and length designate, and comes back as the number of bytes read.  Every
    result starts with the [size_t] the primitive returns. *)
Class LZ4F : Type := {
  cctx : Type;
  dctx : Type;
  LZ4F_createCompressionContext : Z * cctx;
  LZ4F_createDecompressionContext : Z * dctx;
  LZ4F_compressFrameBound : Z -> LZ4F_preferences_t -> Z;
  LZ4F_compressFrame : Z -> list byte -> LZ4F_preferences_t -> Z * list byte;
  LZ4F_compressBegin : cctx -> Z -> LZ4F_preferences_t -> Z * list byte * cctx;
  LZ4F_compressBound : Z -> option LZ4F_preferences_t -> Z;
  LZ4F_compressUpdate : cctx -> Z -> list byte -> Z * list byte * cctx;
  LZ4F_compressEnd : cctx -> Z -> Z * list byte * cctx;
  LZ4F_getFrameInfo : dctx -> list byte -> Z * LZ4F_frameInfo_t * Z * dctx;
  LZ4F_decompress : dctx -> Z -> list byte -> bool -> Z * list byte * Z * dctx
}.

(* ================================================================= *)
(** ** [py-lz4framed.c] *)

(** [BAIL_ON_LZ4_ERROR]: an error code becomes [Lz4FramedError(name, -code)]. *)
Definition BAIL_ON_LZ4_ERROR {St : Type} (code : Z) : Py St Z :=
  if LZ4F_isError code then raise (Lz4FramedError (LZ4F_getErrorName code) (size_neg code))
  else ret code.

Definition _valid_lz4f_block_size_id (id : Z) : bool :=
  (id =? LZ4F_default) || (id =? LZ4F_max64KB) || (id =? LZ4F_max256KB)
  || (id =? LZ4F_max1MB) || (id =? LZ4F_max4MB).

Definition blockSizes : list Z := [64 * 2 ^ 10; 256 * 2 ^ 10; 1 * 2 ^ 20; 4 * 2 ^ 20].

Definition _lz4f_block_size_from_id (id : Z) : Z :=
  if negb (_valid_lz4f_block_size_id id) then 0
  else
    let id := if id =? LZ4F_default then LZ4F_max64KB else id in
    let id := id - 4 in
    nth (Z.to_nat id) blockSizes 0.

Definition _lz4framed_get_block_size (id : Z) : Py unit PyObject :=
  block_id <- arg_int 0 (Some id) ;;
  if negb (_valid_lz4f_block_size_id block_id) then
    raise (ValueError ("id (" ++ dec block_id ++ ") invalid"))
  else ret (PyLong (_lz4f_block_size_from_id block_id)).

Section Module_functions.
Context {L : LZ4F}.

(** The primitives that work on a context, as computations on the context
    the capsule points to. *)
Definition call_compressBegin (dstMaxSize : Z) (prefs : LZ4F_preferences_t)
  : Py cctx (Z * list byte) :=
  fun c => match LZ4F_compressBegin c dstMaxSize prefs with
           | (code, written, c') => (Returns (code, written), c', [])
           end.

Definition call_compressUpdate (dstMaxSize : Z) (src : list byte) : Py cctx (Z * list byte) :=
  fun c => match LZ4F_compressUpdate c dstMaxSize src with
           | (code, written, c') => (Returns (code, written), c', [])
           end.

Definition call_compressEnd (dstMaxSize : Z) : Py cctx (Z * list byte) :=
  fun c => match LZ4F_compressEnd c dstMaxSize with
           | (code, written, c') => (Returns (code, written), c', [])
           end.

Definition call_getFrameInfo (src : list byte) : Py dctx (Z * LZ4F_frameInfo_t * Z) :=
  fun d => match LZ4F_getFrameInfo d src with
           | (code, info, nread, d') => (Returns (code, info, nread), d', [])
           end.

Definition call_decompress (dstSize : Z) (src : list byte) (stableDst : bool)
  : Py dctx (Z * list byte * Z) :=
  fun d => match LZ4F_decompress d dstSize src stableDst with
           | (code, written, nread, d') => (Returns (code, written, nread), d', [])
           end.

(** *** [compress(b, block_size_id, block_mode_linked, checksum, level)] *)
Definition _lz4framed_compress (b : list byte)
           (block_size_id block_mode_linked checksum level : option Z)
  : Py unit (list byte) :=
  let input_len := len b in
  block_id <- arg_int LZ4F_default block_size_id ;;
  block_mode_linked <- arg_int 1 block_mode_linked ;;
  checksum <- arg_int 0 checksum ;;
  compression_level <- arg_int 0 level ;;
  if input_len <=? 0 then raise (ValueError "b (data) is empty")
  else if negb (_valid_lz4f_block_size_id block_id) then
    raise (ValueError ("block_size_id (" ++ dec block_id ++ ") invalid"))
  else if (compression_level <? 0) || (16 <? compression_level) then
    raise (ValueError ("compression_level (" ++ dec compression_level ++ ") invalid"))
  else
    let prefs :=
      {| frameInfo :=
           {| contentSize := input_len;
              blockMode := if block_mode_linked =? 0 then LZ4F_blockIndependent
                           else LZ4F_blockLinked;
              blockSizeID := block_id;
              contentChecksumFlag := if checksum =? 0 then LZ4F_noContentChecksum
                                     else LZ4F_contentChecksumEnabled |};
         compressionLevel := compression_level;
         autoFlush := 0 |} in
    output_len <- BAIL_ON_LZ4_ERROR (LZ4F_compressFrameBound input_len prefs) ;;
    output <- PyBytes_FromStringAndSize output_len ;;
    (* output length might be shorter than estimated *)
    let '(code, written) := LZ4F_compressFrame output_len b prefs in
    output_len <- BAIL_ON_LZ4_ERROR code ;;
    output <- _PyBytes_Resize (buf_write output 0 written) output_len ;;
    ret (PyBytes_value output).

(** *** [decompress(b, buffer_size)] *)

(** The local variables the decoding loop updates.  [input_read] equals
    [input_remaining] whenever the library is called, and [output_written]
    equals [output_remaining]; [dv_input] is the window
    [input_pos .. input_pos + input_remaining], and [dv_output_pos] the
    offset of [output_pos] in [output]. *)
Record decompress_vars : Type := {
  dv_input : list byte;
  dv_input_size_hint : Z;
  dv_output : pybuf;
  dv_output_pos : Z;
  dv_output_len : Z;
  dv_output_remaining : Z
}.

Definition decompress_body (rt : PyRuntime) (frame_info : LZ4F_frameInfo_t)
           (stableDst : bool) (v : decompress_vars) : Py dctx (iter decompress_vars) :=
  (* decompress next chunk *)
  '(code, written, input_read) <-
    call_decompress (dv_output_remaining v) (dv_input v) stableDst ;;
  input_size_hint <- BAIL_ON_LZ4_ERROR code ;;
  let output_written := len written in
  let output := buf_write (dv_output v) (dv_output_pos v) written in
  let output_pos := dv_output_pos v + output_written in
  let output_remaining := size_sub (dv_output_remaining v) output_written in
  let input := skipn (Z.to_nat input_read) (dv_input v) in
  let input_remaining := size_sub (len (dv_input v)) input_read in
  (* decompression complete *)
  if input_size_hint =? 0 then
    ret (Break {| dv_input := input; dv_input_size_hint := input_size_hint;
                  dv_output := output; dv_output_pos := output_pos;
                  dv_output_len := size_sub (dv_output_len v) output_remaining;
                  dv_output_remaining := output_remaining |})
  (* destination too small *)
  else if 0 <? input_remaining then
    (if 0 <? contentSize frame_info then
       (* if frame specifies size, should never have to enlarge *)
       PyErr_WarnEx rt "lz4frame contentSize mismatch"
     else ret tt) ;;;
    let output_remaining := size_add output_remaining (dv_output_len v) in
    let output_len := size_mul (dv_output_len v) 2 in
    output <- _PyBytes_Resize output output_len ;;
    ret (Continue {| dv_input := input; dv_input_size_hint := input_size_hint;
                     dv_output := output;
                     dv_output_pos := size_sub output_len output_remaining;
                     dv_output_len := output_len;
                     dv_output_remaining := output_remaining |})
  else
    ret (Continue {| dv_input := input; dv_input_size_hint := input_size_hint;
                     dv_output := output; dv_output_pos := output_pos;
                     dv_output_len := dv_output_len v;
                     dv_output_remaining := output_remaining |}).

Definition decompress_with_context (rt : PyRuntime) (fuel : nat) (b : list byte)
           (buffer_size : Z) : Py dctx (list byte) :=
  let input_remaining := len b in
  (* retrieve uncompressed data size *)
  '(code, frame_info, input_read) <- call_getFrameInfo b ;;
  input_size_hint <- BAIL_ON_LZ4_ERROR code ;;
  let input := skipn (Z.to_nat input_read) b in
  let input_remaining := size_sub input_remaining input_read in
  let output_len :=
    if 0 <? contentSize frame_info then contentSize frame_info
    else (* uncompressed size is always at least that of compressed *)
      if size_wrap buffer_size >=? input_remaining then size_wrap buffer_size
      else input_remaining in
  (* Prevent LZ4 from buffering output *)
  let stableDst := 0 <? contentSize frame_info in
  (* set up initial output buffer *)
  output <- PyBytes_FromStringAndSize output_len ;;
  v <- while_loop fuel (fun v => negb (dv_input_size_hint v =? 0))
                  (decompress_body rt frame_info stableDst)
                  {| dv_input := input; dv_input_size_hint := input_size_hint;
                     dv_output := output; dv_output_pos := 0;
                     dv_output_len := output_len;
                     dv_output_remaining := output_len |} ;;
  output <- _PyBytes_Resize (dv_output v) (dv_output_len v) ;;
  ret (PyBytes_value output).

Definition _lz4framed_decompress (rt : PyRuntime) (fuel : nat) (b : list byte)
           (buffer_size : option Z) : outcome (list byte) * list event :=
  let run : Py unit (list byte) :=
    buffer_size <- arg_int 1024 buffer_size ;;
    if len b <=? 0 then raise (ValueError "b (data) is empty")
    else if buffer_size <=? 0 then
      raise (ValueError ("buffer_size (" ++ dec buffer_size ++ ") invalid"))
    else
      let '(code, ctx) := LZ4F_createDecompressionContext in
      BAIL_ON_LZ4_ERROR code ;;;
      (* the context is local to the call and freed on every path *)
      fun st => match decompress_with_context rt fuel b buffer_size ctx with
                | (r, _, ev) => (r, st, ev)
                end in
  match run tt with
  | (r, _, ev) => (r, ev)
  end.

(** *** Contexts *)
Definition _lz4framed_create_compression_context : outcome (capsule * cctx) :=
  let '(code, ctx) := LZ4F_createCompressionContext in
  if LZ4F_isError code then
    Raises (Lz4FramedError (LZ4F_getErrorName code) (size_neg code))
  else Returns (Capsule COMPRESSION_CAPSULE_NAME, ctx).

Definition _lz4framed_create_decompression_context : outcome (capsule * dctx) :=
  let '(code, ctx) := LZ4F_createDecompressionContext in
  if LZ4F_isError code then
    Raises (Lz4FramedError (LZ4F_getErrorName code) (size_neg code))
  else Returns (Capsule DECOMPRESSION_CAPSULE_NAME, ctx).

(** *** [compress_begin(ctx, block_size_id, block_mode_linked, checksum, autoflush, level)] *)
Definition _lz4framed_compress_begin (ctx_capsule : capsule)
           (block_size_id block_mode_linked checksum autoflush level : option Z)
  : Py cctx (list byte) :=
  let output_len := 15 in (* maximum header size *)
  block_id <- arg_int LZ4F_default block_size_id ;;
  block_mode_linked <- arg_int 1 block_mode_linked ;;
  checksum <- arg_int 0 checksum ;;
  autoflush <- arg_int 0 autoflush ;;
  compression_level <- arg_int 0 level ;;
  if negb (PyCapsule_IsValid ctx_capsule COMPRESSION_CAPSULE_NAME) then
    raise (ValueError "ctx invalid")
  else if negb (_valid_lz4f_block_size_id block_id) then
    raise (ValueError ("block_size_id (" ++ dec block_id ++ ") invalid"))
  else if (compression_level <? 0) || (16 <? compression_level) then
    raise (ValueError ("compression_level (" ++ dec compression_level ++ ") invalid"))
  else
    let prefs :=
      {| frameInfo :=
           {| contentSize := 0;
              blockMode := if block_mode_linked =? 0 then LZ4F_blockIndependent
                           else LZ4F_blockLinked;
              blockSizeID := block_id;
              contentChecksumFlag := if checksum =? 0 then LZ4F_noContentChecksum
                                     else LZ4F_contentChecksumEnabled |};
         compressionLevel := compression_level;
         autoFlush := if autoflush =? 0 then 0 else 1 |} in
    output <- PyBytes_FromStringAndSize output_len ;;
    '(code, written) <- call_compressBegin output_len prefs ;;
    output_len <- BAIL_ON_LZ4_ERROR code ;;
    output <- _PyBytes_Resize (buf_write output 0 written) output_len ;;
    ret (PyBytes_value output).

(** *** [compress_update(ctx, b)] *)
Definition _lz4framed_compress_update (ctx_capsule : capsule) (b : list byte)
  : Py cctx (list byte) :=
  let input_len := len b in
  if negb (PyCapsule_IsValid ctx_capsule COMPRESSION_CAPSULE_NAME) then
    raise (ValueError "ctx invalid")
  else if input_len <=? 0 then raise (ValueError "b (data) is empty")
  else
    output_len <- BAIL_ON_LZ4_ERROR (LZ4F_compressBound input_len None) ;;
    output <- PyBytes_FromStringAndSize output_len ;;
    '(code, written) <- call_compressUpdate output_len b ;;
    output_len <- BAIL_ON_LZ4_ERROR code ;;
    output <- _PyBytes_Resize (buf_write output 0 written) output_len ;;
    ret (PyBytes_value output).

(** *** [compress_end(ctx)] *)
Definition _lz4framed_compress_end (arg : capsule) : Py cctx (list byte) :=
  if negb (PyCapsule_IsValid arg COMPRESSION_CAPSULE_NAME) then
    raise (ValueError "ctx invalid")
  else
    output_len <- BAIL_ON_LZ4_ERROR (LZ4F_compressBound 0 None) ;;
    output <- PyBytes_FromStringAndSize output_len ;;
    '(code, written) <- call_compressEnd output_len ;;
    output_len <- BAIL_ON_LZ4_ERROR code ;;
    output <- _PyBytes_Resize (buf_write output 0 written) output_len ;;
    ret (PyBytes_value output).

(** *** [get_frame_info(ctx)] *)
Definition _lz4framed_get_frame_info (arg : capsule)
  : Py dctx (list (string * PyObject)) :=
  if negb (PyCapsule_IsValid arg DECOMPRESSION_CAPSULE_NAME) then
    raise (ValueError "ctx invalid")
  else
    (* src is NULL and input_read is 0 *)
    '(code, frameInfo, _) <- call_getFrameInfo [] ;;
    input_hint <- BAIL_ON_LZ4_ERROR code ;;
    let dict := [] in
    let dict := PyDict_SetItemString dict "input_hint" (PyLong input_hint) in
    let dict := PyDict_SetItemString dict "length" (PyLong (contentSize frameInfo)) in
    let dict := PyDict_SetItemString dict "block_size_id" (PyLong (blockSizeID frameInfo)) in
    let dict := PyDict_SetItemString dict "block_mode_linked"
                  (PyBool match blockMode frameInfo with
                          | LZ4F_blockLinked => true
                          | LZ4F_blockIndependent => false
                          end) in
    let dict := PyDict_SetItemString dict "checksum"
                  (PyBool match contentChecksumFlag frameInfo with
                          | LZ4F_contentChecksumEnabled => true
                          | LZ4F_noContentChecksum => false
                          end) in
    ret dict.

(** *** [decompress_update(ctx, b, chunk_len)] *)

(** The local variables of the chunking loop; [du_list] is the Python list
    being built, [du_chunk_pos] the offset of [chunk_pos] in [chunk]. *)
Record update_vars : Type := {
  du_input : list byte;
  du_input_size_hint : Z;
  du_list : list PyObject;
  du_chunk : pybuf;
  du_chunk_pos : Z;
  du_chunk_remaining : Z
}.

Definition decompress_update_body (chunk_len : Z) (v : update_vars)
  : Py dctx (iter update_vars) :=
  v <- (if du_chunk_remaining v <=? 0 then
          (* append previous (full) chunk to list *)
          chunk <- PyBytes_FromStringAndSize chunk_len ;;
          ret {| du_input := du_input v; du_input_size_hint := du_input_size_hint v;
                 du_list := du_list v ++ [PyBytes (PyBytes_value (du_chunk v))];
                 du_chunk := chunk; du_chunk_pos := 0;
                 du_chunk_remaining := chunk_len |}
        else ret v) ;;
  '(code, written, input_read) <-
    call_decompress (du_chunk_remaining v) (du_input v) false ;;
  input_size_hint <- BAIL_ON_LZ4_ERROR code ;;
  let chunk_written := len written in
  ret (Continue {| du_input := skipn (Z.to_nat input_read) (du_input v);
                   du_input_size_hint := input_size_hint;
                   du_list := du_list v;
                   du_chunk := buf_write (du_chunk v) (du_chunk_pos v) written;
                   du_chunk_pos := du_chunk_pos v + chunk_written;
                   du_chunk_remaining := size_sub (du_chunk_remaining v) chunk_written |}).

Definition decompress_update_loop (fuel : nat) (chunk_len : Z) (v : update_vars)
  : Py dctx update_vars :=
  while_loop fuel (fun v => (0 <? len (du_input v)) && (0 <? du_input_size_hint v))
             (decompress_update_body chunk_len) v.

Definition _lz4framed_decompress_update (fuel : nat) (ctx_capsule : capsule)
           (b : list byte) (chunk_len : option Z) : Py dctx (list PyObject) :=
  let input_remaining := len b in
  let input_size_hint := 1 in
  chunk_len <- arg_int_into_size_t 65536 chunk_len ;;
  if negb (PyCapsule_IsValid ctx_capsule DECOMPRESSION_CAPSULE_NAME) then
    raise (ValueError "ctx invalid")
  else if input_remaining <=? 0 then raise (ValueError "b (data) is empty")
  else if chunk_len <=? 0 then raise (ValueError "chunk_len invalid")
  else
    (* output list *)
    let list := [] in
    (* first chunk *)
    chunk <- PyBytes_FromStringAndSize chunk_len ;;
    v <- decompress_update_loop fuel chunk_len
           {| du_input := b; du_input_size_hint := input_size_hint;
              du_list := list; du_chunk := chunk; du_chunk_pos := 0;
              du_chunk_remaining := chunk_len |} ;;
    (* append & reduce size of final chunk (if contains any data) *)
    list <- (if du_chunk_remaining v <? chunk_len then
               chunk <- _PyBytes_Resize (du_chunk v)
                          (size_sub chunk_len (du_chunk_remaining v)) ;;
               ret (du_list v ++ [PyBytes (PyBytes_value chunk)])
             else ret (du_list v)) ;;
    (* append input size hint to list *)
    ret (list ++ [PyLong (du_input_size_hint v)]).

End Module_functions.

(** *** Driving the incremental interface *)

Definition arg_value (initial : Z) (a : option Z) : Z :=
  match a with
  | None => initial
  | Some z => z
  end.

Definition arg_in_range (a : option Z) : Prop :=
  forall z, a = Some z -> INT_MIN <= z <= INT_MAX.

(** The preferences the two compression entry points build from their
    arguments; they differ in [contentSize] and [autoFlush] only. *)
Definition preferences_of (block_size_id block_mode_linked checksum level : option Z)
           (content_size autoflush : Z) : LZ4F_preferences_t :=
  {| frameInfo :=
       {| contentSize := content_size;
          blockMode := if arg_value 1 block_mode_linked =? 0 then LZ4F_blockIndependent
                       else LZ4F_blockLinked;
          blockSizeID := arg_value LZ4F_default block_size_id;
          contentChecksumFlag := if arg_value 0 checksum =? 0 then LZ4F_noContentChecksum
                                 else LZ4F_contentChecksumEnabled |};
     compressionLevel := arg_value 0 level;
     autoFlush := autoflush |}.

Definition valid_preferences (block_size_id block_mode_linked checksum level : option Z)
  : Prop :=
  arg_in_range block_size_id /\ arg_in_range block_mode_linked /\
  arg_in_range checksum /\ arg_in_range level /\
  _valid_lz4f_block_size_id (arg_value LZ4F_default block_size_id) = true /\
  0 <= arg_value 0 level <= 16.

Section Incremental_compression.
Context {L : LZ4F}.

Fixpoint compress_updates (ctx_capsule : capsule) (chunks : list (list byte))
  : Py cctx (list byte) :=
  match chunks with
  | [] => ret []
  | c :: chunks' =>
    o <- _lz4framed_compress_update ctx_capsule c ;;
    os <- compress_updates ctx_capsule chunks' ;;
    ret (o ++ os)
  end.

(** [compress_begin], one [compress_update] per chunk and [compress_end] on
    a fresh context; the outputs concatenated. *)
Definition compress_incremental (chunks : list (list byte))
           (block_size_id block_mode_linked checksum level : option Z)
  : outcome (list byte) :=
  match _lz4framed_create_compression_context with
  | Returns (ctx_capsule, ctx) =>
    fst (fst ((h <- _lz4framed_compress_begin ctx_capsule block_size_id block_mode_linked
                                             checksum None level ;;
               u <- compress_updates ctx_capsule chunks ;;
               e <- _lz4framed_compress_end ctx_capsule ;;
               ret (h ++ u ++ e)) ctx))
  | Raises e => Raises e
  | OutOfFuel => OutOfFuel
  end.
End Incremental_compression.

(** *** Module initialisation ([PyInit__lz4framed]) *)

(** What [PyInit__lz4framed] adds to the module: the exception type, two
    string constants and the integer constants. *)
Inductive module_value : Type :=
| ModException (qualified_name : string)
| ModString (s : string)
| ModInt (z : Z).

(** [VERSION], [LZ4_VERSION] and [LZ4F_VERSION] are fixed when the module is
    compiled.  [PyModule_AddIntMacro(module, X)] adds the value of [X] under the
    name [X]. *)
Definition PyInit__lz4framed (VERSION LZ4_VERSION : string) (LZ4F_VERSION : Z)
  : list (string * module_value) :=
  [ ("Lz4FramedError"%string, ModException "_lz4framed.Lz4FramedError");
    ("__version__"%string, ModString VERSION);
    ("LZ4_VERSION"%string, ModString LZ4_VERSION);
    ("LZ4F_VERSION"%string, ModInt LZ4F_VERSION);
    ("LZ4F_ERROR_GENERIC"%string, ModInt (error_number LZ4F_ERROR_GENERIC));
    ("LZ4F_ERROR_maxBlockSize_invalid"%string,
     ModInt (error_number LZ4F_ERROR_maxBlockSize_invalid));
    ("LZ4F_ERROR_blockMode_invalid"%string, ModInt (error_number LZ4F_ERROR_blockMode_invalid));
    ("LZ4F_ERROR_contentChecksumFlag_invalid"%string,
     ModInt (error_number LZ4F_ERROR_contentChecksumFlag_invalid));
    ("LZ4F_ERROR_compressionLevel_invalid"%string,
     ModInt (error_number LZ4F_ERROR_compressionLevel_invalid));
    ("LZ4F_ERROR_headerVersion_wrong"%string,
     ModInt (error_number LZ4F_ERROR_headerVersion_wrong));
    ("LZ4F_ERROR_blockChecksum_unsupported"%string,
     ModInt (error_number LZ4F_ERROR_blockChecksum_unsupported));
    ("LZ4F_ERROR_reservedFlag_set"%string, ModInt (error_number LZ4F_ERROR_reservedFlag_set));
    ("LZ4F_ERROR_allocation_failed"%string,
     ModInt (error_number LZ4F_ERROR_allocation_failed));
    ("LZ4F_ERROR_srcSize_tooLarge"%string, ModInt (error_number LZ4F_ERROR_srcSize_tooLarge));
    ("LZ4F_ERROR_dstMaxSize_tooSmall"%string,
     ModInt (error_number LZ4F_ERROR_dstMaxSize_tooSmall));
    ("LZ4F_ERROR_frameHeader_incomplete"%string,
     ModInt (error_number LZ4F_ERROR_frameHeader_incomplete));
    ("LZ4F_ERROR_frameType_unknown"%string,
     ModInt (error_number LZ4F_ERROR_frameType_unknown));
    ("LZ4F_ERROR_frameSize_wrong"%string, ModInt (error_number LZ4F_ERROR_frameSize_wrong));
    ("LZ4F_ERROR_srcPtr_wrong"%string, ModInt (error_number LZ4F_ERROR_srcPtr_wrong));
    ("LZ4F_ERROR_decompressionFailed"%string,
     ModInt (error_number LZ4F_ERROR_decompressionFailed));
    ("LZ4F_ERROR_headerChecksum_invalid"%string,
     ModInt (error_number LZ4F_ERROR_headerChecksum_invalid));
    ("LZ4F_ERROR_contentChecksum_invalid"%string,
     ModInt (error_number LZ4F_ERROR_contentChecksum_invalid));
    ("LZ4F_BLOCKSIZE_DEFAULT"%string, ModInt LZ4F_default);
    ("LZ4F_BLOCKSIZE_MAX64KB"%string, ModInt LZ4F_max64KB);
    ("LZ4F_BLOCKSIZE_MAX256KB"%string, ModInt LZ4F_max256KB);
    ("LZ4F_BLOCKSIZE_MAX1M"%string, ModInt LZ4F_max1MB);
    ("LZ4F_BLOCKSIZE_MAX4M"%string, ModInt LZ4F_max4MB) ].

(** Attribute lookup on the module. *)
Fixpoint module_getattr (m : list (string * module_value)) (name : string)
  : option module_value :=
  match m with
  | [] => None
  | (k, v) :: m' => if String.eqb k name then Some v else module_getattr m' name
  end.

(** The names of the block size constants. *)
Definition block_size_constants : list string :=
  ["LZ4F_BLOCKSIZE_DEFAULT"; "LZ4F_BLOCKSIZE_MAX64KB"; "LZ4F_BLOCKSIZE_MAX256KB";
   "LZ4F_BLOCKSIZE_MAX1M"; "LZ4F_BLOCKSIZE_MAX4M"]%string.

(* ================================================================= *)
(** ** What the module expects of the library *)
Definition mismatch_warning : string := "lz4frame contentSize mismatch".

(** The capacities a buffer of capacity [L] goes through, by doubling, until
    [n] bytes fit. *)
Inductive doubling_chain : Z -> Z -> list Z -> Prop :=
| chain_fits (L n : Z) : n <= L -> doubling_chain L n []
| chain_grows (L n : Z) (caps : list Z) :
    L < n -> doubling_chain (2 * L) n caps -> doubling_chain L n (2 * L :: caps).

(** The events of growing through [caps]; with a declared content size each
    growth is preceded by the mismatch warning. *)
Definition growth_events (declared : bool) (caps : list Z) : list event :=
  flat_map (fun c => (if declared then [EvWarn mismatch_warning] else []) ++ [EvResize c]) caps.

Section Contract.
Context {L : LZ4F}.

(** [s] and [i] are the same bytes as far as both go. *)
Definition agree (s i : list byte) : Prop := exists t, s = i ++ t \/ i = s ++ t.

(** What the module relies on from a streaming decoder.  [Decoding d i o]
    reads: a context in state [d] that is given the bytes [i], the rest of
    its frame, has the content [o] still to deliver. *)
Record DecoderSpec (Decoding : dctx -> list byte -> list byte -> Prop) : Prop := {
  decoder_creates : LZ4F_isError (fst LZ4F_createDecompressionContext) = false;
  decoder_step :
    forall (d d' : dctx) (i o s w : list byte) (cap code n : Z) (stable : bool),
      Decoding d i o -> 0 <= cap -> agree s i ->
      LZ4F_decompress d cap s stable = (code, w, n, d') ->
      LZ4F_isError code = false /\ 0 <= code /\
      0 <= n /\ n <= len s /\ n <= len i /\
      len w <= cap /\ w = firstn (length w) o /\
      (code = 0 <-> n = len i) /\
      (code = 0 -> w = o) /\
      (code <> 0 -> Decoding d' (skipn (Z.to_nat n) i) (skipn (length w) o)) /\
      (code <> 0 -> n < len s -> len w = cap /\ cap < len o)
}.

(** A frame as [decompress] meets it: the header parses on a fresh context,
    [h] bytes long, and what follows decodes to [o] (bytes after the end of
    the frame may trail). *)
Definition frame_decodes (Decoding : dctx -> list byte -> list byte -> Prop)
           (frame : list byte) (info : LZ4F_frameInfo_t) (h : Z) (o : list byte) : Prop :=
  exists (hint : Z) (d1 : dctx) (i t : list byte),
    LZ4F_getFrameInfo (snd LZ4F_createDecompressionContext) frame = (hint, info, h, d1) /\
    LZ4F_isError hint = false /\ hint <> 0 /\
    0 <= h <= len frame /\
    skipn (Z.to_nat h) frame = i ++ t /\
    Decoding d1 i o.

(** The elementary promises of the two buffer arguments. *)
Definition ApiBounds : Prop :=
  forall (d d' : dctx) (s w : list byte) (cap code n : Z) (stable : bool),
    0 <= cap -> LZ4F_decompress d cap s stable = (code, w, n, d') ->
    len w <= cap /\ 0 <= n <= len s.

(** What the module sees of a decoder that turns a frame down.
    [Rejecting d i o e] reads: a context in state [d] that is given the
    bytes [i] has the content [o] still to deliver and fails with the error
    [e] at the last byte of [i].  The error is reported once the content
    has been delivered; until then a call is like one of a decoder that
    will finish. *)
Record RejectSpec (Rejecting : dctx -> list byte -> list byte -> LZ4F_errorCodes -> Prop)
  : Prop := {
  rejecter_creates : LZ4F_isError (fst LZ4F_createDecompressionContext) = false;
  rejecter_step :
    forall (d d' : dctx) (i o s w : list byte) (cap code n : Z) (stable : bool)
           (e : LZ4F_errorCodes),
      Rejecting d i o e -> 0 <= cap -> agree s i ->
      LZ4F_decompress d cap s stable = (code, w, n, d') ->
      (LZ4F_isError code = true ->
       code = LZ4F_error e /\ len i <= len s /\ len o <= cap) /\
      (LZ4F_isError code = false ->
       0 <= code /\ code <> 0 /\
       0 <= n <= len s /\ n < len i /\
       len w <= cap /\ w = firstn (length w) o /\
       Rejecting d' (skipn (Z.to_nat n) i) (skipn (length w) o) e /\
       (n < len s -> len w = cap /\ cap < len o))
}.

(** A frame as [decompress] meets it when the decoder turns it down: the
    header parses on a fresh context, [h] bytes long, and what follows
    delivers [o] and fails with [e] (bytes after the failing one may
    trail). *)
Definition frame_rejected
           (Rejecting : dctx -> list byte -> list byte -> LZ4F_errorCodes -> Prop)
           (frame : list byte) (info : LZ4F_frameInfo_t) (h : Z) (o : list byte)
           (e : LZ4F_errorCodes) : Prop :=
  exists (hint : Z) (d1 : dctx) (i t : list byte),
    LZ4F_getFrameInfo (snd LZ4F_createDecompressionContext) frame = (hint, info, h, d1) /\
    LZ4F_isError hint = false /\ hint <> 0 /\
    0 <= h <= len frame /\
    skipn (Z.to_nat h) frame = i ++ t /\
    Rejecting d1 i o e.
End Contract.

(* ================================================================= *)
(** ** A reference codec

    The LZ4 frame library is an external collaborator of the module; its code
    is not part of [py-lz4framed.c].  [Ref] implements the [LZ4F] interface
    from the frame format and the component descriptions of the
    specification, so that the module's functions can be run on actual
    frames. *)
Module Ref.

(** Modelled from the spec: the checksum primitive [checksum(bytes) -> uint32],
    which the frame format fixes to XXH32 with seed 0. *)
Definition mask32 (z : Z) : Z := z mod 2 ^ 32.
Definition rotl32 (x r : Z) : Z := mask32 (Z.lor (Z.shiftl x r) (Z.shiftr x (32 - r))).
Definition PRIME32_1 : Z := 2654435761.
Definition PRIME32_2 : Z := 2246822519.
Definition PRIME32_3 : Z := 3266489917.
Definition PRIME32_4 : Z := 668265263.
Definition PRIME32_5 : Z := 374761393.
Definition read32 (a b c d : Z) : Z := a + 256 * b + 65536 * c + 16777216 * d.
Definition XXH32_round (acc input : Z) : Z :=
  mask32 (rotl32 (mask32 (acc + input * PRIME32_2)) 13 * PRIME32_1).

Fixpoint XXH32_stripes (n : nat) (l : list Z) (v : Z * Z * Z * Z)
  : (Z * Z * Z * Z) * list Z :=
  match n with
  | O => (v, l)
  | S n' =>
    match l with
    | a0 :: a1 :: a2 :: a3 :: b0 :: b1 :: b2 :: b3
         :: c0 :: c1 :: c2 :: c3 :: d0 :: d1 :: d2 :: d3 :: rest =>
      let '(v1, v2, v3, v4) := v in
      XXH32_stripes n' rest
        (XXH32_round v1 (read32 a0 a1 a2 a3), XXH32_round v2 (read32 b0 b1 b2 b3),
         XXH32_round v3 (read32 c0 c1 c2 c3), XXH32_round v4 (read32 d0 d1 d2 d3))
    | _ => (v, l)
    end
  end.

Fixpoint XXH32_tail (n : nat) (l : list Z) (h : Z) : Z :=
  match n with
  | O => h
  | S n' =>
    match l with
    | a :: b :: c :: d :: rest =>
      XXH32_tail n' rest
        (mask32 (rotl32 (mask32 (h + read32 a b c d * PRIME32_3)) 17 * PRIME32_4))
    | x :: rest =>
      XXH32_tail n' rest (mask32 (rotl32 (mask32 (h + x * PRIME32_5)) 11 * PRIME32_1))
    | [] => h
    end
  end.

Definition XXH32_avalanche (h : Z) : Z :=
  let h := mask32 (Z.lxor h (Z.shiftr h 15) * PRIME32_2) in
  let h := mask32 (Z.lxor h (Z.shiftr h 13) * PRIME32_3) in
  Z.lxor h (Z.shiftr h 16).

Definition XXH32 (l : list Z) (seed : Z) : Z :=
  let n := len l in
  let '(h, rest) :=
    if 16 <=? n then
      let '((v1, v2, v3, v4), rest) :=
        XXH32_stripes (length l) l
          (mask32 (seed + PRIME32_1 + PRIME32_2), mask32 (seed + PRIME32_2),
           mask32 seed, mask32 (seed - PRIME32_1)) in
      (mask32 (rotl32 v1 1 + rotl32 v2 7 + rotl32 v3 12 + rotl32 v4 18), rest)
    else (mask32 (seed + PRIME32_5), l) in
  XXH32_avalanche (XXH32_tail (length rest) rest (mask32 (h + n))).

Definition checksum (l : list byte) : Z := XXH32 (map Z_of_byte l) 0.

(** Modelled from the spec: the external block codec ([compressBlock],
    [decompressBlock]); a block that does not shrink is stored. *)
Record BlockCodec : Type := {
  compressBlock : list byte -> list byte;
  decompressBlock : list byte -> option (list byte)
}.

(** A block codec to run examples with: run lengths, as (count, byte) pairs. *)
Fixpoint rle_encode (l : list byte) : list byte :=
  match l with
  | [] => []
  | b :: t =>
    match rle_encode t with
    | c :: b' :: r =>
      if Byte.eqb b b' && (Z_of_byte c <? 255) then byte_of_Z (Z_of_byte c + 1) :: b :: r
      else x01 :: b :: c :: b' :: r
    | _ => [x01; b]
    end
  end.

Fixpoint rle_decode (l : list byte) : option (list byte) :=
  match l with
  | [] => Some []
  | c :: b :: r => option_map (app (repeat b (Z.to_nat (Z_of_byte c)))) (rle_decode r)
  | [_] => None
  end.

Definition rle : BlockCodec := {| compressBlock := rle_encode; decompressBlock := rle_decode |}.

(** *** Frame layout *)
Definition LZ4F_MAGICNUMBER : Z := 0x184D2204.
Definition minFHSize : Z := 7.
Definition maxFHSize : Z := 15.
Definition BHSize : Z := 4.
Definition LZ4F_BLOCKUNCOMPRESSED_FLAG : Z := 0x80000000.

Definition getBlockSize (blockSizeID : Z) : Z :=
  _lz4f_block_size_from_id blockSizeID.

(** Modelled from the spec: [FrameHeaderBuilder].  Magic number, the FLG and
    BD bytes, the optional 8-byte content size, the header checksum byte. *)
Definition frame_descriptor (fi : LZ4F_frameInfo_t) : list byte :=
  let FLG :=
    Z.lor (Z.shiftl 1 6)
      (Z.lor (Z.shiftl (match blockMode fi with
                        | LZ4F_blockIndependent => 1
                        | LZ4F_blockLinked => 0
                        end) 5)
         (Z.lor (Z.shiftl (if 0 <? contentSize fi then 1 else 0) 3)
            (Z.shiftl (match contentChecksumFlag fi with
                       | LZ4F_contentChecksumEnabled => 1
                       | LZ4F_noContentChecksum => 0
                       end) 2))) in
  let bsid := if blockSizeID fi =? LZ4F_default then LZ4F_max64KB else blockSizeID fi in
  let BD := Z.shiftl (Z.land bsid 7) 4 in
  byte_of_Z FLG :: byte_of_Z BD
    :: (if 0 <? contentSize fi then le_bytes 8 (contentSize fi) else []).

Definition headerChecksum (descriptor : list byte) : byte :=
  byte_of_Z (Z.land (Z.shiftr (checksum descriptor) 8) 255).

Definition frame_header (fi : LZ4F_frameInfo_t) : list byte :=
  le_bytes 4 LZ4F_MAGICNUMBER ++ frame_descriptor fi
    ++ [headerChecksum (frame_descriptor fi)].

Definition default_frameInfo : LZ4F_frameInfo_t :=
  {| blockSizeID := LZ4F_default; blockMode := LZ4F_blockLinked;
     contentChecksumFlag := LZ4F_noContentChecksum; contentSize := 0 |}.

(** Modelled from the spec: [FrameHeaderParser], on the bytes of one whole
    header. *)
Definition decodeHeader (h : list byte) : LZ4F_errorCodes + LZ4F_frameInfo_t :=
  match h with
  | m0 :: m1 :: m2 :: m3 :: flg :: bd :: rest =>
    let FLG := Z_of_byte flg in
    let BD := Z_of_byte bd in
    let version := Z.land (Z.shiftr FLG 6) 3 in
    let blockModeBit := Z.land (Z.shiftr FLG 5) 1 in
    let blockChecksumFlag := Z.land (Z.shiftr FLG 4) 1 in
    let contentSizeFlag := Z.land (Z.shiftr FLG 3) 1 in
    let contentChecksumBit := Z.land (Z.shiftr FLG 2) 1 in
    let bsid := Z.land (Z.shiftr BD 4) 7 in
    let size_len := if contentSizeFlag =? 0 then 0%nat else 8%nat in
    let size_field := firstn size_len rest in
    let HC := nth size_len rest x00 in
    if negb (le_value [m0; m1; m2; m3] =? LZ4F_MAGICNUMBER) then
      inl LZ4F_ERROR_frameType_unknown
    else if negb (version =? 1) then inl LZ4F_ERROR_headerVersion_wrong
    else if negb (blockChecksumFlag =? 0) then inl LZ4F_ERROR_blockChecksum_unsupported
    else if negb (Z.land FLG 3 =? 0) then inl LZ4F_ERROR_reservedFlag_set
    else if negb (Z.land (Z.shiftr BD 7) 1 =? 0) then inl LZ4F_ERROR_reservedFlag_set
    else if bsid <? 4 then inl LZ4F_ERROR_maxBlockSize_invalid
    else if negb (Z.land BD 15 =? 0) then inl LZ4F_ERROR_reservedFlag_set
    else if negb (Byte.eqb (headerChecksum (flg :: bd :: size_field)) HC) then
      inl LZ4F_ERROR_headerChecksum_invalid
    else
      inr {| blockSizeID := bsid;
             blockMode := if blockModeBit =? 0 then LZ4F_blockLinked
                          else LZ4F_blockIndependent;
             contentChecksumFlag := if contentChecksumBit =? 0 then LZ4F_noContentChecksum
                                    else LZ4F_contentChecksumEnabled;
             contentSize := le_value size_field |}
  | _ => inl LZ4F_ERROR_frameHeader_incomplete
  end.

(** The size of the header that starts with [src]: known once the FLG byte
    is there. *)
Definition LZ4F_headerSize (src : list byte) : LZ4F_errorCodes + Z :=
  match src with
  | m0 :: m1 :: m2 :: m3 :: flg :: _ =>
    if negb (le_value [m0; m1; m2; m3] =? LZ4F_MAGICNUMBER) then
      inl LZ4F_ERROR_frameType_unknown
    else if Z.land (Z.shiftr (Z_of_byte flg) 3) 1 =? 0 then inr minFHSize
    else inr maxFHSize
  | _ => inl LZ4F_ERROR_frameHeader_incomplete
  end.

Section Codec.
Variable bc : BlockCodec.

(** *** Frame writer *)

(** Modelled from the spec: [BlockEncoder].  A block is its 4-byte size
    prefix and its payload, stored when compression does not shrink it. *)
Definition encode_block (data : list byte) : list byte :=
  let c := compressBlock bc data in
  if len c <? len data then le_bytes 4 (len c) ++ c
  else le_bytes 4 (Z.lor (len data) LZ4F_BLOCKUNCOMPRESSED_FLAG) ++ data.

Record compression_context : Type := {
  c_prefs : LZ4F_preferences_t;
  c_started : bool;
  c_tmpIn : list byte;      (* input not yet making a whole block *)
  c_content : list byte     (* the content so far, for the content checksum *)
}.

Definition new_compression_context : compression_context :=
  {| c_prefs := {| frameInfo := default_frameInfo; compressionLevel := 0; autoFlush := 0 |};
     c_started := false; c_tmpIn := []; c_content := [] |}.

(** Input goes to the accumulation buffer byte after byte; a buffer that
    holds a whole block is emitted. *)
Fixpoint feed_input (blockSize : Z) (tmpIn src : list byte) : list byte * list byte :=
  match src with
  | [] => ([], tmpIn)
  | b :: rest =>
    let tmpIn := tmpIn ++ [b] in
    if blockSize <=? len tmpIn then
      let '(out, t) := feed_input blockSize [] rest in
      (encode_block tmpIn ++ out, t)
    else feed_input blockSize tmpIn rest
  end.

Definition flush_input (tmpIn : list byte) : list byte :=
  match tmpIn with
  | [] => []
  | _ :: _ => encode_block tmpIn
  end.

(** Modelled from the spec: [FrameFinalizer]. *)
Definition frame_end (fi : LZ4F_frameInfo_t) (content : list byte) : list byte :=
  le_bytes 4 0
    ++ match contentChecksumFlag fi with
       | LZ4F_contentChecksumEnabled => le_bytes 4 (checksum content)
       | LZ4F_noContentChecksum => []
       end.

Definition NULL_preferences : LZ4F_preferences_t :=
  {| frameInfo := {| blockSizeID := LZ4F_default; blockMode := LZ4F_blockLinked;
                     contentChecksumFlag := LZ4F_contentChecksumEnabled;  (* worst case *)
                     contentSize := 0 |};
     compressionLevel := 0; autoFlush := 0 |}.

Definition compressBound (srcSize : Z) (preferencesPtr : option LZ4F_preferences_t) : Z :=
  let prefs := match preferencesPtr with Some p => p | None => NULL_preferences end in
  let blockSize := getBlockSize (blockSizeID (frameInfo prefs)) in
  let nbBlocks := srcSize / blockSize + 1 in
  let lastBlockSize := if autoFlush prefs =? 0 then blockSize else srcSize mod blockSize in
  let blockInfo := 4 in
  let frameEnd := 4 + match contentChecksumFlag (frameInfo prefs) with
                      | LZ4F_contentChecksumEnabled => 4
                      | LZ4F_noContentChecksum => 0
                      end in
  blockInfo * nbBlocks + blockSize * (nbBlocks - 1) + lastBlockSize + frameEnd.

Definition with_autoFlush (p : LZ4F_preferences_t) (a : Z) : LZ4F_preferences_t :=
  {| frameInfo := frameInfo p; compressionLevel := compressionLevel p; autoFlush := a |}.

Definition compressFrameBound (srcSize : Z) (prefs : LZ4F_preferences_t) : Z :=
  maxFHSize + compressBound srcSize (Some (with_autoFlush prefs 1)).

(** Modelled from the spec: one-shot compress.  Header, the input as
    blocks of the block size class, end marker and optional checksum. *)
Definition frame_of (prefs : LZ4F_preferences_t) (src : list byte) : list byte :=
  let '(out, t) := feed_input (getBlockSize (blockSizeID (frameInfo prefs))) [] src in
  frame_header (frameInfo prefs) ++ out ++ flush_input t
    ++ frame_end (frameInfo prefs) src.

Definition compressFrame (dstMaxSize : Z) (src : list byte) (prefs : LZ4F_preferences_t)
  : Z * list byte :=
  if negb (_valid_lz4f_block_size_id (blockSizeID (frameInfo prefs))) then
    (LZ4F_error LZ4F_ERROR_maxBlockSize_invalid, [])
  else if dstMaxSize <? compressFrameBound (len src) prefs then
    (LZ4F_error LZ4F_ERROR_dstMaxSize_tooSmall, [])
  else (len (frame_of prefs src), frame_of prefs src).

(** Modelled from the spec: [begin] locks the preferences in and emits the
    header; it fails on a context that is mid-frame. *)
Definition compressBegin (c : compression_context) (dstMaxSize : Z)
           (prefs : LZ4F_preferences_t) : Z * list byte * compression_context :=
  if c_started c then (LZ4F_error LZ4F_ERROR_GENERIC, [], c)
  else if negb (_valid_lz4f_block_size_id (blockSizeID (frameInfo prefs))) then
    (LZ4F_error LZ4F_ERROR_maxBlockSize_invalid, [], c)
  else if dstMaxSize <? maxFHSize then (LZ4F_error LZ4F_ERROR_dstMaxSize_tooSmall, [], c)
  else
    let header := frame_header (frameInfo prefs) in
    (len header, header,
     {| c_prefs := prefs; c_started := true; c_tmpIn := []; c_content := [] |}).

(** Modelled from the spec: [update] compresses the complete blocks and
    keeps the remainder, unless [autoFlush] was requested.  The
    destination must be as large as the bound for the context's own
    preferences. *)
Definition compressUpdate (c : compression_context) (dstMaxSize : Z) (src : list byte)
  : Z * list byte * compression_context :=
  if negb (c_started c) then (LZ4F_error LZ4F_ERROR_GENERIC, [], c)
  else if dstMaxSize <? compressBound (len src) (Some (c_prefs c)) then
    (LZ4F_error LZ4F_ERROR_dstMaxSize_tooSmall, [], c)
  else
    let '(out, t) :=
      feed_input (getBlockSize (blockSizeID (frameInfo (c_prefs c)))) (c_tmpIn c) src in
    let flushed := if autoFlush (c_prefs c) =? 0 then [] else flush_input t in
    let t := if autoFlush (c_prefs c) =? 0 then t else [] in
    (len (out ++ flushed), out ++ flushed,
     {| c_prefs := c_prefs c; c_started := true; c_tmpIn := t;
        c_content := c_content c ++ src |}).

(** Modelled from the spec: [end] flushes the buffered input as a final
    block, appends the end marker and the optional content checksum, and
    returns the context to the empty state. *)
Definition compressEnd (c : compression_context) (dstMaxSize : Z)
  : Z * list byte * compression_context :=
  if negb (c_started c) then (LZ4F_error LZ4F_ERROR_GENERIC, [], c)
  else
    let out := flush_input (c_tmpIn c) ++ frame_end (frameInfo (c_prefs c)) (c_content c) in
    if dstMaxSize <? len out then (LZ4F_error LZ4F_ERROR_dstMaxSize_tooSmall, [], c)
    else (len out, out, new_compression_context).

(** *** Frame reader *)

(** Modelled from the spec: the incremental decoder as an explicit state,
    awaiting a header ([dstage_getHeader]), streaming blocks, or awaiting
    the content checksum. *)
Inductive dstage : Type :=
| dstage_getHeader (tmpIn : list byte)
| dstage_getCBlockSize (tmpIn : list byte)
| dstage_copyDirect (remaining : Z)
| dstage_getCBlock (tmpIn : list byte) (remaining : Z)
| dstage_getSuffix (tmpIn : list byte).

Record decompression_context : Type := {
  d_stage : dstage;
  d_frameInfo : LZ4F_frameInfo_t;
  d_content : list byte;    (* the content decoded so far, for the content checksum *)
  d_tmpOut : list byte      (* decoded bytes not yet delivered *)
}.

Definition new_decompression_context : decompression_context :=
  {| d_stage := dstage_getHeader []; d_frameInfo := default_frameInfo;
     d_content := []; d_tmpOut := [] |}.

Definition with_stage (d : decompression_context) (s : dstage) : decompression_context :=
  {| d_stage := s; d_frameInfo := d_frameInfo d; d_content := d_content d;
     d_tmpOut := d_tmpOut d |}.

Definition with_tmpOut (d : decompression_context) (o : list byte) : decompression_context :=
  {| d_stage := d_stage d; d_frameInfo := d_frameInfo d; d_content := d_content d;
     d_tmpOut := o |}.

(** Decoded bytes [o] join the content and wait in [tmpOut]. *)
Definition produce (d : decompression_context) (s : dstage) (o : list byte)
  : decompression_context :=
  {| d_stage := s; d_frameInfo := d_frameInfo d; d_content := d_content d ++ o;
     d_tmpOut := d_tmpOut d ++ o |}.

Definition header_target (tmpIn : list byte) : Z :=
  match LZ4F_headerSize tmpIn with
  | inr n => n
  | inl _ => minFHSize
  end.

Inductive fed : Type :=
| FedError (e : LZ4F_errorCodes)
| FedDone
| FedMore (d : decompression_context).

(** Modelled from the spec: [BlockDecoder] and [FrameHeaderParser], one
    input byte at a time.  At the end mark the decoder compares the length
    it has decoded with a declared content size and turns the frame down
    with [LZ4F_ERROR_frameSize_wrong] when they differ. *)
Definition feed (d : decompression_context) (b : byte) : fed :=
  match d_stage d with
  | dstage_getHeader tmpIn =>
    let tmpIn := tmpIn ++ [b] in
    if len tmpIn <? header_target tmpIn then FedMore (with_stage d (dstage_getHeader tmpIn))
    else
      match decodeHeader tmpIn with
      | inl e => FedError e
      | inr fi => FedMore {| d_stage := dstage_getCBlockSize []; d_frameInfo := fi;
                             d_content := []; d_tmpOut := d_tmpOut d |}
      end
  | dstage_getCBlockSize tmpIn =>
    let tmpIn := tmpIn ++ [b] in
    if len tmpIn <? BHSize then FedMore (with_stage d (dstage_getCBlockSize tmpIn))
    else
      let v := le_value tmpIn in
      let size := Z.land v 0x7FFFFFFF in
      if size =? 0 then
        (* the end mark: a declared content size must have been met *)
        let frameRemainingSize :=
          size_sub (contentSize (d_frameInfo d)) (len (d_content d)) in
        if negb (contentSize (d_frameInfo d) =? 0) && negb (frameRemainingSize =? 0) then
          FedError LZ4F_ERROR_frameSize_wrong
        else
          match contentChecksumFlag (d_frameInfo d) with
          | LZ4F_contentChecksumEnabled => FedMore (with_stage d (dstage_getSuffix []))
          | LZ4F_noContentChecksum => FedDone
          end
      else if getBlockSize (blockSizeID (d_frameInfo d)) <? size then
        FedError LZ4F_ERROR_GENERIC
      else if Z.testbit v 31 then FedMore (with_stage d (dstage_copyDirect size))
      else FedMore (with_stage d (dstage_getCBlock [] size))
  | dstage_copyDirect remaining =>
    FedMore (produce d (if remaining <=? 1 then dstage_getCBlockSize []
                        else dstage_copyDirect (remaining - 1)) [b])
  | dstage_getCBlock tmpIn remaining =>
    let tmpIn := tmpIn ++ [b] in
    if 1 <? remaining then FedMore (with_stage d (dstage_getCBlock tmpIn (remaining - 1)))
    else
      match decompressBlock bc tmpIn with
      | None => FedError LZ4F_ERROR_decompressionFailed
      | Some o =>
        if getBlockSize (blockSizeID (d_frameInfo d)) <? len o then
          FedError LZ4F_ERROR_decompressionFailed
        else FedMore (produce d (dstage_getCBlockSize []) o)
      end
  | dstage_getSuffix tmpIn =>
    let tmpIn := tmpIn ++ [b] in
    if len tmpIn <? 4 then FedMore (with_stage d (dstage_getSuffix tmpIn))
    else if le_value tmpIn =? checksum (d_content d) then FedDone
    else FedError LZ4F_ERROR_contentChecksum_invalid
  end.

(** The hint: how many bytes the current unit still needs, plus the next
    block header; never more than a largest block and its header. *)
Definition input_hint (d : decompression_context) : Z :=
  Z.max 1
    (Z.min (getBlockSize LZ4F_max4MB + BHSize)
       match d_stage d with
       | dstage_getHeader tmpIn => header_target tmpIn - len tmpIn + BHSize
       | dstage_getCBlockSize tmpIn => BHSize - len tmpIn
       | dstage_copyDirect remaining => remaining + BHSize
       | dstage_getCBlock _ remaining => remaining + BHSize
       | dstage_getSuffix tmpIn => 4 - len tmpIn
       end).

(** Modelled from the spec: one call of the decoder.  Pending output is
    delivered first, as far as the destination has room; input is taken
    while no output is pending, up to the end of the frame. *)
Fixpoint decompress_run (d : decompression_context) (dstSize : Z) (src : list byte)
  : Z * list byte * Z * decompression_context :=
  let k := Z.min dstSize (len (d_tmpOut d)) in
  let out := firstn (Z.to_nat k) (d_tmpOut d) in
  let d := with_tmpOut d (skipn (Z.to_nat k) (d_tmpOut d)) in
  match d_tmpOut d with
  | _ :: _ => (input_hint d, out, 0, d)
  | [] =>
    match src with
    | [] => (input_hint d, out, 0, d)
    | b :: rest =>
      match feed d b with
      | FedError e => (LZ4F_error e, out, 0, d)
      | FedDone => (0, out, 1, new_decompression_context)
      | FedMore d' =>
        match decompress_run d' (dstSize - k) rest with
        | (code, w, n, d'') => (code, out ++ w, 1 + n, d'')
        end
      end
    end
  end.

Definition decompress (d : decompression_context) (dstSize : Z) (src : list byte)
           (stableDst : bool) : Z * list byte * Z * decompression_context :=
  decompress_run d dstSize src.

Definition header_parsed (d : decompression_context) : bool :=
  match d_stage d with
  | dstage_getHeader _ => false
  | _ => true
  end.

(** Modelled from the spec: [getFrameInfo] parses the header from the
    buffered and the newly supplied bytes, or reports the frame
    information of a header parsed earlier; with too few bytes it fails
    with the header-incomplete code and leaves the context alone. *)
Definition getFrameInfo (d : decompression_context) (src : list byte)
  : Z * LZ4F_frameInfo_t * Z * decompression_context :=
  match d_stage d with
  | dstage_getHeader tmpIn =>
    let hSize := header_target (tmpIn ++ src) in
    if len (tmpIn ++ src) <? hSize then
      (LZ4F_error LZ4F_ERROR_frameHeader_incomplete, default_frameInfo, 0, d)
    else
      match decompress_run d 0 (firstn (Z.to_nat (hSize - len tmpIn)) src) with
      | (code, _, n, d') =>
        if LZ4F_isError code then (code, default_frameInfo, 0, d)
        else if header_parsed d' then (code, d_frameInfo d', n, d')
        else (LZ4F_error LZ4F_ERROR_frameHeader_incomplete, default_frameInfo, 0, d)
      end
  | _ =>
    match decompress_run d 0 [] with
    | (code, _, _, d') => (code, d_frameInfo d, 0, d')
    end
  end.

Definition codec : LZ4F :=
  {| cctx := compression_context;
     dctx := decompression_context;
     LZ4F_createCompressionContext := (0, new_compression_context);
     LZ4F_createDecompressionContext := (0, new_decompression_context);
     LZ4F_compressFrameBound := compressFrameBound;
     LZ4F_compressFrame := compressFrame;
     LZ4F_compressBegin := compressBegin;
     LZ4F_compressBound := compressBound;
     LZ4F_compressUpdate := compressUpdate;
     LZ4F_compressEnd := compressEnd;
     LZ4F_getFrameInfo := getFrameInfo;
     LZ4F_decompress := decompress |}.

(** What a context in state [d] makes of the rest [i] of a frame when
    nothing limits the destination: the content still to come, provided
    [i] ends exactly where the frame does. *)
Fixpoint decode_rest (d : decompression_context) (i : list byte) : option (list byte) :=
  match i with
  | [] => None
  | b :: rest =>
    match feed (with_tmpOut d []) b with
    | FedError _ => None
    | FedDone => match rest with
                 | [] => Some (d_tmpOut d)
                 | _ :: _ => None
                 end
    | FedMore d' => option_map (app (d_tmpOut d)) (decode_rest d' rest)
    end
  end.

Definition Decoding (d : decompression_context) (i o : list byte) : Prop :=
  decode_rest d i = Some o.

(** What a context in state [d] makes of input [i] that it turns down at
    its last byte: the content delivered before, and the error. *)
Fixpoint reject_rest (d : decompression_context) (i : list byte)
  : option (list byte * LZ4F_errorCodes) :=
  match i with
  | [] => None
  | b :: rest =>
    match feed (with_tmpOut d []) b with
    | FedError e => match rest with
                    | [] => Some (d_tmpOut d, e)
                    | _ :: _ => None
                    end
    | FedDone => None
    | FedMore d' =>
      option_map (fun oe => (d_tmpOut d ++ fst oe, snd oe)) (reject_rest d' rest)
    end
  end.

Definition Rejecting (d : decompression_context) (i o : list byte)
           (e : LZ4F_errorCodes) : Prop :=
  reject_rest d i = Some (o, e).
End Codec.
End Ref.

(* ================================================================= *)
(** ** Definitions the statements use *)

(** The capacity [decompress] starts with: the declared content size, or the
    larger of [buffer_size] and the input left after the header. *)
Definition initial_capacity (info : LZ4F_frameInfo_t) (buffer_size rest : Z) : Z :=
  if 0 <? contentSize info then contentSize info else Z.max buffer_size rest.

(** The chunk length [decompress_update] works with, as a [size_t]. *)
Definition chunk_len_of (a : option Z) : Z :=
  match a with
  | None => 65536
  | Some c => store_int_in_size_t 65536 c
  end.

(** The variables of [decompress_update] when its loop starts. *)
Definition update_init (b : list byte) (chunk_len : Z) : update_vars :=
  {| du_input := b; du_input_size_hint := 1; du_list := [];
     du_chunk := buf_new chunk_len; du_chunk_pos := 0; du_chunk_remaining := chunk_len |}.

(** The shape of the list [decompress_update] returns: whole chunks, at most
    one shorter, non-empty chunk, the hint. *)
Definition chunked_result (chunk_len : Z) (full last : list (list byte)) (hint : Z)
           (r : list PyObject) : Prop :=
  r = map PyBytes (full ++ last) ++ [PyLong hint] /\
  Forall (fun c => len c = chunk_len) full /\
  (last = [] \/ exists c, last = [c] /\ 0 < len c <= chunk_len).

(** What every iteration of the chunking loop keeps: the list holds whole
    chunks, and the fill of the current chunk and its free room add up to
    [chunk_len]. *)
Definition update_inv (chunk_len : Z) (v : update_vars) (full : list (list byte)) : Prop :=
  du_list v = map PyBytes full /\
  Forall (fun c => len c = chunk_len) full /\
  buf_size (du_chunk v) = chunk_len /\
  du_chunk_pos v = len (buf_data (du_chunk v)) /\
  du_chunk_remaining v = chunk_len - len (buf_data (du_chunk v)) /\
  0 <= du_chunk_remaining v.

(** The first step of the loop body: a full chunk joins the list and a new
    one is started. *)
Definition next_chunk (chunk_len : Z) (v : update_vars) : update_vars :=
  if du_chunk_remaining v <=? 0 then
    {| du_input := du_input v; du_input_size_hint := du_input_size_hint v;
       du_list := du_list v ++ [PyBytes (PyBytes_value (du_chunk v))];
       du_chunk := buf_new chunk_len; du_chunk_pos := 0;
       du_chunk_remaining := chunk_len |}
  else v.

Definition update_cond (v : update_vars) : bool :=
  (0 <? len (du_input v)) && (0 <? du_input_size_hint v).

(** The state of a reference compression context that is mid-frame. *)
Definition mid_frame (p : LZ4F_preferences_t) (tmpIn content : list byte)
  : Ref.compression_context :=
  {| Ref.c_prefs := p; Ref.c_started := true; Ref.c_tmpIn := tmpIn; Ref.c_content := content |}.

(** The destination [compress_update] and [compress_end] allocate is sized
    for the default preferences; the reference codec wants the bound for the
    preferences of its context. *)
Definition update_fits (p : LZ4F_preferences_t) (n : Z) : bool :=
  negb (Ref.compressBound n None <? Ref.compressBound n (Some p)).

Definition too_small : PyExc := Lz4FramedError "ERROR_dstMaxSize_tooSmall" 11.

Section Reference_outputs.
Variable bc : Ref.BlockCodec.

(** What [compress_end] has to write. *)
Definition end_output (p : LZ4F_preferences_t) (tmpIn content : list byte) : list byte :=
  Ref.flush_input bc tmpIn ++ Ref.frame_end (frameInfo p) content.

(** The bytes of a frame after its header: the blocks, the end mark, the
    optional content checksum. *)
Definition frame_body (p : LZ4F_preferences_t) (b : list byte) : list byte :=
  fst (Ref.feed_input bc (Ref.getBlockSize (blockSizeID (frameInfo p))) [] b)
    ++ Ref.flush_input bc (snd (Ref.feed_input bc (Ref.getBlockSize (blockSizeID (frameInfo p)))
                                               [] b))
    ++ Ref.frame_end (frameInfo p) b.
End Reference_outputs.

(** *** Sample data *)
Definition no_warning_errors : PyRuntime := {| warnings_as_errors := false |}.
Definition warning_errors : PyRuntime := {| warnings_as_errors := true |}.
Definition default_preferences (content_size : Z) : LZ4F_preferences_t :=
  preferences_of None None None None content_size 0.
Definition abc : list byte := [x61; x62; x63].
Definition hello : list byte := [x68; x65; x6c; x6c; x6f].
Definition a100 : list byte := repeat x61 100.

(** [abc] as [compress] frames it, with its content size declared, and
    [a100] as the incremental interface does, with none. *)
Definition abc_frame : list byte := Ref.frame_of Ref.rle (default_preferences 3) abc.
Definition a100_stream : list byte := Ref.frame_of Ref.rle (default_preferences 0) a100.

(** A frame that declares two bytes of content and holds five. *)
Definition short_declared : LZ4F_frameInfo_t :=
  {| blockSizeID := LZ4F_max64KB; blockMode := LZ4F_blockLinked;
     contentChecksumFlag := LZ4F_noContentChecksum; contentSize := 2 |}.
Definition mismatched_frame : list byte :=
  Ref.frame_header short_declared ++ Ref.encode_block Ref.rle hello
    ++ Ref.frame_end short_declared hello.

(** The decompression context after one [decompress_update] on a fresh
    context of the reference decoder. *)
Definition context_after (b : list byte) : Ref.decompression_context :=
  snd (fst (@_lz4framed_decompress_update (Ref.codec Ref.rle) 102
              (Capsule DECOMPRESSION_CAPSULE_NAME) b None Ref.new_decompression_context)).

(** *** Callers of the incremental decoder *)

Section Incremental_decompression.
Context {L : LZ4F}.

(** One [decompress_update] per piece of input, on the same context; the
    lists the calls return. *)
Fixpoint decompress_updates (fuel : nat) (ctx_capsule : capsule) (pieces : list (list byte))
         (chunk_len : option Z) : Py dctx (list (list PyObject)) :=
  match pieces with
  | [] => ret []
  | b :: pieces' =>
    r <- _lz4framed_decompress_update fuel ctx_capsule b chunk_len ;;
    rs <- decompress_updates fuel ctx_capsule pieces' chunk_len ;;
    ret (r :: rs)
  end.
End Incremental_decompression.

(** The bytes in a list [decompress_update] returned, and its hint. *)
Definition bytes_of (r : list PyObject) : list byte :=
  flat_map (fun x => match x with PyBytes b => b | _ => [] end) r.

Definition hint_of (r : list PyObject) : option Z :=
  match last r (PyBool false) with
  | PyLong h => Some h
  | _ => None
  end.

(** The capacities of [k] doublings of a buffer of [L0] bytes. *)
Definition doubled (L0 : Z) (k : nat) : list Z :=
  map (fun j => L0 * 2 ^ Z.of_nat j) (seq 1 k).

(** An exception that is not a [ValueError]. *)
Definition not_value_error (x : PyExc) : Prop :=
  match x with
  | ValueError _ => False
  | _ => True
  end.

(* ================================================================= *)
(** * Proofs *)

Lemma SIZE_MOD_eq : SIZE_MOD = 18446744073709551616.
Proof. reflexivity. Qed.

Lemma size_wrap_small (z : Z) : 0 <= z < SIZE_MOD -> size_wrap z = z.
Proof. intros H. unfold size_wrap. now apply Z.mod_small. Qed.

Lemma len_nonneg {A : Type} (l : list A) : 0 <= len l.
Proof. unfold len. lia. Qed.

Lemma len_nil {A : Type} : len (@nil A) = 0.
Proof. reflexivity. Qed.

Lemma len_cons {A : Type} (a : A) (l : list A) : len (a :: l) = 1 + len l.
Proof. unfold len. cbn [length]. lia. Qed.

Lemma len_app {A : Type} (l1 l2 : list A) : len (l1 ++ l2) = len l1 + len l2.
Proof. unfold len. rewrite length_app. lia. Qed.

Lemma len_firstn {A : Type} (n : nat) (l : list A) : len (firstn n l) = Z.min (Z.of_nat n) (len l).
Proof. unfold len. rewrite length_firstn. lia. Qed.

Lemma len_skipn {A : Type} (n : nat) (l : list A) : len (skipn n l) = Z.max 0 (len l - Z.of_nat n).
Proof. unfold len. rewrite length_skipn. lia. Qed.

Lemma len_zero_nil {A : Type} (l : list A) : len l = 0 -> l = [].
Proof. destruct l; [reflexivity | rewrite len_cons; pose proof (len_nonneg l); lia]. Qed.

Lemma take_pad_exact (l : list byte) : take_pad (length l) l = l.
Proof.
  unfold take_pad. rewrite firstn_all, Nat.sub_diag. cbn. apply app_nil_r.
Qed.

Lemma buf_write_append (b : pybuf) (pos : Z) (w : list byte) :
  pos = len (buf_data b) ->
  buf_data (buf_write b pos w) = buf_data b ++ w.
Proof.
  intros ->. unfold buf_write, len. cbn [buf_data]. rewrite Nat2Z.id, take_pad_exact.
  rewrite skipn_all2 by lia. now rewrite app_nil_r.
Qed.

Lemma PyBytes_value_full (b : pybuf) :
  buf_size b = len (buf_data b) -> PyBytes_value b = buf_data b.
Proof.
  intros H. unfold PyBytes_value. rewrite H. unfold len. rewrite Nat2Z.id. apply take_pad_exact.
Qed.

Lemma while_loop_unfold {St S : Type} (fuel : nat) (cond : S -> bool)
      (body : S -> Py St (iter S)) (s : S) (st : St) :
  while_loop (Datatypes.S fuel) cond body s st =
  if cond s then
    match body s st with
    | (Returns (Continue s'), st1, e1) =>
      match while_loop fuel cond body s' st1 with
      | (r, st2, e2) => (r, st2, e1 ++ e2)
      end
    | (Returns (Break s'), st1, e1) => (Returns s', st1, e1 ++ [])
    | (Raises x, st1, e1) => (Raises x, st1, e1)
    | (OutOfFuel, st1, e1) => (OutOfFuel, st1, e1)
    end
  else (Returns s, st, []).
Proof.
  cbn [while_loop]. destruct (cond s); [| reflexivity].
  unfold bind. destruct (body s st) as [[[[s' | s'] | x |] st1] e1]; reflexivity.
Qed.

Section Decompress_loop.
Context {L : LZ4F}.

Lemma decompress_body_eq (rt : PyRuntime) (info : LZ4F_frameInfo_t) (stable : bool)
      (v : decompress_vars) (d d' : dctx) (code n : Z) (w : list byte) :
  LZ4F_decompress d (dv_output_remaining v) (dv_input v) stable = (code, w, n, d') ->
  LZ4F_isError code = false ->
  decompress_body rt info stable v d =
  let output := buf_write (dv_output v) (dv_output_pos v) w in
  let output_remaining := size_sub (dv_output_remaining v) (len w) in
  let input := skipn (Z.to_nat n) (dv_input v) in
  if code =? 0 then
    (Returns (Break {| dv_input := input; dv_input_size_hint := code;
                       dv_output := output; dv_output_pos := dv_output_pos v + len w;
                       dv_output_len := size_sub (dv_output_len v) output_remaining;
                       dv_output_remaining := output_remaining |}), d', [])
  else if 0 <? size_sub (len (dv_input v)) n then
    if (0 <? contentSize info) && warnings_as_errors rt then
      (Raises (RuntimeWarning mismatch_warning), d', [EvWarn mismatch_warning])
    else
      (Returns (Continue
         {| dv_input := input; dv_input_size_hint := code;
            dv_output := buf_resize output (size_mul (dv_output_len v) 2);
            dv_output_pos := size_sub (size_mul (dv_output_len v) 2)
                                      (size_add output_remaining (dv_output_len v));
            dv_output_len := size_mul (dv_output_len v) 2;
            dv_output_remaining := size_add output_remaining (dv_output_len v) |}),
       d',
       (if 0 <? contentSize info then [EvWarn mismatch_warning] else [])
         ++ [EvResize (size_mul (dv_output_len v) 2)])
  else
    (Returns (Continue {| dv_input := input; dv_input_size_hint := code;
                          dv_output := output; dv_output_pos := dv_output_pos v + len w;
                          dv_output_len := dv_output_len v;
                          dv_output_remaining := output_remaining |}), d', []).
Proof.
  intros Hcall Herr.
  unfold decompress_body, call_decompress, bind, BAIL_ON_LZ4_ERROR.
  rewrite Hcall, Herr. cbn -[size_sub size_mul size_add Z.ltb Z.eqb].
  destruct (code =? 0); [reflexivity |].
  destruct (0 <? size_sub (len (dv_input v)) n); [| reflexivity].
  unfold PyErr_WarnEx, bind, emit, raise, ret.
  destruct (0 <? contentSize info); cbn -[size_sub size_mul size_add]; [| reflexivity].
  destruct (warnings_as_errors rt); reflexivity.
Qed.

Variable Decoding : dctx -> list byte -> list byte -> Prop.
Hypothesis HD : DecoderSpec Decoding.

Lemma skipn_app_le {A : Type} (n : nat) (l1 l2 : list A) :
  (n <= length l1)%nat -> skipn n (l1 ++ l2) = skipn n l1 ++ l2.
Proof.
  intros H. rewrite skipn_app. replace (n - length l1)%nat with 0%nat by lia. reflexivity.
Qed.

Lemma decompress_loop_spec (rt : PyRuntime) (info : LZ4F_frameInfo_t) (stable : bool) :
  forall (fuel : nat) (v : decompress_vars) (d : dctx) (i t o wr : list byte),
    (0 <? contentSize info) && warnings_as_errors rt = false
    \/ len wr + len o <= dv_output_len v ->
    (length o < fuel)%nat ->
    Decoding d i o ->
    dv_input v = i ++ t ->
    dv_input_size_hint v <> 0 ->
    buf_data (dv_output v) = wr ->
    dv_output_pos v = len wr ->
    dv_output_remaining v = dv_output_len v - len wr ->
    0 < dv_output_remaining v ->
    dv_output_len v < 2 ^ 63 ->
    len wr + len o < 2 ^ 62 ->
    len (i ++ t) < 2 ^ 63 ->
    exists (caps : list Z) (v' : decompress_vars) (d' : dctx),
      doubling_chain (dv_output_len v) (len wr + len o) caps /\
      while_loop fuel (fun v => negb (dv_input_size_hint v =? 0))
                 (decompress_body rt info stable) v d
      = (Returns v', d', growth_events (0 <? contentSize info) caps) /\
      buf_data (dv_output v') = wr ++ o /\
      dv_output_len v' = len wr + len o.
Proof.
  induction fuel as [| fuel IH];
    intros v d i t o wr Hwarn' Hfuel Hdec Hin Hhint Hdata Hpos Hrem Hcap HL Hn Hlen.
  { exfalso; lia. }
  rewrite while_loop_unfold.
  replace (negb (dv_input_size_hint v =? 0)) with true
    by (symmetry; apply negb_true_iff, Z.eqb_neq, Hhint).
  destruct (LZ4F_decompress d (dv_output_remaining v) (dv_input v) stable)
    as [[[code w] n] d'] eqn:Hcall.
  pose proof (len_nonneg wr) as Hwr0. pose proof (len_nonneg o) as Ho0.
  pose proof (len_nonneg w) as Hw0. pose proof (len_nonneg i) as Hi0.
  pose proof (len_nonneg t) as Ht0.
  destruct (decoder_step _ HD d d' i o (dv_input v) w (dv_output_remaining v) code n stable)
    as (Herr & Hcode0 & Hn0 & Hns & Hni & Hwcap & Hw & Hdone & Hall & Hnext & Hfull);
    [assumption | lia | exists t; left; assumption | assumption |].
  rewrite (decompress_body_eq rt info stable v d d' code n w Hcall Herr).
  cbv zeta.
  destruct (Z.eqb_spec code 0) as [Hc | Hc].
  - (* the frame is complete *)
    specialize (Hall Hc). subst w.
    exists []. eexists. exists d'. split; [constructor; lia |]. split; [reflexivity |].
    cbn [dv_output dv_output_len]. split.
    + rewrite buf_write_append by (now rewrite Hdata). now rewrite Hdata.
    + unfold size_sub. rewrite !size_wrap_small; rewrite ?SIZE_MOD_eq; try lia.
      rewrite size_wrap_small; rewrite ?SIZE_MOD_eq; lia.
  - (* the destination is full *)
    assert (Hni' : n < len i) by (destruct Hdone as [_ Hd]; destruct (Z.eq_dec n (len i)); [tauto | lia]).
    rewrite Hin, len_app in Hns, Hfull |- *. rewrite len_app in Hlen.
    destruct (Hfull Hc) as [Hwfull Hsmall]; [lia |].
    specialize (Hnext Hc).
    assert (Hsub : size_sub (len i + len t) n = len i + len t - n)
      by (unfold size_sub; apply size_wrap_small; rewrite SIZE_MOD_eq; lia).
    rewrite Hsub. replace (0 <? len i + len t - n) with true by (symmetry; apply Z.ltb_lt; lia).
    assert (Hwarn : (0 <? contentSize info) && warnings_as_errors rt = false)
      by (destruct Hwarn' as [Hwarn' | Hwarn']; [assumption | lia]).
    rewrite Hwarn.
    assert (Hrem0 : size_sub (dv_output_remaining v) (len w) = 0)
      by (unfold size_sub; rewrite Hwfull, Z.sub_diag; reflexivity).
    rewrite Hrem0.
    assert (Hadd : size_add 0 (dv_output_len v) = dv_output_len v)
      by (unfold size_add; apply size_wrap_small; rewrite SIZE_MOD_eq; lia).
    assert (Hmul : size_mul (dv_output_len v) 2 = 2 * dv_output_len v)
      by (unfold size_mul; rewrite size_wrap_small; rewrite ?SIZE_MOD_eq; lia).
    rewrite Hadd, Hmul.
    assert (Hpos' : size_sub (2 * dv_output_len v) (dv_output_len v) = dv_output_len v)
      by (unfold size_sub; rewrite size_wrap_small; rewrite ?SIZE_MOD_eq; lia).
    rewrite Hpos'.
    assert (Hlw : (length w <= length o)%nat) by (unfold len in *; lia).
    assert (Hlw1 : (0 < length w)%nat) by (unfold len in *; lia).
    match goal with
    | |- context [while_loop fuel ?c ?b ?v1 d'] =>
      destruct (IH v1 d' (skipn (Z.to_nat n) i) t (skipn (length w) o) (wr ++ w))
        as (caps & v' & d'' & Hchain & Hloop & Hout & Hlen')
    end.
    + left. assumption.
    + rewrite length_skipn. lia.
    + assumption.
    + cbn [dv_input]. apply skipn_app_le. unfold len in *. lia.
    + cbn [dv_input_size_hint]. assumption.
    + cbn [dv_output]. unfold buf_resize. cbn [buf_data].
      rewrite buf_write_append by (now rewrite Hdata).
      rewrite Hdata. apply firstn_all2. rewrite length_app. unfold len in *. lia.
    + cbn [dv_output_pos]. rewrite len_app. lia.
    + cbn [dv_output_remaining dv_output_len]. rewrite len_app. lia.
    + cbn [dv_output_remaining]. lia.
    + cbn [dv_output_len]. lia.
    + rewrite len_app, len_skipn. unfold len in *. lia.
    + rewrite len_app, len_skipn. unfold len in *. lia.
    + cbn [dv_output_len] in Hchain, Hlen'.
      assert (Htot : len (wr ++ w) + len (skipn (length w) o) = len wr + len o)
        by (rewrite len_app, len_skipn; unfold len in *; lia).
      rewrite Htot in Hchain, Hlen'.
      exists (2 * dv_output_len v :: caps), v', d''.
      split; [constructor; [lia | assumption] |].
      split; [rewrite Hloop; reflexivity |].
      split; [| assumption].
      rewrite Hout, <- app_assoc. f_equal.
      rewrite Hw at 1. apply firstn_skipn.
Qed.

(** The straight-line part of [decompress], up to the decoding loop. *)
Lemma decompress_prelude (rt : PyRuntime) (frame i t : list byte) (info : LZ4F_frameInfo_t)
      (h hint buffer_size : Z) (d1 : dctx) (fuel : nat) :
  LZ4F_getFrameInfo (snd LZ4F_createDecompressionContext) frame = (hint, info, h, d1) ->
  LZ4F_isError hint = false ->
  0 <= h <= len frame ->
  skipn (Z.to_nat h) frame = i ++ t ->
  frame <> [] ->
  0 < buffer_size <= INT_MAX ->
  len frame < 2 ^ 62 ->
  _lz4framed_decompress rt fuel frame (Some buffer_size) =
  let L0 := initial_capacity info buffer_size (len frame - h) in
  match while_loop fuel (fun v => negb (dv_input_size_hint v =? 0))
                   (decompress_body rt info (0 <? contentSize info))
                   {| dv_input := i ++ t; dv_input_size_hint := hint;
                      dv_output := buf_new L0; dv_output_pos := 0;
                      dv_output_len := L0; dv_output_remaining := L0 |} d1 with
  | (Returns v, _, ev) =>
    (Returns (PyBytes_value (buf_resize (dv_output v) (dv_output_len v))),
     EvAlloc L0 :: ev ++ [EvResize (dv_output_len v)])
  | (Raises x, _, ev) => (Raises x, EvAlloc L0 :: ev)
  | (OutOfFuel, _, ev) => (OutOfFuel, EvAlloc L0 :: ev)
  end.
Proof.
  intros Hinfo Herr Hh Hrest Hne Hbs Hflen.
  pose proof (len_nonneg frame) as Hf0.
  assert (Hfpos : 0 < len frame)
    by (destruct frame; [congruence | rewrite len_cons; pose proof (len_nonneg frame); lia]).
  unfold _lz4framed_decompress, arg_int, bind.
  replace ((INT_MIN <=? buffer_size) && (buffer_size <=? INT_MAX)) with true
    by (symmetry; apply andb_true_iff; unfold INT_MIN, INT_MAX in *;
        split; apply Z.leb_le; lia).
  cbn [ret].
  replace (len frame <=? 0) with false by (symmetry; apply Z.leb_gt; lia).
  replace (buffer_size <=? 0) with false by (symmetry; apply Z.leb_gt; lia).
  pose proof (decoder_creates _ HD) as Hcreate.
  destruct LZ4F_createDecompressionContext as [code0 d0] eqn:Hc0.
  cbn [fst snd] in Hcreate, Hinfo.
  unfold BAIL_ON_LZ4_ERROR at 1. rewrite Hcreate. cbn [ret].
  unfold decompress_with_context, call_getFrameInfo, bind. rewrite Hinfo.
  unfold BAIL_ON_LZ4_ERROR. rewrite Herr. cbn [ret].
  assert (Hsub : size_sub (len frame) h = len frame - h)
    by (unfold size_sub; apply size_wrap_small; rewrite SIZE_MOD_eq; lia).
  rewrite Hsub.
  assert (Hcap : (if 0 <? contentSize info then contentSize info
                  else if size_wrap buffer_size >=? len frame - h then size_wrap buffer_size
                       else len frame - h)
                 = initial_capacity info buffer_size (len frame - h)).
  { unfold initial_capacity. destruct (0 <? contentSize info); [reflexivity |].
    rewrite size_wrap_small by (rewrite SIZE_MOD_eq; unfold INT_MAX in *; lia).
    destruct (Z.geb_spec buffer_size (len frame - h)); lia. }
  rewrite Hcap, Hrest. cbv zeta.
  unfold PyBytes_FromStringAndSize, _PyBytes_Resize, bind, emit, ret.
  destruct (while_loop _ _ _ _ d1) as [[[v | x |] d'] ev]; cbn [app]; reflexivity.
Qed.

Lemma decompress_spec (rt : PyRuntime) (frame o : list byte) (info : LZ4F_frameInfo_t)
      (h buffer_size : Z) :
  frame_decodes Decoding frame info h o ->
  frame <> [] ->
  0 < buffer_size <= INT_MAX ->
  len frame < 2 ^ 62 -> len o < 2 ^ 62 -> 0 <= contentSize info < 2 ^ 62 ->
  (0 <? contentSize info) && warnings_as_errors rt = false
  \/ len o <= initial_capacity info buffer_size (len frame - h) ->
  forall fuel : nat,
    (length o < fuel)%nat ->
    exists caps : list Z,
      doubling_chain (initial_capacity info buffer_size (len frame - h)) (len o) caps /\
      _lz4framed_decompress rt fuel frame (Some buffer_size)
      = (Returns o,
         EvAlloc (initial_capacity info buffer_size (len frame - h))
           :: growth_events (0 <? contentSize info) caps ++ [EvResize (len o)]).
Proof.
  intros (hint & d1 & i & t & Hinfo & Herr & Hhint & Hh & Hrest & Hdec)
         Hne Hbs Hflen Holen Hcs Hwarn fuel Hfuel.
  pose proof (len_nonneg frame) as Hf0.
  assert (Hrestlen : len (i ++ t) = len frame - h).
  { rewrite <- Hrest, len_skipn. lia. }
  rewrite (decompress_prelude rt frame i t info h hint buffer_size d1 fuel) by assumption.
  cbv zeta.
  set (L0 := initial_capacity info buffer_size (len frame - h)) in *.
  assert (HL0 : 0 < L0 < 2 ^ 62).
  { unfold L0, initial_capacity.
    destruct (Z.ltb_spec 0 (contentSize info)); unfold INT_MAX in *; lia. }
  destruct (decompress_loop_spec rt info (0 <? contentSize info) fuel
              {| dv_input := i ++ t; dv_input_size_hint := hint;
                 dv_output := buf_new L0; dv_output_pos := 0;
                 dv_output_len := L0; dv_output_remaining := L0 |}
              d1 i t o [])
    as (caps & v' & d' & Hchain & Hloop & Hout & Hlen);
    cbn [dv_input dv_input_size_hint dv_output dv_output_pos dv_output_len
         dv_output_remaining buf_new buf_data]; rewrite ?len_nil;
      try reflexivity; try assumption; try lia.
  cbn [dv_output_len app] in Hchain, Hout, Hlen. rewrite len_nil, Z.add_0_l in Hchain, Hlen.
  exists caps. split; [exact Hchain |].
  rewrite Hloop, Hlen. do 2 f_equal.
  rewrite PyBytes_value_full.
  - unfold buf_resize. cbn [buf_data]. rewrite Hout. unfold len. rewrite Nat2Z.id.
    apply firstn_all.
  - unfold buf_resize. cbn [buf_data buf_size]. rewrite Hout. unfold len.
    rewrite Nat2Z.id, firstn_all. reflexivity.
Qed.

End Decompress_loop.

Section Update_loop.
Context {L : LZ4F}.

Lemma update_body_eq (chunk_len : Z) (v : update_vars) (d d' : dctx) (code n : Z)
      (w : list byte) :
  LZ4F_decompress d (du_chunk_remaining (next_chunk chunk_len v))
                  (du_input v) false = (code, w, n, d') ->
  decompress_update_body chunk_len v d =
  let v1 := next_chunk chunk_len v in
  let ev := if du_chunk_remaining v <=? 0 then [EvAlloc chunk_len] else [] in
  if LZ4F_isError code then
    (Raises (Lz4FramedError (LZ4F_getErrorName code) (size_neg code)), d', ev)
  else
    (Returns (Continue
       {| du_input := skipn (Z.to_nat n) (du_input v);
          du_input_size_hint := code;
          du_list := du_list v1;
          du_chunk := buf_write (du_chunk v1) (du_chunk_pos v1) w;
          du_chunk_pos := du_chunk_pos v1 + len w;
          du_chunk_remaining := size_sub (du_chunk_remaining v1) (len w) |}), d', ev).
Proof.
  unfold next_chunk, decompress_update_body. intros Hcall.
  destruct (du_chunk_remaining v <=? 0);
    unfold PyBytes_FromStringAndSize, call_decompress, bind, emit, ret, BAIL_ON_LZ4_ERROR;
    cbn [du_input du_chunk_remaining] in Hcall |- *; rewrite Hcall;
      destruct (LZ4F_isError code); reflexivity.
Qed.

Lemma next_chunk_inv (chunk_len : Z) (v : update_vars) (full : list (list byte)) :
  0 < chunk_len ->
  update_inv chunk_len v full ->
  exists full1 : list (list byte),
    update_inv chunk_len (next_chunk chunk_len v) full1 /\
    0 < du_chunk_remaining (next_chunk chunk_len v) /\
    du_input (next_chunk chunk_len v) = du_input v /\
    concat full1 ++ buf_data (du_chunk (next_chunk chunk_len v))
    = concat full ++ buf_data (du_chunk v).
Proof.
  intros Hc (Hlist & Hfull & Hsize & Hpos & Hrem & Hrem0). unfold next_chunk.
  destruct (Z.leb_spec (du_chunk_remaining v) 0) as [Hle | Hgt].
  - exists (full ++ [buf_data (du_chunk v)]).
    assert (Hlen : len (buf_data (du_chunk v)) = chunk_len) by lia.
    cbn [du_list du_chunk du_chunk_pos du_chunk_remaining du_input
                 buf_new buf_size buf_data].
    split; [| split; [lia | split; [reflexivity |]]].
    + unfold update_inv.
      cbn [du_list du_chunk du_chunk_pos du_chunk_remaining du_input
                   buf_new buf_size buf_data]. change (len (@nil byte)) with 0.
      split; [| split; [| split; [reflexivity | split; [reflexivity | split; lia]]]].
      * rewrite Hlist, map_app. cbn [map]. do 3 f_equal.
        apply PyBytes_value_full. lia.
      * apply Forall_app. split; [assumption | constructor; [assumption | constructor]].
    + rewrite concat_app. cbn [concat]. now rewrite !app_nil_r.
  - exists full. repeat split; try assumption; lia.
Qed.

Lemma update_body_inv (chunk_len : Z) (v : update_vars) (d d' : dctx) (code n : Z)
      (w : list byte) (full : list (list byte)) :
  0 < chunk_len < 2 ^ 62 ->
  update_inv chunk_len v full ->
  LZ4F_decompress d (du_chunk_remaining (next_chunk chunk_len v))
                  (du_input v) false = (code, w, n, d') ->
  LZ4F_isError code = false ->
  len w <= du_chunk_remaining (next_chunk chunk_len v) ->
  exists (v2 : update_vars) (full2 : list (list byte)),
    decompress_update_body chunk_len v d
    = (Returns (Continue v2), d', if du_chunk_remaining v <=? 0 then [EvAlloc chunk_len] else [])
    /\ update_inv chunk_len v2 full2
    /\ du_input v2 = skipn (Z.to_nat n) (du_input v)
    /\ du_input_size_hint v2 = code
    /\ concat full2 ++ buf_data (du_chunk v2) = (concat full ++ buf_data (du_chunk v)) ++ w
    /\ du_chunk_remaining v2 = du_chunk_remaining (next_chunk chunk_len v) - len w.
Proof.
  intros Hc Hinv Hcall Herr Hw.
  rewrite (update_body_eq chunk_len v d d' code n w Hcall), Herr. cbv zeta.
  destruct (next_chunk_inv chunk_len v full) as (full1 & Hinv1 & Hpos1 & Hin1 & Hcat1);
    [lia | assumption |].
  destruct Hinv1 as (Hlist & Hfull & Hsize & Hpos & Hrem & Hrem0).
  pose proof (len_nonneg w) as Hw0.
  pose proof (len_nonneg (buf_data (du_chunk (next_chunk chunk_len v)))) as Hd0.
  assert (Hsub : size_sub (du_chunk_remaining (next_chunk chunk_len v)) (len w)
                 = du_chunk_remaining (next_chunk chunk_len v) - len w)
    by (unfold size_sub; apply size_wrap_small; rewrite SIZE_MOD_eq; lia).
  eexists. exists full1. split; [reflexivity |].
  cbn [du_input du_input_size_hint du_list du_chunk du_chunk_pos du_chunk_remaining].
  rewrite Hsub.
  assert (Hdata : buf_data (buf_write (du_chunk (next_chunk chunk_len v))
                                      (du_chunk_pos (next_chunk chunk_len v)) w)
                  = buf_data (du_chunk (next_chunk chunk_len v)) ++ w)
    by (apply buf_write_append; assumption).
  split; [| split; [reflexivity | split; [reflexivity | split; [| reflexivity]]]].
  - unfold update_inv.
    cbn [du_input du_input_size_hint du_list du_chunk du_chunk_pos du_chunk_remaining].
    split; [assumption | split; [assumption | split; [assumption |]]].
    rewrite Hdata, len_app. split; [lia | split; lia].
  - rewrite Hdata, app_assoc, Hcat1. reflexivity.
Qed.

(** The loop keeps the shape of the list, whatever the decoder does within
    the bounds of its buffers. *)
Lemma update_loop_inv (chunk_len : Z) :
  ApiBounds ->
  0 < chunk_len < 2 ^ 62 ->
  forall (fuel : nat) (v v' : update_vars) (d d' : dctx) (ev : list event)
         (full : list (list byte)),
    update_inv chunk_len v full ->
    decompress_update_loop fuel chunk_len v d = (Returns v', d', ev) ->
    exists full' : list (list byte), update_inv chunk_len v' full'.
Proof.
  intros HB Hc. unfold decompress_update_loop.
  induction fuel as [| fuel IH]; intros v v' d d' ev full Hinv Hloop.
  { discriminate Hloop. }
  rewrite while_loop_unfold in Hloop.
  destruct ((0 <? len (du_input v)) && (0 <? du_input_size_hint v)).
  2: { injection Hloop as <- _ _. exists full. assumption. }
  destruct (LZ4F_decompress d (du_chunk_remaining (next_chunk chunk_len v)) (du_input v) false)
    as [[[code w] n] d1] eqn:Hcall.
  destruct (next_chunk_inv chunk_len v full) as (full1 & Hinv1 & Hpos1 & _); [lia | assumption |].
  destruct (HB _ _ _ _ _ _ _ _ (Z.lt_le_incl _ _ Hpos1) Hcall) as [Hw _].
  destruct (LZ4F_isError code) eqn:Herr.
  - rewrite (update_body_eq chunk_len v d d1 code n w Hcall), Herr in Hloop.
    discriminate Hloop.
  - destruct (update_body_inv chunk_len v d d1 code n w full Hc Hinv Hcall Herr Hw)
      as (v2 & full2 & Hbody & Hinv2 & _).
    rewrite Hbody in Hloop.
    destruct (while_loop fuel _ _ v2 d1) as [[r d2] e2] eqn:Hrest.
    injection Hloop as -> -> _.
    eapply IH; eassumption.
Qed.

Lemma firstn_add_skipn {A : Type} (a b : nat) (l : list A) :
  firstn (a + b) l = firstn a l ++ firstn b (skipn a l).
Proof.
  revert l. induction a as [| a IH]; intros [| x l]; cbn; try reflexivity.
  - now rewrite firstn_nil.
  - now rewrite IH.
Qed.

Lemma agree_skipn (s i : list byte) (n : nat) :
  agree s i -> (n <= length s)%nat -> (n <= length i)%nat -> agree (skipn n s) (skipn n i).
Proof.
  intros [t [-> | ->]] Hs Hi; exists t; [left | right]; apply skipn_app_le; assumption.
Qed.

Variable Decoding : dctx -> list byte -> list byte -> Prop.
Hypothesis HD : DecoderSpec Decoding.

Lemma update_loop_spec (chunk_len : Z) :
  0 < chunk_len < 2 ^ 62 ->
  forall (fuel : nat) (v : update_vars) (d : dctx) (i o : list byte)
         (full : list (list byte)),
    (S (length o) < fuel)%nat ->
    Decoding d i o ->
    agree (du_input v) i ->
    update_inv chunk_len v full ->
    du_input v <> [] ->
    0 < du_input_size_hint v ->
    len (du_input v) < 2 ^ 62 ->
    exists (v' : update_vars) (d' : dctx) (ev : list event) (full' : list (list byte))
           (wt : list byte),
      decompress_update_loop fuel chunk_len v d = (Returns v', d', ev) /\
      update_inv chunk_len v' full' /\
      concat full' ++ buf_data (du_chunk v') = (concat full ++ buf_data (du_chunk v)) ++ wt /\
      wt = firstn (length wt) o /\
      0 <= du_input_size_hint v' /\
      (forall t, du_input v = i ++ t ->
                 du_input_size_hint v' = 0 /\ wt = o /\ du_input v' = t) /\
      (forall t, t <> [] -> i = du_input v ++ t ->
                 du_input_size_hint v' <> 0 /\ du_input v' = [] /\
                 Decoding d' t (skipn (length wt) o)).
Proof.
  intros Hc. unfold decompress_update_loop.
  induction fuel as [| fuel IH]; intros v d i o full Hfuel Hdec Hagree Hinv Hne Hhint Hslen.
  { exfalso; lia. }
  rewrite while_loop_unfold.
  assert (Hspos : 0 < len (du_input v)).
  { destruct (du_input v); [congruence | rewrite len_cons].
    pose proof (len_nonneg l). lia. }
  replace ((0 <? len (du_input v)) && (0 <? du_input_size_hint v)) with true
    by (symmetry; apply andb_true_iff; split; apply Z.ltb_lt; assumption).
  destruct (LZ4F_decompress d (du_chunk_remaining (next_chunk chunk_len v)) (du_input v) false)
    as [[[code w] n] d1] eqn:Hcall.
  destruct (next_chunk_inv chunk_len v full) as (full1 & Hinv1 & Hpos1 & _); [lia | assumption |].
  destruct (decoder_step _ HD d d1 i o (du_input v) w _ code n false Hdec
                         (Z.lt_le_incl _ _ Hpos1) Hagree Hcall)
    as (Herr & Hcode0 & Hn0 & Hns & Hni & Hwcap & Hw & Hdone & Hall & Hnext & Hfull).
  destruct (update_body_inv chunk_len v d d1 code n w full Hc Hinv Hcall Herr Hwcap)
    as (v2 & full2 & Hbody & Hinv2 & Hin2 & Hhint2 & Hcat2 & Hrem2).
  rewrite Hbody.
  pose proof (len_nonneg i) as Hi0. pose proof (len_nonneg o) as Ho0.
  pose proof (len_nonneg w) as Hw0.
  assert (Hexit : update_cond v2 = false ->
                  while_loop fuel
                    (fun v => (0 <? len (du_input v)) && (0 <? du_input_size_hint v))
                    (decompress_update_body chunk_len) v2 d1 = (Returns v2, d1, [])).
  { intros Hcond. destruct fuel as [| fuel']; [lia |].
    rewrite while_loop_unfold. unfold update_cond in Hcond. rewrite Hcond. reflexivity. }
  destruct (Z.eq_dec code 0) as [Hc0 | Hc0].
  - (* end of frame *)
    rewrite Hexit
      by (unfold update_cond; rewrite Hhint2, Hc0; apply andb_false_r).
    exists v2, d1. eexists. exists full2, w.
    split; [reflexivity |]. split; [assumption |]. split; [assumption |].
    split; [assumption |]. split; [lia |].
    assert (Hnlen : n = len i) by tauto.
    split.
    + intros t Ht. split; [congruence |]. split; [tauto |].
      rewrite Hin2, Ht, Hnlen. unfold len. rewrite Nat2Z.id.
      rewrite skipn_app, skipn_all, Nat.sub_diag. reflexivity.
    + intros t Htne Ht. exfalso. rewrite Ht, len_app in Hni.
      destruct t; [congruence | rewrite len_cons in Hni].
      pose proof (len_nonneg t). rewrite Ht, len_app in Hnlen. rewrite len_cons in Hnlen. lia.
  - assert (Hni' : n < len i)
      by (destruct Hdone as [_ Hd]; destruct (Z.eq_dec n (len i)); [tauto | lia]).
    specialize (Hnext Hc0).
    destruct (Z.eq_dec n (len (du_input v))) as [Hall_in | Hsome].
    + (* the input is used up *)
      assert (Hin_nil : du_input v2 = []).
      { rewrite Hin2, Hall_in. unfold len. rewrite Nat2Z.id. apply skipn_all. }
      rewrite Hexit by (unfold update_cond; rewrite Hin_nil; reflexivity).
      exists v2, d1. eexists. exists full2, w.
      split; [reflexivity |]. split; [assumption |]. split; [assumption |].
      split; [assumption |]. split; [lia |].
      split.
      * intros t Ht. exfalso. rewrite Ht, len_app in Hall_in.
        pose proof (len_nonneg t). lia.
      * intros t Htne Ht. split; [congruence |]. split; [assumption |].
        replace t with (skipn (Z.to_nat n) i); [assumption |].
        rewrite Ht, Hall_in. unfold len. rewrite Nat2Z.id.
        rewrite skipn_app, skipn_all, Nat.sub_diag. reflexivity.
    + (* the chunk is full *)
      destruct (Hfull Hc0) as [Hwfull Hsmall]; [lia |].
      assert (Hlw : (0 < length w <= length o)%nat) by (unfold len in *; lia).
      destruct (IH v2 d1 (skipn (Z.to_nat n) i) (skipn (length w) o) full2)
        as (v' & d' & ev & full' & wt & Hloop & Hinv' & Hcat' & Hwt & Hh' & Hfin & Hmore).
      * rewrite length_skipn. lia.
      * assumption.
      * rewrite Hin2. apply agree_skipn; [assumption | |]; unfold len in *; lia.
      * assumption.
      * rewrite Hin2. intros Hnil. apply (f_equal (@length byte)) in Hnil.
        rewrite length_skipn in Hnil. cbn in Hnil. unfold len in *. lia.
      * lia.
      * rewrite Hin2, len_skipn. lia.
      * rewrite Hloop.
        exists v', d'. eexists. exists full', (w ++ wt).
        split; [reflexivity |]. split; [assumption |].
        split; [rewrite Hcat', Hcat2, <- !app_assoc; reflexivity |].
        assert (Hfirst : w ++ wt = firstn (length (w ++ wt)) o).
        { rewrite length_app, firstn_add_skipn, <- Hw, <- Hwt. reflexivity. }
        split; [assumption |]. split; [assumption |].
        split.
        -- intros t Ht.
           destruct (Hfin t) as (Hz & Hwo & Hint).
           { rewrite Hin2, Ht. apply skipn_app_le. unfold len in *. lia. }
           split; [assumption |]. split; [| assumption].
           rewrite Hwo. rewrite Hw at 1. apply firstn_skipn.
        -- intros t Htne Ht.
           destruct (Hmore t Htne) as (Hnz & Hint & Hdec').
           { rewrite Hin2. rewrite Ht. rewrite skipn_app_le by (unfold len in *; lia).
             reflexivity. }
           split; [assumption |]. split; [assumption |].
           rewrite length_app, Nat.add_comm, <- skipn_skipn. assumption.
Qed.
End Update_loop.

Lemma store_int_in_size_t_nonneg (c : Z) :
  0 <= c <= INT_MAX -> store_int_in_size_t 65536 c = c.
Proof.
  intros H. unfold store_int_in_size_t, INT_MAX in *.
  rewrite Z.mod_small by lia. reflexivity.
Qed.

Lemma store_int_in_size_t_negative (c : Z) :
  INT_MIN <= c < 0 -> store_int_in_size_t 65536 c = 2 ^ 32 + c.
Proof.
  intros H. unfold store_int_in_size_t, INT_MIN in *.
  replace (c mod 2 ^ 32) with (2 ^ 32 + c); [reflexivity |].
  apply Z.mod_unique with (q := -1); lia.
Qed.

Section Update_top.
Context {L : LZ4F}.

Lemma update_unfold (fuel : nat) (cap : capsule) (b : list byte) (a : option Z) (d : dctx) :
  (forall c, a = Some c -> INT_MIN <= c <= INT_MAX) ->
  _lz4framed_decompress_update fuel cap b a d =
  let chunk_len := chunk_len_of a in
  if negb (PyCapsule_IsValid cap DECOMPRESSION_CAPSULE_NAME) then
    (Raises (ValueError "ctx invalid"), d, [])
  else if len b <=? 0 then (Raises (ValueError "b (data) is empty"), d, [])
  else if chunk_len <=? 0 then (Raises (ValueError "chunk_len invalid"), d, [])
  else
    match decompress_update_loop fuel chunk_len (update_init b chunk_len) d with
    | (Returns v, d', ev) =>
      if du_chunk_remaining v <? chunk_len then
        (Returns ((du_list v
                    ++ [PyBytes (PyBytes_value
                                   (buf_resize (du_chunk v)
                                      (size_sub chunk_len (du_chunk_remaining v))))])
                   ++ [PyLong (du_input_size_hint v)]),
         d', EvAlloc chunk_len
               :: ev ++ [EvResize (size_sub chunk_len (du_chunk_remaining v))])
      else (Returns (du_list v ++ [PyLong (du_input_size_hint v)]), d',
            EvAlloc chunk_len :: ev ++ [])
    | (Raises x, d', ev) => (Raises x, d', EvAlloc chunk_len :: ev)
    | (OutOfFuel, d', ev) => (OutOfFuel, d', EvAlloc chunk_len :: ev)
    end.
Proof.
  intros Ha. unfold _lz4framed_decompress_update, arg_int_into_size_t, chunk_len_of.
  destruct a as [c |].
  - specialize (Ha c eq_refl).
    replace ((INT_MIN <=? c) && (c <=? INT_MAX)) with true
      by (symmetry; apply andb_true_iff; split; apply Z.leb_le; lia).
    unfold bind at 1. cbn [ret]. cbv zeta.
    destruct (negb (PyCapsule_IsValid cap DECOMPRESSION_CAPSULE_NAME)); [reflexivity |].
    destruct (len b <=? 0); [reflexivity |].
    destruct (store_int_in_size_t 65536 c <=? 0); [reflexivity |].
    unfold PyBytes_FromStringAndSize, _PyBytes_Resize, bind, emit, ret, update_init.
    destruct (decompress_update_loop fuel _ _ d) as [[[v | x |] d'] ev]; try reflexivity.
    destruct (du_chunk_remaining v <? store_int_in_size_t 65536 c); cbn [app]; reflexivity.
  - unfold bind at 1. cbn [ret]. cbv zeta.
    destruct (negb (PyCapsule_IsValid cap DECOMPRESSION_CAPSULE_NAME)); [reflexivity |].
    destruct (len b <=? 0); [reflexivity |].
    destruct (65536 <=? 0); [reflexivity |].
    unfold PyBytes_FromStringAndSize, _PyBytes_Resize, bind, emit, ret, update_init.
    destruct (decompress_update_loop fuel _ _ d) as [[[v | x |] d'] ev]; try reflexivity.
    destruct (du_chunk_remaining v <? 65536); cbn [app]; reflexivity.
Qed.

Lemma update_init_inv (b : list byte) (chunk_len : Z) :
  0 < chunk_len -> update_inv chunk_len (update_init b chunk_len) [].
Proof.
  intros H. unfold update_inv, update_init.
  cbn [du_list du_chunk du_chunk_pos du_chunk_remaining buf_new buf_size buf_data map].
  change (len (@nil byte)) with 0.
  repeat split; try reflexivity; try lia. constructor.
Qed.

(** Assembling the returned list from the loop's final variables. *)
Lemma update_result_shape (chunk_len : Z) (v : update_vars) (full : list (list byte)) :
  0 < chunk_len < 2 ^ 62 ->
  update_inv chunk_len v full ->
  exists last : list (list byte),
    (if du_chunk_remaining v <? chunk_len then
       (du_list v ++ [PyBytes (PyBytes_value
                                 (buf_resize (du_chunk v)
                                    (size_sub chunk_len (du_chunk_remaining v))))])
         ++ [PyLong (du_input_size_hint v)]
     else du_list v ++ [PyLong (du_input_size_hint v)])
    = map PyBytes (full ++ last) ++ [PyLong (du_input_size_hint v)] /\
    (last = [] \/ exists c, last = [c] /\ 0 < len c <= chunk_len) /\
    concat (full ++ last) = concat full ++ buf_data (du_chunk v).
Proof.
  intros Hc (Hlist & Hfull & Hsize & Hpos & Hrem & Hrem0).
  pose proof (len_nonneg (buf_data (du_chunk v))) as Hd0.
  destruct (Z.ltb_spec (du_chunk_remaining v) chunk_len) as [Hlt | Hge].
  - exists [buf_data (du_chunk v)].
    assert (Hsub : size_sub chunk_len (du_chunk_remaining v) = len (buf_data (du_chunk v)))
      by (unfold size_sub; rewrite size_wrap_small; rewrite ?SIZE_MOD_eq; lia).
    rewrite Hsub.
    assert (Hval : PyBytes_value (buf_resize (du_chunk v) (len (buf_data (du_chunk v))))
                   = buf_data (du_chunk v)).
    { rewrite PyBytes_value_full; unfold buf_resize; cbn [buf_data buf_size];
        unfold len; rewrite Nat2Z.id, firstn_all; reflexivity. }
    rewrite Hval, Hlist, map_app. cbn [map].
    split; [reflexivity |]. split.
    + right. eexists. split; [reflexivity | lia].
    + rewrite concat_app. cbn [concat]. now rewrite app_nil_r.
  - exists []. rewrite app_nil_r, Hlist.
    split; [reflexivity |]. split; [left; reflexivity |].
    assert (Hnil : buf_data (du_chunk v) = []) by (apply len_zero_nil; lia).
    rewrite Hnil, app_nil_r. reflexivity.
Qed.

(** Whatever the decoder does within the bounds of its buffers, a call that
    returns returns whole chunks, at most one partial chunk, and the hint. *)
Lemma update_returns_chunks (fuel : nat) (cap : capsule) (b : list byte) (c : Z)
      (d d' : dctx) (r : list PyObject) (ev : list event) :
  ApiBounds ->
  0 < c <= INT_MAX ->
  _lz4framed_decompress_update fuel cap b (Some c) d = (Returns r, d', ev) ->
  exists (full last : list (list byte)) (hint : Z), chunked_result c full last hint r.
Proof.
  intros HB Hc Hcall.
  rewrite update_unfold in Hcall
    by (intros c' [= ->]; unfold INT_MIN, INT_MAX in *; lia).
  cbv zeta in Hcall. unfold chunk_len_of in Hcall.
  rewrite store_int_in_size_t_nonneg in Hcall by lia.
  destruct (negb (PyCapsule_IsValid cap DECOMPRESSION_CAPSULE_NAME)); [discriminate |].
  destruct (len b <=? 0); [discriminate |].
  destruct (c <=? 0); [discriminate |].
  destruct (decompress_update_loop fuel c (update_init b c) d) as [[[v | x |] d1] ev1] eqn:Hloop;
    try (destruct (du_chunk_remaining v <? c); discriminate); try discriminate.
  assert (Hc' : 0 < c < 2 ^ 62) by (unfold INT_MAX in *; lia).
  destruct (update_loop_inv c HB Hc' fuel _ v d d1 ev1 [] (update_init_inv b c (proj1 Hc)) Hloop)
    as (full & Hinv).
  destruct (update_result_shape c v full Hc' Hinv) as (last & Hres & Hlast & _).
  exists full, last, (du_input_size_hint v).
  assert (Hr : r = map PyBytes (full ++ last) ++ [PyLong (du_input_size_hint v)]).
  { rewrite <- Hres. destruct (du_chunk_remaining v <? c); injection Hcall as <- _ _; reflexivity. }
  split; [assumption |]. split; [apply Hinv | assumption].
Qed.

Variable Decoding : dctx -> list byte -> list byte -> Prop.
Hypothesis HD : DecoderSpec Decoding.

Lemma update_spec (c : Z) (fuel : nat) (d : dctx) (i o b : list byte) :
  0 < c <= INT_MAX ->
  (S (length o) < fuel)%nat ->
  Decoding d i o ->
  agree b i ->
  b <> [] ->
  len b < 2 ^ 62 ->
  exists (v' : update_vars) (d' : dctx) (ev ev' : list event) (full last : list (list byte)),
    decompress_update_loop fuel c (update_init b c) d = (Returns v', d', ev) /\
    _lz4framed_decompress_update fuel (Capsule DECOMPRESSION_CAPSULE_NAME) b (Some c) d
    = (Returns (map PyBytes (full ++ last) ++ [PyLong (du_input_size_hint v')]), d', ev') /\
    Forall (fun x => len x = c) full /\
    (last = [] \/ exists x, last = [x] /\ 0 < len x <= c) /\
    concat (full ++ last) = firstn (length (concat (full ++ last))) o /\
    0 <= du_input_size_hint v' /\
    (forall t, b = i ++ t ->
               du_input_size_hint v' = 0 /\ concat (full ++ last) = o /\ du_input v' = t) /\
    (forall t, t <> [] -> i = b ++ t ->
               du_input_size_hint v' <> 0 /\ du_input v' = [] /\
               Decoding d' t (skipn (length (concat (full ++ last))) o)).
Proof.
  intros Hc Hfuel Hdec Hagree Hne Hblen.
  assert (Hc' : 0 < c < 2 ^ 62) by (unfold INT_MAX in *; lia).
  destruct (update_loop_spec Decoding HD c Hc' fuel (update_init b c) d i o []
                             Hfuel Hdec Hagree (update_init_inv b c (proj1 Hc)) Hne)
    as (v' & d' & ev & full & wt & Hloop & Hinv & Hcat & Hwt & Hh0 & Hfin & Hmore);
    [cbn; lia | assumption |].
  cbn [update_init du_chunk buf_new buf_data concat app] in Hcat.
  destruct (update_result_shape c v' full Hc' Hinv) as (last & Hres & Hlast & Hcat').
  rewrite Hcat in Hcat'.
  exists v', d', ev,
    (EvAlloc c :: ev ++ if du_chunk_remaining v' <? c
                        then [EvResize (size_sub c (du_chunk_remaining v'))] else []),
    full, last.
  split; [exact Hloop |]. split.
  - rewrite update_unfold by (intros c' [= ->]; unfold INT_MIN, INT_MAX in *; lia).
    cbv zeta. unfold chunk_len_of. rewrite store_int_in_size_t_nonneg by lia.
    change (negb (PyCapsule_IsValid (Capsule DECOMPRESSION_CAPSULE_NAME)
                                    DECOMPRESSION_CAPSULE_NAME)) with false.
    cbv iota.
    replace (len b <=? 0) with false.
    2: { symmetry. apply Z.leb_gt. clear - Hne. destruct b as [| x b']; [congruence |].
         rewrite len_cons. pose proof (len_nonneg b'). lia. }
    replace (c <=? 0) with false by (symmetry; apply Z.leb_gt; lia).
    rewrite Hloop, <- Hres.
    destruct (du_chunk_remaining v' <? c); reflexivity.
  - split; [apply Hinv |]. split; [assumption |].
    rewrite Hcat'. split; [assumption |]. split; [assumption |].
    split; assumption.
Qed.
End Update_top.

Section Reference_decoder.
Variable bc : Ref.BlockCodec.

Lemma ref_input_hint_range (d : Ref.decompression_context) :
  1 <= Ref.input_hint d <= 4194308.
Proof.
  unfold Ref.input_hint.
  change (Ref.getBlockSize LZ4F_max4MB + Ref.BHSize) with 4194308.
  match goal with |- context [Z.min _ ?m] => generalize m end. intros z. lia.
Qed.

Lemma ref_input_hint_ok (d : Ref.decompression_context) :
  LZ4F_isError (Ref.input_hint d) = false.
Proof.
  pose proof (ref_input_hint_range d) as H. unfold LZ4F_isError.
  apply Z.ltb_ge. change (size_neg (error_number LZ4F_ERROR_maxCode)) with 18446744073709551597.
  lia.
Qed.

Lemma ref_decode_rest_tmpOut (d : Ref.decompression_context) (i : list byte) :
  Ref.decode_rest bc d i
  = option_map (app (Ref.d_tmpOut d)) (Ref.decode_rest bc (Ref.with_tmpOut d []) i).
Proof.
  destruct i as [| b rest]; [reflexivity |]. cbn [Ref.decode_rest].
  change (Ref.with_tmpOut (Ref.with_tmpOut d []) []) with (Ref.with_tmpOut d []).
  destruct (Ref.feed bc (Ref.with_tmpOut d []) b) as [e | | d2]; cbn [Ref.with_tmpOut Ref.d_tmpOut].
  - reflexivity.
  - destruct rest; cbn; [now rewrite app_nil_r | reflexivity].
  - destruct (Ref.decode_rest bc d2 rest); cbn; reflexivity.
Qed.

Lemma ref_decompress_run_eq (d : Ref.decompression_context) (dstSize : Z) (src : list byte) :
  Ref.decompress_run bc d dstSize src =
  let k := Z.min dstSize (len (Ref.d_tmpOut d)) in
  let out := firstn (Z.to_nat k) (Ref.d_tmpOut d) in
  let d1 := Ref.with_tmpOut d (skipn (Z.to_nat k) (Ref.d_tmpOut d)) in
  match skipn (Z.to_nat k) (Ref.d_tmpOut d) with
  | _ :: _ => (Ref.input_hint d1, out, 0, d1)
  | [] =>
    match src with
    | [] => (Ref.input_hint d1, out, 0, d1)
    | b :: rest =>
      match Ref.feed bc d1 b with
      | Ref.FedError e => (LZ4F_error e, out, 0, d1)
      | Ref.FedDone => (0, out, 1, Ref.new_decompression_context)
      | Ref.FedMore d' =>
        match Ref.decompress_run bc d' (dstSize - k) rest with
        | (code, w, n, d'') => (code, out ++ w, 1 + n, d'')
        end
      end
    end
  end.
Proof. destruct src; reflexivity. Qed.

Lemma ref_run_bounds (s : list byte) :
  forall (d d' : Ref.decompression_context) (w : list byte) (cap code n : Z),
    0 <= cap ->
    Ref.decompress_run bc d cap s = (code, w, n, d') ->
    len w <= cap /\ 0 <= n <= len s.
Proof.
  induction s as [| b rest IH]; intros d d' w cap code n Hcap Hrun;
    rewrite ref_decompress_run_eq in Hrun; cbv zeta in Hrun;
    pose proof (len_nonneg (Ref.d_tmpOut d)) as Hp0;
    assert (Hw : len (firstn (Z.to_nat (Z.min cap (len (Ref.d_tmpOut d)))) (Ref.d_tmpOut d))
                 = Z.min cap (len (Ref.d_tmpOut d)))
      by (rewrite len_firstn; lia);
    set (out := firstn (Z.to_nat (Z.min cap (len (Ref.d_tmpOut d)))) (Ref.d_tmpOut d)) in *.
  - destruct (skipn _ (Ref.d_tmpOut d)); injection Hrun as <- <- <- <-;
      change (len (@nil byte)) with 0; lia.
  - pose proof (len_nonneg rest) as Hr0. rewrite len_cons.
    destruct (skipn _ (Ref.d_tmpOut d)).
    2: { injection Hrun as <- <- <- <-. lia. }
    destruct (Ref.feed bc _ b) as [e | | d2].
    + injection Hrun as <- <- <- <-. lia.
    + injection Hrun as <- <- <- <-. lia.
    + destruct (Ref.decompress_run bc d2 (cap - Z.min cap (len (Ref.d_tmpOut d))) rest)
        as [[[code2 w2] n2] d3] eqn:Hrec.
      remember (1 + n2) as m eqn:Hm in Hrun.
      injection Hrun as <- <- <- <-.
      destruct (IH d2 d3 w2 (cap - Z.min cap (len (Ref.d_tmpOut d))) code2 n2) as [Hw2 Hn2];
        [lia | assumption |].
      rewrite len_app. lia.
Qed.

Lemma ref_api_bounds : @ApiBounds (Ref.codec bc).
Proof.
  intros d d' s w cap code n stable Hcap Hrun.
  exact (ref_run_bounds s d d' w cap code n Hcap Hrun).
Qed.
End Reference_decoder.

Lemma agree_cons_inv (b b' : byte) (s i : list byte) :
  agree (b :: s) (b' :: i) -> b = b' /\ agree s i.
Proof.
  intros [t [H | H]]; cbn in H; injection H as -> H; (split; [reflexivity |]); exists t; auto.
Qed.

Section Reference_decoder_spec.
Variable bc : Ref.BlockCodec.

Lemma ref_decode_rest_nil (d : Ref.decompression_context) (o : list byte) :
  Ref.decode_rest bc d [] = Some o -> False.
Proof. discriminate. Qed.

Lemma ref_run_step (s : list byte) :
  forall (d d' : Ref.decompression_context) (i o w : list byte) (cap code n : Z),
    Ref.decode_rest bc d i = Some o ->
    0 <= cap ->
    agree s i ->
    Ref.decompress_run bc d cap s = (code, w, n, d') ->
    LZ4F_isError code = false /\ 0 <= code /\
    0 <= n /\ n <= len s /\ n <= len i /\
    len w <= cap /\ w = firstn (length w) o /\
    (code = 0 <-> n = len i) /\
    (code = 0 -> w = o) /\
    (code <> 0 -> Ref.decode_rest bc d' (skipn (Z.to_nat n) i) = Some (skipn (length w) o)) /\
    (code <> 0 -> n < len s -> len w = cap /\ cap < len o).
Proof.
  induction s as [| b rest IH]; intros d d' i o w cap code n Hdec Hcap Hagree Hrun;
    rewrite ref_decompress_run_eq in Hrun; cbv zeta in Hrun;
    pose proof (len_nonneg (Ref.d_tmpOut d)) as Hp0;
    pose proof (len_nonneg i) as Hi0;
    (assert (Hipos : 0 < len i)
      by (destruct i; [discriminate Hdec | rewrite len_cons; pose proof (len_nonneg i); lia]));
    rewrite ref_decode_rest_tmpOut in Hdec;
    destruct (Ref.decode_rest bc (Ref.with_tmpOut d []) i) as [o' |] eqn:Hcore;
    try discriminate Hdec; cbn [option_map] in Hdec; injection Hdec as <-;
    pose proof (len_nonneg o') as Ho0;
    remember (Ref.d_tmpOut d) as p eqn:Hp;
    remember (Z.to_nat (Z.min cap (len p))) as k eqn:Hkdef;
    (assert (Hk : Z.of_nat k = Z.min cap (len p)) by (rewrite Hkdef; lia));
    clear Hkdef;
    (assert (Hout : length (firstn k p) = k) by (rewrite length_firstn; unfold len in *; lia));
    (assert (Hfirst : firstn k p = firstn (length (firstn k p)) (p ++ o'))
      by (rewrite Hout, firstn_app;
          replace (k - length p)%nat with 0%nat by (unfold len in *; lia);
          cbn [firstn]; now rewrite app_nil_r));
    pose proof (ref_input_hint_range (Ref.with_tmpOut d (skipn k p))) as Hhint;
    pose proof (ref_input_hint_ok (Ref.with_tmpOut d (skipn k p))) as Hhint_ok.
  - (* no input *)
    assert (Hres : (code, w, n, d')
                   = (Ref.input_hint (Ref.with_tmpOut d (skipn k p)), firstn k p, 0,
                      Ref.with_tmpOut d (skipn k p)))
      by (destruct (skipn k p); symmetry; exact Hrun).
    injection Hres as -> -> -> ->. change (len (@nil byte)) with 0.
    assert (Hlw : len (firstn k p) = Z.of_nat k) by (unfold len; lia).
    split; [assumption |]. split; [lia |]. split; [lia |]. split; [lia |]. split; [lia |].
    split; [lia |]. split; [assumption |]. split; [lia |]. split; [lia |].
    split; [| lia].
    intros _. cbn [Z.to_nat skipn]. rewrite ref_decode_rest_tmpOut.
    change (Ref.with_tmpOut (Ref.with_tmpOut d (skipn k p)) []) with (Ref.with_tmpOut d []).
    rewrite Hcore. cbn [option_map Ref.with_tmpOut Ref.d_tmpOut].
    rewrite Hout, skipn_app. replace (k - length p)%nat with 0%nat by (unfold len in *; lia).
    reflexivity.
  - pose proof (len_nonneg rest) as Hr0. rewrite len_cons.
    assert (Hlw : len (firstn k p) = Z.of_nat k) by (unfold len; lia).
    destruct (skipn k p) as [| x l] eqn:Hskip.
    2: { (* the destination is full *)
      assert (Hkp : (k < length p)%nat).
      { apply (f_equal (@length byte)) in Hskip. rewrite length_skipn in Hskip.
        cbn [length] in Hskip. lia. }
      injection Hrun as <- <- <- <-.
      split; [assumption |]. split; [lia |].
      split; [lia |]. split; [lia |]. split; [lia |].
      split; [unfold len in *; lia |]. split; [assumption |].
      split; [lia |]. split; [lia |].
      split.
      - intros _. cbn [Z.to_nat skipn]. rewrite ref_decode_rest_tmpOut.
        change (Ref.with_tmpOut (Ref.with_tmpOut d (x :: l)) []) with (Ref.with_tmpOut d []).
        rewrite Hcore. cbn [option_map Ref.with_tmpOut Ref.d_tmpOut].
        rewrite Hout, skipn_app, Hskip. replace (k - length p)%nat with 0%nat by lia.
        reflexivity.
      - intros _ _. rewrite len_app. unfold len in *. lia. }
    assert (Hkp : k = length p).
    { apply (f_equal (@length byte)) in Hskip. rewrite length_skipn in Hskip.
      cbn [length] in Hskip. unfold len in *. lia. }
    assert (Hall : firstn k p = p) by (rewrite Hkp; apply firstn_all).
    rewrite Hall in *.
    destruct i as [| b' rest_i]; [discriminate Hcore |].
    destruct (agree_cons_inv _ _ _ _ Hagree) as [<- Hagree'].
    cbn [Ref.decode_rest] in Hcore.
    change (Ref.with_tmpOut (Ref.with_tmpOut d []) []) with (Ref.with_tmpOut d []) in Hcore.
    rewrite len_cons in *. pose proof (len_nonneg rest_i) as Hri0.
    destruct (Ref.feed bc (Ref.with_tmpOut d []) b) as [e | | d2] eqn:Hfeed.
    + discriminate Hcore.
    + (* the frame ends with this byte *)
      destruct rest_i; [| discriminate Hcore].
      cbn [Ref.with_tmpOut Ref.d_tmpOut] in Hcore. injection Hcore as <-.
      injection Hrun as <- <- <- <-. change (len (@nil byte)) with 0. rewrite app_nil_r.
      split; [reflexivity |]. split; [lia |]. split; [lia |]. split; [lia |]. split; [lia |].
      split; [unfold len in *; lia |]. split; [symmetry; apply firstn_all |].
      split; [split; intros; lia |]. split; [reflexivity |].
      split; [congruence | congruence].
    + cbn [Ref.with_tmpOut Ref.d_tmpOut app] in Hcore.
      destruct (Ref.decode_rest bc d2 rest_i) as [o2 |] eqn:Hdec2; [| discriminate Hcore].
      cbn [option_map app] in Hcore. injection Hcore as <-.
      destruct (Ref.decompress_run bc d2 (cap - Z.min cap (len p)) rest)
        as [[[code2 w2] n2] d3] eqn:Hrec.
      remember (1 + n2) as m eqn:Hm in Hrun.
      injection Hrun as <- <- <- <-.
      destruct (IH d2 d3 rest_i o2 w2 (cap - Z.min cap (len p)) code2 n2 Hdec2)
        as (Herr & Hcode0 & Hn0 & Hns & Hni & Hwcap & Hw & Hdone & Hfin & Hnext & Hfull);
        [lia | assumption | assumption |].
      pose proof (len_nonneg w2) as Hw20.
      assert (Hplen : len p = Z.of_nat k) by (unfold len; lia).
      split; [assumption |]. split; [assumption |].
      split; [lia |]. split; [lia |]. split; [lia |].
      split; [rewrite len_app; lia |].
      split.
      { rewrite length_app, firstn_app.
        replace (length p + length w2 - length p)%nat with (length w2) by lia.
        rewrite firstn_all2 by lia. now rewrite <- Hw. }
      split; [split; intros; [assert (n2 = len rest_i) by tauto | assert (n2 = len rest_i) by lia; tauto]; lia |].
      split; [intros Hz; rewrite (Hfin Hz); reflexivity |].
      split.
      * intros Hnz. replace (Z.to_nat m) with (S (Z.to_nat n2)) by lia.
        cbn [skipn]. rewrite (Hnext Hnz). f_equal.
        rewrite length_app, skipn_app.
        replace (length p + length w2 - length p)%nat with (length w2) by lia.
        rewrite (skipn_all2 p) by lia. reflexivity.
      * intros Hnz Hlt. destruct (Hfull Hnz) as [Ha Hb]; [lia |].
        rewrite !len_app. lia.
Qed.

Lemma ref_decoder_spec : @DecoderSpec (Ref.codec bc) (Ref.Decoding bc).
Proof.
  split.
  - reflexivity.
  - intros d d' i o s w cap code n stable Hdec Hcap Hagree Hrun.
    exact (ref_run_step s d d' i o w cap code n Hdec Hcap Hagree Hrun).
Qed.
End Reference_decoder_spec.

Lemma arg_int_ok {St : Type} (initial : Z) (a : option Z) :
  arg_in_range a -> @arg_int St initial a = ret (arg_value initial a).
Proof.
  intros H. destruct a as [z |]; [| reflexivity]. cbn [arg_int arg_value].
  specialize (H z eq_refl).
  replace ((INT_MIN <=? z) && (z <=? INT_MAX)) with true; [reflexivity |].
  symmetry. apply andb_true_iff. split; apply Z.leb_le; lia.
Qed.

Lemma LZ4F_isError_small (x : Z) : x < 2 ^ 63 -> LZ4F_isError x = false.
Proof.
  intros H. unfold LZ4F_isError. apply Z.ltb_ge.
  change (size_neg (error_number LZ4F_ERROR_maxCode)) with 18446744073709551597. lia.
Qed.

Lemma len_le_bytes (n : nat) (z : Z) : len (le_bytes n z) = Z.of_nat n.
Proof.
  revert z. induction n as [| n IH]; intros z; [reflexivity |].
  cbn [le_bytes]. rewrite len_cons, IH. lia.
Qed.

Lemma valid_block_size (id : Z) :
  _valid_lz4f_block_size_id id = true ->
  Ref.getBlockSize id = 65536 \/ Ref.getBlockSize id = 262144 \/
  Ref.getBlockSize id = 1048576 \/ Ref.getBlockSize id = 4194304.
Proof.
  unfold _valid_lz4f_block_size_id. intros H.
  repeat (apply orb_true_iff in H; destruct H as [H | H]);
    apply Z.eqb_eq in H; subst id; cbv; auto.
Qed.

Section Reference_writer.
Variable bc : Ref.BlockCodec.

Lemma ref_encode_block_len (data : list byte) :
  len (Ref.encode_block bc data) <= 4 + len data.
Proof.
  unfold Ref.encode_block.
  destruct (Z.ltb_spec (len (Ref.compressBlock bc data)) (len data));
    rewrite len_app, len_le_bytes; lia.
Qed.

Lemma ref_feed_input_eq (blockSize : Z) (tmpIn : list byte) (b : byte) (rest : list byte) :
  Ref.feed_input bc blockSize tmpIn (b :: rest) =
  if blockSize <=? len (tmpIn ++ [b]) then
    (Ref.encode_block bc (tmpIn ++ [b]) ++ fst (Ref.feed_input bc blockSize [] rest),
     snd (Ref.feed_input bc blockSize [] rest))
  else Ref.feed_input bc blockSize (tmpIn ++ [b]) rest.
Proof.
  cbn [Ref.feed_input]. destruct (blockSize <=? len (tmpIn ++ [b])); [| reflexivity].
  destruct (Ref.feed_input bc blockSize [] rest). reflexivity.
Qed.

Lemma ref_feed_input_app (blockSize : Z) (x y tmpIn : list byte) :
  Ref.feed_input bc blockSize tmpIn (x ++ y) =
  (fst (Ref.feed_input bc blockSize tmpIn x)
     ++ fst (Ref.feed_input bc blockSize (snd (Ref.feed_input bc blockSize tmpIn x)) y),
   snd (Ref.feed_input bc blockSize (snd (Ref.feed_input bc blockSize tmpIn x)) y)).
Proof.
  revert tmpIn. induction x as [| b x IH]; intros tmpIn.
  - cbn [app Ref.feed_input fst snd]. now destruct (Ref.feed_input bc blockSize tmpIn y).
  - cbn [app]. rewrite !ref_feed_input_eq.
    destruct (blockSize <=? len (tmpIn ++ [b])).
    + rewrite IH. cbn [fst snd]. now rewrite app_assoc.
    + apply IH.
Qed.

Lemma ref_feed_input_len (blockSize : Z) (x tmpIn : list byte) :
  len (fst (Ref.feed_input bc blockSize tmpIn x))
  + len (snd (Ref.feed_input bc blockSize tmpIn x)) <= len tmpIn + 5 * len x.
Proof.
  revert tmpIn. induction x as [| b x IH]; intros tmpIn.
  - cbn [Ref.feed_input fst snd]. change (len (@nil byte)) with 0. lia.
  - rewrite ref_feed_input_eq, len_cons.
    destruct (blockSize <=? len (tmpIn ++ [b])); cbn [fst snd].
    + specialize (IH []). change (len (@nil byte)) with 0 in IH.
      pose proof (ref_encode_block_len (tmpIn ++ [b])) as He.
      rewrite len_app in *. change (len [b]) with 1 in He. lia.
    + specialize (IH (tmpIn ++ [b])). rewrite len_app in IH. change (len [b]) with 1 in IH.
      lia.
Qed.

Lemma ref_feed_input_tmp (blockSize : Z) (x tmpIn : list byte) :
  0 < blockSize -> len tmpIn < blockSize ->
  len (snd (Ref.feed_input bc blockSize tmpIn x)) < blockSize.
Proof.
  intros Hbs. revert tmpIn. induction x as [| b x IH]; intros tmpIn Ht.
  - exact Ht.
  - rewrite ref_feed_input_eq.
    destruct (Z.leb_spec blockSize (len (tmpIn ++ [b]))); cbn [snd].
    + apply IH. change (len (@nil byte)) with 0. lia.
    + apply IH. assumption.
Qed.

Lemma ref_flush_input_len (tmpIn : list byte) :
  len (Ref.flush_input bc tmpIn) <= 4 + len tmpIn.
Proof.
  destruct tmpIn as [| b t]; [cbn; pose proof (len_nonneg (@nil byte)); unfold len; cbn; lia |].
  apply ref_encode_block_len.
Qed.

Lemma ref_frame_end_len (fi : LZ4F_frameInfo_t) (content : list byte) :
  4 <= len (Ref.frame_end fi content) <= 8.
Proof.
  unfold Ref.frame_end. rewrite len_app, len_le_bytes.
  destruct (contentChecksumFlag fi); [change (len (@nil byte)) with 0 | rewrite len_le_bytes]; lia.
Qed.

Lemma ref_frame_header_len (fi : LZ4F_frameInfo_t) :
  len (Ref.frame_header fi) = if 0 <? contentSize fi then 15 else 7.
Proof.
  unfold Ref.frame_header, Ref.frame_descriptor.
  rewrite !len_app, len_le_bytes, !len_cons.
  destruct (0 <? contentSize fi); [rewrite len_le_bytes |]; reflexivity.
Qed.

Lemma ref_compressBound_range (n : Z) (p : option LZ4F_preferences_t) :
  0 <= n ->
  _valid_lz4f_block_size_id
    (blockSizeID (frameInfo match p with Some p => p | None => Ref.NULL_preferences end)) = true ->
  4 <= Ref.compressBound n p <= 5 * n + 4194316.
Proof.
  intros Hn Hvalid. unfold Ref.compressBound.
  set (prefs := match p with Some p => p | None => Ref.NULL_preferences end) in *.
  set (bs := Ref.getBlockSize (blockSizeID (frameInfo prefs))).
  assert (Hbs : 65536 <= bs <= 4194304)
    by (destruct (valid_block_size _ Hvalid) as [H | [H | [H | H]]]; unfold bs; rewrite H; lia).
  cbv zeta.
  pose proof (Z.div_pos n bs Hn ltac:(lia)) as Hq0.
  pose proof (Z.mul_div_le n bs ltac:(lia)) as Hq.
  pose proof (Z.mod_pos_bound n bs ltac:(lia)) as Hm.
  assert (Hqn : n / bs <= n) by (apply Z.div_le_upper_bound; nia).
  destruct (autoFlush prefs =? 0); destruct (contentChecksumFlag (frameInfo prefs)); nia.
Qed.
End Reference_writer.

Section Reference_compression.
Variable bc : Ref.BlockCodec.

Local Abbreviation R := (Ref.codec bc).
Local Abbreviation cap_c := (Capsule COMPRESSION_CAPSULE_NAME).

Lemma preferences_valid_id (bs bm cs lvl : option Z) (size af : Z) :
  valid_preferences bs bm cs lvl ->
  _valid_lz4f_block_size_id (blockSizeID (frameInfo (preferences_of bs bm cs lvl size af))) = true.
Proof. intros (_ & _ & _ & _ & H & _). exact H. Qed.

Lemma ref_frame_of_len (p : LZ4F_preferences_t) (b : list byte) :
  0 <= len (Ref.frame_of bc p b) <= 5 * len b + 27.
Proof.
  unfold Ref.frame_of.
  pose proof (ref_feed_input_len bc (Ref.getBlockSize (blockSizeID (frameInfo p))) b []) as H.
  destruct (Ref.feed_input bc _ [] b) as [out t]. cbn [fst snd] in H.
  change (len (@nil byte)) with 0 in H.
  rewrite !len_app, ref_frame_header_len.
  pose proof (ref_flush_input_len bc t). pose proof (ref_frame_end_len (frameInfo p) b).
  pose proof (len_nonneg out). pose proof (len_nonneg t).
  pose proof (len_nonneg (Ref.flush_input bc t)).
  destruct (0 <? contentSize (frameInfo p)); lia.
Qed.

Lemma wrote_whole (bound : Z) (out : list byte) :
  PyBytes_value (buf_resize (buf_write (buf_new bound) 0 out) (len out)) = out.
Proof.
  assert (Hdata : buf_data (buf_write (buf_new bound) 0 out) = out)
    by (rewrite buf_write_append; reflexivity).
  rewrite PyBytes_value_full; unfold buf_resize; cbn [buf_data buf_size]; rewrite Hdata;
    unfold len; rewrite Nat2Z.id, firstn_all; reflexivity.
Qed.

(** One-shot [compress] on the reference codec. *)
Lemma ref_compress_returns (b : list byte) (bs bm cs lvl : option Z) :
  valid_preferences bs bm cs lvl ->
  b <> [] ->
  len b < 2 ^ 56 ->
  fst (fst (@_lz4framed_compress R b bs bm cs lvl tt))
  = Returns (Ref.frame_of bc (preferences_of bs bm cs lvl (len b) 0) b).
Proof.
  intros Hvalid Hne Hlen.
  pose proof (preferences_valid_id bs bm cs lvl (len b) 0 Hvalid) as Hid.
  destruct Hvalid as (Hbs & Hbm & Hcs & Hlvl & Hvid & Hlevel).
  assert (Hpos : 0 < len b)
    by (destruct b as [| x b']; [congruence | rewrite len_cons; pose proof (len_nonneg b'); lia]).
  unfold _lz4framed_compress.
  rewrite (arg_int_ok _ _ Hbs), (arg_int_ok _ _ Hbm), (arg_int_ok _ _ Hcs), (arg_int_ok _ _ Hlvl).
  unfold bind at 1 2 3 4. cbn [ret].
  replace (len b <=? 0) with false by (symmetry; apply Z.leb_gt; lia).
  rewrite Hvid. cbn [negb].
  replace ((arg_value 0 lvl <? 0) || (16 <? arg_value 0 lvl)) with false.
  2: { symmetry. apply orb_false_iff. split; apply Z.ltb_ge; lia. }
  fold (preferences_of bs bm cs lvl (len b) 0).
  set (p := preferences_of bs bm cs lvl (len b) 0) in *.
  cbn [LZ4F_compressFrameBound LZ4F_compressFrame Ref.codec].
  assert (Hbound : 4 <= Ref.compressFrameBound (len b) p <= 5 * len b + 4194331).
  { unfold Ref.compressFrameBound.
    pose proof (ref_compressBound_range (len b) (Some (Ref.with_autoFlush p 1))
                                        ltac:(lia) Hid) as H.
    change Ref.maxFHSize with 15. lia. }
  pose proof (ref_frame_of_len p b) as Hflen.
  unfold BAIL_ON_LZ4_ERROR at 1. rewrite LZ4F_isError_small by lia.
  unfold PyBytes_FromStringAndSize. unfold bind at 1 2 3. cbn [ret emit].
  unfold Ref.compressFrame. rewrite Hid. cbn [negb].
  rewrite Z.ltb_irrefl.
  unfold BAIL_ON_LZ4_ERROR, _PyBytes_Resize, bind, emit, ret.
  rewrite (LZ4F_isError_small (len (Ref.frame_of bc p b))) by lia.
  cbn [fst]. f_equal. apply wrote_whole.
Qed.

Lemma ref_compress_begin_returns (bs bm cs lvl : option Z) :
  valid_preferences bs bm cs lvl ->
  exists ev : list event,
    @_lz4framed_compress_begin R cap_c bs bm cs None lvl Ref.new_compression_context
    = (Returns (Ref.frame_header (frameInfo (preferences_of bs bm cs lvl 0 0))),
       mid_frame (preferences_of bs bm cs lvl 0 0) [] [], ev).
Proof.
  intros Hvalid.
  pose proof (preferences_valid_id bs bm cs lvl 0 0 Hvalid) as Hid.
  destruct Hvalid as (Hbs & Hbm & Hcs & Hlvl & Hvid & Hlevel).
  unfold _lz4framed_compress_begin.
  rewrite (arg_int_ok _ _ Hbs), (arg_int_ok _ _ Hbm), (arg_int_ok _ _ Hcs), (arg_int_ok _ _ Hlvl).
  cbn [arg_int]. unfold bind at 1 2 3 4 5. cbn [ret].
  change (PyCapsule_IsValid cap_c COMPRESSION_CAPSULE_NAME) with true. cbn [negb].
  rewrite Hvid. cbn [negb].
  replace ((arg_value 0 lvl <? 0) || (16 <? arg_value 0 lvl)) with false.
  2: { symmetry. apply orb_false_iff. split; apply Z.ltb_ge; lia. }
  change (if 0 =? 0 then 0 else 1) with 0.
  fold (preferences_of bs bm cs lvl 0 0).
  set (p := preferences_of bs bm cs lvl 0 0) in *.
  pose proof (ref_frame_header_len (frameInfo p)) as Hh.
  unfold PyBytes_FromStringAndSize, call_compressBegin, bind, emit, ret.
  cbn [LZ4F_compressBegin Ref.codec].
  unfold Ref.compressBegin. cbn [Ref.c_started Ref.new_compression_context].
  rewrite Hid. cbn [negb]. change (15 <? Ref.maxFHSize) with false. cbv iota beta.
  unfold BAIL_ON_LZ4_ERROR, _PyBytes_Resize, bind, emit, ret.
  rewrite (LZ4F_isError_small (len (Ref.frame_header (frameInfo p))))
    by (rewrite Hh; destruct (0 <? contentSize (frameInfo p)); lia).
  rewrite wrote_whole. eexists. reflexivity.
Qed.

Lemma ref_compress_update_cases (p : LZ4F_preferences_t) (tmpIn content chunk : list byte) :
  _valid_lz4f_block_size_id (blockSizeID (frameInfo p)) = true ->
  autoFlush p = 0 ->
  chunk <> [] -> len chunk < 2 ^ 56 -> len tmpIn < 2 ^ 56 ->
  exists ev : list event,
    @_lz4framed_compress_update R cap_c chunk (mid_frame p tmpIn content)
    = if update_fits p (len chunk) then
        (Returns (fst (Ref.feed_input bc (Ref.getBlockSize (blockSizeID (frameInfo p)))
                                      tmpIn chunk)),
         mid_frame p (snd (Ref.feed_input bc (Ref.getBlockSize (blockSizeID (frameInfo p)))
                                          tmpIn chunk))
                   (content ++ chunk), ev)
      else
        (Raises (Lz4FramedError "ERROR_dstMaxSize_tooSmall" 11), mid_frame p tmpIn content, ev).
Proof.
  intros Hid Haf Hne Hlen Htmp.
  assert (Hpos : 0 < len chunk)
    by (destruct chunk as [| x c']; [congruence | rewrite len_cons; pose proof (len_nonneg c'); lia]).
  unfold _lz4framed_compress_update.
  change (PyCapsule_IsValid cap_c COMPRESSION_CAPSULE_NAME) with true. cbn [negb].
  replace (len chunk <=? 0) with false by (symmetry; apply Z.leb_gt; lia).
  cbn [LZ4F_compressBound Ref.codec].
  pose proof (ref_compressBound_range (len chunk) None ltac:(lia) eq_refl) as Hb.
  unfold BAIL_ON_LZ4_ERROR at 1. rewrite LZ4F_isError_small by lia.
  unfold PyBytes_FromStringAndSize, call_compressUpdate, bind, emit, ret.
  cbn [LZ4F_compressUpdate Ref.codec].
  unfold Ref.compressUpdate, mid_frame.
  cbn [Ref.c_started Ref.c_prefs Ref.c_tmpIn Ref.c_content negb].
  unfold update_fits. rewrite Haf. cbn [Z.eqb].
  destruct (Ref.compressBound (len chunk) None <? Ref.compressBound (len chunk) (Some p)).
  - cbn [negb]. eexists. reflexivity.
  - cbn [negb].
    pose proof (ref_feed_input_len bc (Ref.getBlockSize (blockSizeID (frameInfo p)))
                                   chunk tmpIn) as Hfl.
    destruct (Ref.feed_input bc _ tmpIn chunk) as [out t]. cbn [fst snd] in Hfl |- *.
    rewrite app_nil_r. pose proof (len_nonneg t). pose proof (len_nonneg out).
    unfold BAIL_ON_LZ4_ERROR, _PyBytes_Resize, bind, emit, ret.
    rewrite LZ4F_isError_small by lia.
    rewrite wrote_whole. eexists. reflexivity.
Qed.
End Reference_compression.

Section Reference_incremental.
Variable bc : Ref.BlockCodec.

Local Abbreviation R := (Ref.codec bc).
Local Abbreviation cap_c := (Capsule COMPRESSION_CAPSULE_NAME).

Lemma ref_compress_end_cases (p : LZ4F_preferences_t) (tmpIn content : list byte) :
  len tmpIn < 2 ^ 56 ->
  exists ev : list event,
    @_lz4framed_compress_end R cap_c (mid_frame p tmpIn content)
    = if 65548 <? len (end_output bc p tmpIn content) then
        (Raises too_small, mid_frame p tmpIn content, ev)
      else (Returns (end_output bc p tmpIn content), Ref.new_compression_context, ev).
Proof.
  intros Htmp. unfold _lz4framed_compress_end.
  change (PyCapsule_IsValid cap_c COMPRESSION_CAPSULE_NAME) with true. cbn [negb].
  cbn [LZ4F_compressBound Ref.codec].
  change (Ref.compressBound 0 None) with 65548.
  unfold BAIL_ON_LZ4_ERROR at 1. rewrite LZ4F_isError_small by lia.
  unfold PyBytes_FromStringAndSize, call_compressEnd, bind, emit, ret.
  cbn [LZ4F_compressEnd Ref.codec].
  unfold Ref.compressEnd, mid_frame.
  cbn [Ref.c_started Ref.c_prefs Ref.c_tmpIn Ref.c_content negb].
  fold (end_output bc p tmpIn content).
  destruct (65548 <? len (end_output bc p tmpIn content)) eqn:Hfit.
  - eexists. reflexivity.
  - apply Z.ltb_ge in Hfit.
    unfold BAIL_ON_LZ4_ERROR, _PyBytes_Resize, bind, emit, ret.
    rewrite LZ4F_isError_small by lia.
    rewrite wrote_whole. eexists. reflexivity.
Qed.

Lemma ref_compress_updates_cases (chunks : list (list byte)) :
  forall (p : LZ4F_preferences_t) (tmpIn content : list byte),
    _valid_lz4f_block_size_id (blockSizeID (frameInfo p)) = true ->
    autoFlush p = 0 ->
    Forall (fun c => c <> [] /\ len c < 2 ^ 56) chunks ->
    len tmpIn < Ref.getBlockSize (blockSizeID (frameInfo p)) ->
    if forallb (fun c => update_fits p (len c)) chunks then
      exists ev : list event,
        @compress_updates R cap_c chunks (mid_frame p tmpIn content)
        = (Returns (fst (Ref.feed_input bc (Ref.getBlockSize (blockSizeID (frameInfo p)))
                                        tmpIn (concat chunks))),
           mid_frame p (snd (Ref.feed_input bc (Ref.getBlockSize (blockSizeID (frameInfo p)))
                                            tmpIn (concat chunks)))
                     (content ++ concat chunks), ev)
    else
      exists (c : Ref.compression_context) (ev : list event),
        @compress_updates R cap_c chunks (mid_frame p tmpIn content) = (Raises too_small, c, ev).
Proof.
  induction chunks as [| chunk chunks IH]; intros p tmpIn content Hid Haf Hchunks Htmp.
  - cbn [forallb compress_updates concat Ref.feed_input fst snd]. rewrite app_nil_r.
    eexists. reflexivity.
  - inversion Hchunks as [| ? ? [Hne Hlen] Hrest]; subst.
    assert (Hbs : 0 < Ref.getBlockSize (blockSizeID (frameInfo p)) <= 4194304)
      by (destruct (valid_block_size _ Hid) as [H | [H | [H | H]]]; rewrite H; lia).
    destruct (ref_compress_update_cases bc p tmpIn content chunk Hid Haf Hne Hlen ltac:(lia))
      as (ev1 & Hupd).
    cbn [forallb compress_updates concat].
    destruct (update_fits p (len chunk)); cbn [andb].
    2: { eexists. eexists. unfold bind at 1. rewrite Hupd. reflexivity. }
    specialize (IH p (snd (Ref.feed_input bc (Ref.getBlockSize (blockSizeID (frameInfo p)))
                                          tmpIn chunk))
                   (content ++ chunk) Hid Haf Hrest
                   (ref_feed_input_tmp bc _ chunk tmpIn (proj1 Hbs) Htmp)).
    rewrite ref_feed_input_app. cbn [fst snd].
    destruct (forallb (fun c => update_fits p (len c)) chunks).
    + destruct IH as (ev2 & IH). eexists. unfold bind at 1. rewrite Hupd.
      unfold bind. rewrite IH. cbn [ret]. rewrite <- app_assoc. reflexivity.
    + destruct IH as (c & ev2 & IH). eexists. eexists. unfold bind at 1. rewrite Hupd.
      unfold bind. rewrite IH. reflexivity.
Qed.

(** The incremental path on a fresh reference context. *)
Lemma ref_compress_incremental_cases (chunks : list (list byte)) (bs bm cs lvl : option Z) :
  valid_preferences bs bm cs lvl ->
  Forall (fun c => c <> [] /\ len c < 2 ^ 56) chunks ->
  let p := preferences_of bs bm cs lvl 0 0 in
  let blockSize := Ref.getBlockSize (blockSizeID (frameInfo p)) in
  @compress_incremental R chunks bs bm cs lvl
  = if forallb (fun c => update_fits p (len c)) chunks
       && negb (65548 <? len (end_output bc p (snd (Ref.feed_input bc blockSize [] (concat chunks)))
                                         (concat chunks)))
    then Returns (Ref.frame_of bc p (concat chunks))
    else Raises too_small.
Proof.
  intros Hvalid Hchunks p blockSize.
  pose proof (preferences_valid_id bs bm cs lvl 0 0 Hvalid) as Hid. fold p in Hid.
  assert (Hbs : 0 < blockSize <= 4194304)
    by (destruct (valid_block_size _ Hid) as [H | [H | [H | H]]]; unfold blockSize; rewrite H; lia).
  unfold compress_incremental, _lz4framed_create_compression_context.
  cbn [LZ4F_createCompressionContext Ref.codec].
  change (LZ4F_isError 0) with false. cbv iota beta.
  destruct (ref_compress_begin_returns bc bs bm cs lvl Hvalid) as (ev0 & Hbegin).
  fold p in Hbegin.
  unfold bind at 1. rewrite Hbegin.
  pose proof (ref_compress_updates_cases chunks p [] [] Hid eq_refl Hchunks
                                         ltac:(change (len (@nil byte)) with 0; lia)) as Hupd.
  fold blockSize in Hupd. cbn [app] in Hupd.
  destruct (forallb (fun c => update_fits p (len c)) chunks); cbn [andb].
  2: { destruct Hupd as (c & ev & Hupd). unfold bind at 1.
       rewrite Hupd. reflexivity. }
  destruct Hupd as (ev1 & Hupd). unfold bind at 1. rewrite Hupd.
  pose proof (ref_feed_input_tmp bc blockSize (concat chunks) [] (proj1 Hbs)
                                 ltac:(change (len (@nil byte)) with 0; lia)) as Htmp.
  destruct (ref_compress_end_cases p (snd (Ref.feed_input bc blockSize [] (concat chunks)))
                                   (concat chunks) ltac:(lia)) as (ev2 & Hend).
  unfold bind at 1. rewrite Hend.
  destruct (65548 <? len (end_output bc p _ (concat chunks))); cbn [negb fst ret].
  - reflexivity.
  - f_equal. unfold Ref.frame_of, end_output. fold blockSize.
    destruct (Ref.feed_input bc blockSize [] (concat chunks)) as [out t]. cbn [fst snd].
    reflexivity.
Qed.

(** With the block size class of the default preferences the destinations fit. *)
Lemma ref_default_class_fits (bs bm cs lvl : option Z) (chunks : list (list byte)) :
  valid_preferences bs bm cs lvl ->
  arg_value LZ4F_default bs = LZ4F_default \/ arg_value LZ4F_default bs = LZ4F_max64KB ->
  Forall (fun c => c <> [] /\ len c < 2 ^ 56) chunks ->
  let p := preferences_of bs bm cs lvl 0 0 in
  forallb (fun c => update_fits p (len c)) chunks
  && negb (65548 <? len (end_output bc p (snd (Ref.feed_input bc (Ref.getBlockSize
                                                                (blockSizeID (frameInfo p)))
                                                           [] (concat chunks)))
                                    (concat chunks))) = true.
Proof.
  intros Hvalid Hclass Hchunks p.
  assert (Hbs : Ref.getBlockSize (blockSizeID (frameInfo p)) = 65536)
    by (unfold p; cbn [preferences_of frameInfo blockSizeID];
        destruct Hclass as [-> | ->]; reflexivity).
  apply andb_true_iff. split.
  - apply forallb_forall. intros c Hin.
    rewrite Forall_forall in Hchunks. destruct (Hchunks c Hin) as [_ Hlen].
    unfold update_fits. apply negb_true_iff, Z.ltb_ge.
    unfold Ref.compressBound. rewrite Hbs.
    change (Ref.getBlockSize (blockSizeID (frameInfo Ref.NULL_preferences))) with 65536.
    change (autoFlush p =? 0) with true. change (autoFlush Ref.NULL_preferences =? 0) with true.
    cbv zeta iota.
    change (contentChecksumFlag (frameInfo Ref.NULL_preferences))
      with LZ4F_contentChecksumEnabled.
    destruct (contentChecksumFlag (frameInfo p)); lia.
  - apply negb_true_iff, Z.ltb_ge. rewrite Hbs. unfold end_output. rewrite len_app.
    pose proof (ref_feed_input_tmp bc 65536 (concat chunks) [] ltac:(lia)
                                   ltac:(change (len (@nil byte)) with 0; lia)) as Htmp.
    pose proof (ref_flush_input_len bc (snd (Ref.feed_input bc 65536 [] (concat chunks)))).
    pose proof (ref_frame_end_len (frameInfo p) (concat chunks)). lia.
Qed.
End Reference_incremental.

(** ** Growth chains *)
Lemma growth_events_undeclared (caps : list Z) :
  growth_events false caps = map EvResize caps.
Proof.
  induction caps as [| c caps IH]; [reflexivity |].
  unfold growth_events in *. cbn [flat_map map app]. now f_equal.
Qed.

Lemma doubling_chain_exact (L n : Z) (caps : list Z) :
  doubling_chain L n caps -> n <= L -> caps = [].
Proof.
  intros H Hle. destruct H as [L n Hfit | L n caps Hlt _]; [reflexivity | lia].
Qed.

Lemma len_nonempty {A : Type} (l : list A) : l <> [] -> 0 < len l.
Proof.
  destruct l as [| x l']; [congruence |]. intros _. rewrite len_cons.
  pose proof (len_nonneg l'). lia.
Qed.

(** ** Errors of the header parser *)
Section Header_errors.
Context {L : LZ4F}.

Lemma decompress_header_error (rt : PyRuntime) (fuel : nat) (b : list byte)
      (buffer_size code n : Z) (info : LZ4F_frameInfo_t) (d' : dctx) :
  b <> [] ->
  0 < buffer_size <= INT_MAX ->
  LZ4F_isError (fst LZ4F_createDecompressionContext) = false ->
  LZ4F_getFrameInfo (snd LZ4F_createDecompressionContext) b = (code, info, n, d') ->
  LZ4F_isError code = true ->
  _lz4framed_decompress rt fuel b (Some buffer_size)
  = (Raises (Lz4FramedError (LZ4F_getErrorName code) (size_neg code)), []).
Proof.
  intros Hne Hbs Hcreate Hinfo Herr.
  pose proof (len_nonempty b Hne) as Hpos.
  unfold _lz4framed_decompress, arg_int, bind.
  replace ((INT_MIN <=? buffer_size) && (buffer_size <=? INT_MAX)) with true
    by (symmetry; apply andb_true_iff; unfold INT_MIN, INT_MAX in *;
        split; apply Z.leb_le; lia).
  cbn [ret].
  replace (len b <=? 0) with false by (symmetry; apply Z.leb_gt; lia).
  replace (buffer_size <=? 0) with false by (symmetry; apply Z.leb_gt; lia).
  destruct LZ4F_createDecompressionContext as [code0 d0].
  cbn [fst snd] in Hcreate, Hinfo.
  unfold BAIL_ON_LZ4_ERROR at 1. rewrite Hcreate. cbn [ret].
  unfold decompress_with_context, call_getFrameInfo, bind. rewrite Hinfo.
  unfold BAIL_ON_LZ4_ERROR. rewrite Herr. reflexivity.
Qed.

Lemma get_frame_info_calls_parser (d : dctx) :
  _lz4framed_get_frame_info (Capsule DECOMPRESSION_CAPSULE_NAME) d
  = match LZ4F_getFrameInfo d [] with
    | (code, info, _, d') =>
      if LZ4F_isError code then
        (Raises (Lz4FramedError (LZ4F_getErrorName code) (size_neg code)), d', [])
      else
        (Returns [("input_hint"%string, PyLong code);
                  ("length"%string, PyLong (contentSize info));
                  ("block_size_id"%string, PyLong (blockSizeID info));
                  ("block_mode_linked"%string,
                   PyBool match blockMode info with
                          | LZ4F_blockLinked => true
                          | LZ4F_blockIndependent => false
                          end);
                  ("checksum"%string,
                   PyBool match contentChecksumFlag info with
                          | LZ4F_contentChecksumEnabled => true
                          | LZ4F_noContentChecksum => false
                          end)], d', [])
    end.
Proof.
  unfold _lz4framed_get_frame_info.
  change (PyCapsule_IsValid (Capsule DECOMPRESSION_CAPSULE_NAME) DECOMPRESSION_CAPSULE_NAME)
    with true.
  cbn [negb]. unfold call_getFrameInfo, bind, BAIL_ON_LZ4_ERROR.
  destruct (LZ4F_getFrameInfo d []) as [[[code info] n] d'].
  destruct (LZ4F_isError code); reflexivity.
Qed.

Lemma update_rejects_zero (fuel : nat) (d : dctx) (b : list byte) :
  b <> [] ->
  _lz4framed_decompress_update fuel (Capsule DECOMPRESSION_CAPSULE_NAME) b (Some 0) d
  = (Raises (ValueError "chunk_len invalid"), d, []).
Proof.
  intros Hne.
  pose proof (len_nonempty b Hne) as Hpos.
  unfold _lz4framed_decompress_update, arg_int_into_size_t, bind.
  cbn -[len Z.leb].
  replace (len b <=? 0) with false by (symmetry; apply Z.leb_gt; lia).
  reflexivity.
Qed.
End Header_errors.

Section Reference_header.
Variable bc : Ref.BlockCodec.

Lemma ref_header_target_prefix (frame : list byte) (hs : Z) (k : nat) :
  Ref.LZ4F_headerSize frame = inr hs ->
  Z.of_nat k < hs ->
  len (firstn k frame) < Ref.header_target (firstn k frame).
Proof.
  intros Hhs Hk.
  destruct frame as [| m0 [| m1 [| m2 [| m3 [| flg tl]]]]]; try discriminate Hhs.
  unfold Ref.header_target.
  destruct k as [| [| [| [| [| k]]]]];
    try (cbn -[Z.ltb Z.eqb Z.land Z.shiftr le_value]; unfold Ref.minFHSize;
         rewrite ?len_cons, ?len_nil; lia).
  cbn [firstn]. 
  change (Ref.LZ4F_headerSize (m0 :: m1 :: m2 :: m3 :: flg :: firstn k tl))
    with (Ref.LZ4F_headerSize (m0 :: m1 :: m2 :: m3 :: flg :: tl)).
  rewrite Hhs. rewrite !len_cons, len_firstn. lia.
Qed.

Lemma ref_truncated_header (frame : list byte) (hs : Z) (k : nat) :
  Ref.LZ4F_headerSize frame = inr hs ->
  Z.of_nat k < hs ->
  Ref.getFrameInfo bc Ref.new_decompression_context (firstn k frame)
  = (LZ4F_error LZ4F_ERROR_frameHeader_incomplete, Ref.default_frameInfo, 0,
     Ref.new_decompression_context).
Proof.
  intros Hhs Hk. unfold Ref.getFrameInfo. cbn [Ref.new_decompression_context Ref.d_stage app].
  pose proof (ref_header_target_prefix frame hs k Hhs Hk) as Hlt.
  apply Z.ltb_lt in Hlt. rewrite Hlt. reflexivity.
Qed.

Lemma ref_with_tmpOut_same (d : Ref.decompression_context) :
  Ref.with_tmpOut d (Ref.d_tmpOut d) = d.
Proof. destruct d; reflexivity. Qed.

Lemma ref_get_frame_info_nil (d : Ref.decompression_context) :
  Ref.getFrameInfo bc d []
  = if Ref.header_parsed d then (Ref.input_hint d, Ref.d_frameInfo d, 0, d)
    else (LZ4F_error LZ4F_ERROR_frameHeader_incomplete, Ref.default_frameInfo, 0, d).
Proof.
  assert (Hrun : Ref.decompress_run bc d 0 [] = (Ref.input_hint d, [], 0, d)).
  { destruct d as [st fi ct tmp]. unfold Ref.decompress_run.
    cbn [Ref.d_tmpOut Ref.with_tmpOut Ref.d_stage Ref.d_frameInfo Ref.d_content].
    assert (Hk : Z.to_nat (Z.min 0 (len tmp)) = 0%nat) by (pose proof (len_nonneg tmp); lia).
    rewrite Hk. cbn [skipn firstn]. destruct tmp; reflexivity. }
  unfold Ref.getFrameInfo, Ref.header_parsed.
  destruct (Ref.d_stage d) as [tmpIn | | | |] eqn:Hst; rewrite ?Hrun; try reflexivity.
  rewrite app_nil_r. cbn [firstn].
  destruct (len tmpIn <? Ref.header_target tmpIn); [reflexivity |].
  replace (firstn (Z.to_nat (Ref.header_target tmpIn - len tmpIn)) (@nil byte)) with (@nil byte)
    by (now rewrite firstn_nil).
  rewrite Hrun.
  rewrite (ref_input_hint_ok d).
  unfold Ref.header_parsed. rewrite Hst. reflexivity.
Qed.
End Reference_header.

(* ----------------------------------------------------------------- *)
(** ** [decompress] on a frame the decoder turns down *)

Section Decompress_rejected.
Context {L : LZ4F}.

Lemma decompress_body_error (rt : PyRuntime) (info : LZ4F_frameInfo_t) (stable : bool)
      (v : decompress_vars) (d d' : dctx) (code n : Z) (w : list byte) :
  LZ4F_decompress d (dv_output_remaining v) (dv_input v) stable = (code, w, n, d') ->
  LZ4F_isError code = true ->
  decompress_body rt info stable v d
  = (Raises (Lz4FramedError (LZ4F_getErrorName code) (size_neg code)), d', []).
Proof.
  intros Hcall Herr.
  unfold decompress_body, call_decompress, bind, BAIL_ON_LZ4_ERROR.
  rewrite Hcall, Herr. reflexivity.
Qed.

Variable Rejecting : dctx -> list byte -> list byte -> LZ4F_errorCodes -> Prop.
Hypothesis HR : RejectSpec Rejecting.

(** The loop on input the decoder turns down at its end: the buffer grows as
    for a frame that decodes, and the decoder's error ends the loop once the
    content has been taken. *)
Lemma decompress_loop_rejected (rt : PyRuntime) (info : LZ4F_frameInfo_t) (stable : bool) :
  forall (fuel : nat) (v : decompress_vars) (d : dctx) (i t o : list byte)
         (e : LZ4F_errorCodes) (W : Z),
    (0 <? contentSize info) && warnings_as_errors rt = false
    \/ W + len o <= dv_output_len v ->
    (length o < fuel)%nat ->
    Rejecting d i o e ->
    dv_input v = i ++ t ->
    dv_input_size_hint v <> 0 ->
    0 <= W ->
    dv_output_remaining v = dv_output_len v - W ->
    0 < dv_output_remaining v ->
    dv_output_len v < 2 ^ 63 ->
    W + len o < 2 ^ 62 ->
    len (i ++ t) < 2 ^ 63 ->
    exists (caps : list Z) (d' : dctx),
      doubling_chain (dv_output_len v) (W + len o) caps /\
      while_loop fuel (fun v => negb (dv_input_size_hint v =? 0))
                 (decompress_body rt info stable) v d
      = (Raises (Lz4FramedError (LZ4F_getErrorName (LZ4F_error e)) (size_neg (LZ4F_error e))),
         d', growth_events (0 <? contentSize info) caps).
Proof.
  induction fuel as [| fuel IH];
    intros v d i t o e W Hwarn' Hfuel Hrej Hin Hhint HW Hrem Hcap HL Hn Hlen.
  { exfalso; lia. }
  rewrite while_loop_unfold.
  replace (negb (dv_input_size_hint v =? 0)) with true
    by (symmetry; apply negb_true_iff, Z.eqb_neq, Hhint).
  destruct (LZ4F_decompress d (dv_output_remaining v) (dv_input v) stable)
    as [[[code w] n] d'] eqn:Hcall.
  pose proof (len_nonneg o) as Ho0.
  pose proof (len_nonneg w) as Hw0. pose proof (len_nonneg i) as Hi0.
  pose proof (len_nonneg t) as Ht0.
  destruct (rejecter_step _ HR d d' i o (dv_input v) w (dv_output_remaining v) code n stable e)
    as [Hbad Hgood];
    [assumption | lia | exists t; left; assumption | assumption |].
  destruct (LZ4F_isError code) eqn:Herr.
  - (* the decoder turns the frame down *)
    destruct (Hbad eq_refl) as (Hcode & _ & Hfit).
    rewrite (decompress_body_error rt info stable v d d' code n w Hcall Herr), Hcode.
    exists [], d'. split; [constructor; lia | reflexivity].
  - (* the destination is full *)
    destruct (Hgood eq_refl) as (Hcode0 & Hc & Hns & Hni & Hwcap & Hw & Hnext & Hfull).
    rewrite (decompress_body_eq rt info stable v d d' code n w Hcall Herr).
    cbv zeta.
    destruct (Z.eqb_spec code 0) as [Hc0 | _]; [contradiction |].
    rewrite Hin, len_app in Hns, Hfull |- *. rewrite len_app in Hlen.
    destruct Hfull as [Hwfull Hsmall]; [lia |].
    assert (Hsub : size_sub (len i + len t) n = len i + len t - n)
      by (unfold size_sub; apply size_wrap_small; rewrite SIZE_MOD_eq; lia).
    rewrite Hsub. replace (0 <? len i + len t - n) with true by (symmetry; apply Z.ltb_lt; lia).
    assert (Hwarn : (0 <? contentSize info) && warnings_as_errors rt = false)
      by (destruct Hwarn' as [Hwarn' | Hwarn']; [assumption | lia]).
    rewrite Hwarn.
    assert (Hrem0 : size_sub (dv_output_remaining v) (len w) = 0)
      by (unfold size_sub; rewrite Hwfull, Z.sub_diag; reflexivity).
    rewrite Hrem0.
    assert (Hadd : size_add 0 (dv_output_len v) = dv_output_len v)
      by (unfold size_add; apply size_wrap_small; rewrite SIZE_MOD_eq; lia).
    assert (Hmul : size_mul (dv_output_len v) 2 = 2 * dv_output_len v)
      by (unfold size_mul; rewrite size_wrap_small; rewrite ?SIZE_MOD_eq; lia).
    rewrite Hadd, Hmul.
    assert (Hpos' : size_sub (2 * dv_output_len v) (dv_output_len v) = dv_output_len v)
      by (unfold size_sub; rewrite size_wrap_small; rewrite ?SIZE_MOD_eq; lia).
    rewrite Hpos'.
    assert (Hlw : (length w <= length o)%nat) by (unfold len in *; lia).
    assert (Hlw1 : (0 < length w)%nat) by (unfold len in *; lia).
    match goal with
    | |- context [while_loop fuel ?c ?b ?v1 d'] =>
      destruct (IH v1 d' (skipn (Z.to_nat n) i) t (skipn (length w) o) e (W + len w))
        as (caps & d'' & Hchain & Hloop)
    end.
    + left. assumption.
    + rewrite length_skipn. lia.
    + assumption.
    + cbn [dv_input]. apply skipn_app_le. unfold len in *. lia.
    + cbn [dv_input_size_hint]. assumption.
    + lia.
    + cbn [dv_output_remaining dv_output_len]. lia.
    + cbn [dv_output_remaining]. lia.
    + cbn [dv_output_len]. lia.
    + rewrite len_skipn. unfold len in *. lia.
    + rewrite len_app, len_skipn. unfold len in *. lia.
    + cbn [dv_output_len] in Hchain.
      assert (Htot : W + len w + len (skipn (length w) o) = W + len o)
        by (rewrite len_skipn; unfold len in *; lia).
      rewrite Htot in Hchain.
      exists (2 * dv_output_len v :: caps), d''.
      split; [constructor; [lia | assumption] |].
      rewrite Hloop. reflexivity.
Qed.

(** The straight-line part of [decompress], up to the decoding loop. *)
Lemma decompress_prelude_rejecting (rt : PyRuntime) (frame i t : list byte)
      (info : LZ4F_frameInfo_t) (h hint buffer_size : Z) (d1 : dctx) (fuel : nat) :
  LZ4F_getFrameInfo (snd LZ4F_createDecompressionContext) frame = (hint, info, h, d1) ->
  LZ4F_isError hint = false ->
  0 <= h <= len frame ->
  skipn (Z.to_nat h) frame = i ++ t ->
  frame <> [] ->
  0 < buffer_size <= INT_MAX ->
  len frame < 2 ^ 62 ->
  _lz4framed_decompress rt fuel frame (Some buffer_size) =
  let L0 := initial_capacity info buffer_size (len frame - h) in
  match while_loop fuel (fun v => negb (dv_input_size_hint v =? 0))
                   (decompress_body rt info (0 <? contentSize info))
                   {| dv_input := i ++ t; dv_input_size_hint := hint;
                      dv_output := buf_new L0; dv_output_pos := 0;
                      dv_output_len := L0; dv_output_remaining := L0 |} d1 with
  | (Returns v, _, ev) =>
    (Returns (PyBytes_value (buf_resize (dv_output v) (dv_output_len v))),
     EvAlloc L0 :: ev ++ [EvResize (dv_output_len v)])
  | (Raises x, _, ev) => (Raises x, EvAlloc L0 :: ev)
  | (OutOfFuel, _, ev) => (OutOfFuel, EvAlloc L0 :: ev)
  end.
Proof.
  intros Hinfo Herr Hh Hrest Hne Hbs Hflen.
  pose proof (len_nonneg frame) as Hf0.
  assert (Hfpos : 0 < len frame)
    by (destruct frame; [congruence | rewrite len_cons; pose proof (len_nonneg frame); lia]).
  unfold _lz4framed_decompress, arg_int, bind.
  replace ((INT_MIN <=? buffer_size) && (buffer_size <=? INT_MAX)) with true
    by (symmetry; apply andb_true_iff; unfold INT_MIN, INT_MAX in *;
        split; apply Z.leb_le; lia).
  cbn [ret].
  replace (len frame <=? 0) with false by (symmetry; apply Z.leb_gt; lia).
  replace (buffer_size <=? 0) with false by (symmetry; apply Z.leb_gt; lia).
  pose proof (rejecter_creates _ HR) as Hcreate.
  destruct LZ4F_createDecompressionContext as [code0 d0] eqn:Hc0.
  cbn [fst snd] in Hcreate, Hinfo.
  unfold BAIL_ON_LZ4_ERROR at 1. rewrite Hcreate. cbn [ret].
  unfold decompress_with_context, call_getFrameInfo, bind. rewrite Hinfo.
  unfold BAIL_ON_LZ4_ERROR. rewrite Herr. cbn [ret].
  assert (Hsub : size_sub (len frame) h = len frame - h)
    by (unfold size_sub; apply size_wrap_small; rewrite SIZE_MOD_eq; lia).
  rewrite Hsub.
  assert (Hcap : (if 0 <? contentSize info then contentSize info
                  else if size_wrap buffer_size >=? len frame - h then size_wrap buffer_size
                       else len frame - h)
                 = initial_capacity info buffer_size (len frame - h)).
  { unfold initial_capacity. destruct (0 <? contentSize info); [reflexivity |].
    rewrite size_wrap_small by (rewrite SIZE_MOD_eq; unfold INT_MAX in *; lia).
    destruct (Z.geb_spec buffer_size (len frame - h)); lia. }
  rewrite Hcap, Hrest. cbv zeta.
  unfold PyBytes_FromStringAndSize, _PyBytes_Resize, bind, emit, ret.
  destruct (while_loop _ _ _ _ d1) as [[[v | x |] d'] ev]; cbn [app]; reflexivity.
Qed.

(** [decompress] on a frame the decoder turns down at its end: the buffer
    grows by doubling until the content fits, then the decoder's error is
    raised. *)
Lemma decompress_rejected (rt : PyRuntime) (frame o : list byte) (info : LZ4F_frameInfo_t)
      (h buffer_size : Z) (e : LZ4F_errorCodes) :
  frame_rejected Rejecting frame info h o e ->
  frame <> [] ->
  0 < buffer_size <= INT_MAX ->
  len frame < 2 ^ 62 -> len o < 2 ^ 62 -> 0 <= contentSize info < 2 ^ 62 ->
  (0 <? contentSize info) && warnings_as_errors rt = false
  \/ len o <= initial_capacity info buffer_size (len frame - h) ->
  forall fuel : nat,
    (length o < fuel)%nat ->
    exists caps : list Z,
      doubling_chain (initial_capacity info buffer_size (len frame - h)) (len o) caps /\
      _lz4framed_decompress rt fuel frame (Some buffer_size)
      = (Raises (Lz4FramedError (LZ4F_getErrorName (LZ4F_error e)) (size_neg (LZ4F_error e))),
         EvAlloc (initial_capacity info buffer_size (len frame - h))
           :: growth_events (0 <? contentSize info) caps).
Proof.
  intros (hint & d1 & i & t & Hinfo & Herr & Hhint & Hh & Hrest & Hrej)
         Hne Hbs Hflen Holen Hcs Hwarn fuel Hfuel.
  pose proof (len_nonneg frame) as Hf0.
  assert (Hrestlen : len (i ++ t) = len frame - h).
  { rewrite <- Hrest, len_skipn. lia. }
  rewrite (decompress_prelude_rejecting rt frame i t info h hint buffer_size d1 fuel)
    by assumption.
  cbv zeta.
  set (L0 := initial_capacity info buffer_size (len frame - h)) in *.
  assert (HL0 : 0 < L0 < 2 ^ 62).
  { unfold L0, initial_capacity.
    destruct (Z.ltb_spec 0 (contentSize info)); unfold INT_MAX in *; lia. }
  destruct (decompress_loop_rejected rt info (0 <? contentSize info) fuel
              {| dv_input := i ++ t; dv_input_size_hint := hint;
                 dv_output := buf_new L0; dv_output_pos := 0;
                 dv_output_len := L0; dv_output_remaining := L0 |}
              d1 i t o e 0)
    as (caps & d' & Hchain & Hloop);
    cbn [dv_input dv_input_size_hint dv_output dv_output_pos dv_output_len
         dv_output_remaining];
      try reflexivity; try assumption; try lia.
  cbn [dv_output_len] in Hchain. rewrite Z.add_0_l in Hchain.
  exists caps. split; [exact Hchain |].
  rewrite Hloop. reflexivity.
Qed.

(** The first growth of a buffer sized by the header: when the runtime
    raises the warning, the call ends with it. *)
Lemma decompress_rejected_warning_escalated (rt : PyRuntime) (frame o : list byte)
      (info : LZ4F_frameInfo_t) (h buffer_size : Z) (e : LZ4F_errorCodes) :
  frame_rejected Rejecting frame info h o e ->
  frame <> [] ->
  0 < buffer_size <= INT_MAX ->
  len frame < 2 ^ 62 ->
  0 < contentSize info < len o ->
  warnings_as_errors rt = true ->
  forall fuel : nat,
    (0 < fuel)%nat ->
    _lz4framed_decompress rt fuel frame (Some buffer_size)
    = (Raises (RuntimeWarning mismatch_warning),
       [EvAlloc (contentSize info); EvWarn mismatch_warning]).
Proof.
  intros (hint & d1 & i & t & Hinfo & Herr & Hhint & Hh & Hrest & Hrej)
         Hne Hbs Hflen Hcs Hwarn fuel Hfuel.
  pose proof (len_nonneg frame) as Hf0.
  assert (Hrestlen : len (i ++ t) = len frame - h).
  { rewrite <- Hrest, len_skipn. lia. }
  rewrite (decompress_prelude_rejecting rt frame i t info h hint buffer_size d1 fuel)
    by assumption.
  cbv zeta.
  assert (HL0 : initial_capacity info buffer_size (len frame - h) = contentSize info).
  { unfold initial_capacity. replace (0 <? contentSize info) with true; [reflexivity |].
    symmetry. apply Z.ltb_lt. lia. }
  rewrite HL0.
  destruct fuel as [| fuel]; [lia |].
  rewrite while_loop_unfold. cbn [dv_input_size_hint].
  replace (negb (hint =? 0)) with true by (symmetry; apply negb_true_iff, Z.eqb_neq, Hhint).
  match goal with
  | |- context [decompress_body rt info ?st ?v d1] =>
    destruct (LZ4F_decompress d1 (dv_output_remaining v) (dv_input v) st)
      as [[[code w] n] d'] eqn:Hcall;
      destruct (rejecter_step _ HR d1 d' i o (dv_input v) w (dv_output_remaining v) code n st e)
      as [Hbad Hgood];
      [assumption | cbn [dv_output_remaining]; lia | exists t; left; reflexivity
       | assumption |];
      destruct (LZ4F_isError code) eqn:Herr';
      [destruct (Hbad eq_refl) as (_ & _ & Hfit); cbn [dv_output_remaining] in Hfit; lia |];
      destruct (Hgood eq_refl) as (Hcode0 & Hc & Hns & Hni & Hwcap & Hw & Hnext & Hfull);
      rewrite (decompress_body_eq rt info st v d1 d' code n w Hcall Herr')
  end.
  cbn [dv_input dv_output_remaining] in *. cbv zeta.
  pose proof (len_nonneg i). pose proof (len_nonneg t). pose proof (len_nonneg w).
  rewrite len_app in *.
  destruct (Z.eqb_spec code 0) as [Hc0 | _]; [contradiction |].
  assert (Hsub : size_sub (len i + len t) n = len i + len t - n)
    by (unfold size_sub; apply size_wrap_small; rewrite SIZE_MOD_eq; lia).
  rewrite Hsub. replace (0 <? len i + len t - n) with true by (symmetry; apply Z.ltb_lt; lia).
  replace (0 <? contentSize info) with true by (symmetry; apply Z.ltb_lt; lia).
  rewrite Hwarn. reflexivity.
Qed.
End Decompress_rejected.

(* ----------------------------------------------------------------- *)
(** ** The reference decoder meets the contract of a rejecting decoder *)

Section Reference_rejecter.
Variable bc : Ref.BlockCodec.

Lemma ref_decodeHeader_error (h : list byte) (e : LZ4F_errorCodes) :
  Ref.decodeHeader h = inl e -> LZ4F_isError (LZ4F_error e) = true.
Proof.
  unfold Ref.decodeHeader. intros H.
  repeat match type of H with
         | context [match ?x with _ => _ end] => destruct x
         end;
    try discriminate H; injection H as <-; reflexivity.
Qed.

Lemma ref_feed_error (d : Ref.decompression_context) (b : byte) (e : LZ4F_errorCodes) :
  Ref.feed bc d b = Ref.FedError e -> LZ4F_isError (LZ4F_error e) = true.
Proof.
  unfold Ref.feed. intros H.
  destruct (Ref.d_stage d).
  - destruct (_ <? _); [discriminate H |].
    destruct (Ref.decodeHeader _) as [e' | fi] eqn:Hh; [| discriminate H].
    injection H as <-. exact (ref_decodeHeader_error _ _ Hh).
  - cbv zeta in H.
    repeat match type of H with
           | context [if ?c then _ else _] => destruct c
           | context [match ?x with _ => _ end] => destruct x
           end;
      try discriminate H; injection H as <-; reflexivity.
  - discriminate H.
  - cbv zeta in H.
    repeat match type of H with
           | context [if ?c then _ else _] => destruct c
           | context [match ?x with _ => _ end] => destruct x
           end;
      try discriminate H; injection H as <-; reflexivity.
  - cbv zeta in H.
    repeat match type of H with
           | context [if ?c then _ else _] => destruct c
           end;
      try discriminate H; injection H as <-; reflexivity.
Qed.

Lemma ref_reject_rest_tmpOut (d : Ref.decompression_context) (i : list byte) :
  Ref.reject_rest bc d i
  = option_map (fun oe => (Ref.d_tmpOut d ++ fst oe, snd oe))
               (Ref.reject_rest bc (Ref.with_tmpOut d []) i).
Proof.
  destruct i as [| b rest]; [reflexivity |]. cbn [Ref.reject_rest].
  change (Ref.with_tmpOut (Ref.with_tmpOut d []) []) with (Ref.with_tmpOut d []).
  destruct (Ref.feed bc (Ref.with_tmpOut d []) b) as [e | | d2]; cbn [Ref.with_tmpOut Ref.d_tmpOut].
  - destruct rest; cbn; [now rewrite app_nil_r | reflexivity].
  - reflexivity.
  - destruct (Ref.reject_rest bc d2 rest) as [[o2 e2] |]; cbn; reflexivity.
Qed.

Lemma ref_reject_step (s : list byte) :
  forall (d d' : Ref.decompression_context) (i o w : list byte) (cap code n : Z)
         (e : LZ4F_errorCodes),
    Ref.reject_rest bc d i = Some (o, e) ->
    0 <= cap ->
    agree s i ->
    Ref.decompress_run bc d cap s = (code, w, n, d') ->
    (LZ4F_isError code = true ->
     code = LZ4F_error e /\ len i <= len s /\ len o <= cap) /\
    (LZ4F_isError code = false ->
     0 <= code /\ code <> 0 /\
     0 <= n <= len s /\ n < len i /\
     len w <= cap /\ w = firstn (length w) o /\
     Ref.reject_rest bc d' (skipn (Z.to_nat n) i) = Some (skipn (length w) o, e) /\
     (n < len s -> len w = cap /\ cap < len o)).
Proof.
  induction s as [| b rest IH]; intros d d' i o w cap code n e Hrej Hcap Hagree Hrun;
    rewrite ref_decompress_run_eq in Hrun; cbv zeta in Hrun;
    pose proof (len_nonneg (Ref.d_tmpOut d)) as Hp0;
    pose proof (len_nonneg i) as Hi0;
    (assert (Hipos : 0 < len i)
      by (destruct i; [discriminate Hrej | rewrite len_cons; pose proof (len_nonneg i); lia]));
    rewrite ref_reject_rest_tmpOut in Hrej;
    destruct (Ref.reject_rest bc (Ref.with_tmpOut d []) i) as [[o' e'] |] eqn:Hcore;
    try discriminate Hrej; cbn [option_map fst snd] in Hrej; injection Hrej as <- <-;
    pose proof (len_nonneg o') as Ho0;
    remember (Ref.d_tmpOut d) as p eqn:Hp;
    remember (Z.to_nat (Z.min cap (len p))) as k eqn:Hkdef;
    (assert (Hk : Z.of_nat k = Z.min cap (len p)) by (rewrite Hkdef; lia));
    clear Hkdef;
    (assert (Hout : length (firstn k p) = k) by (rewrite length_firstn; unfold len in *; lia));
    (assert (Hfirst : firstn k p = firstn (length (firstn k p)) (p ++ o'))
      by (rewrite Hout, firstn_app;
          replace (k - length p)%nat with 0%nat by (unfold len in *; lia);
          cbn [firstn]; now rewrite app_nil_r));
    pose proof (ref_input_hint_range (Ref.with_tmpOut d (skipn k p))) as Hhint;
    pose proof (ref_input_hint_ok (Ref.with_tmpOut d (skipn k p))) as Hhint_ok.
  - (* no input *)
    assert (Hres : (code, w, n, d')
                   = (Ref.input_hint (Ref.with_tmpOut d (skipn k p)), firstn k p, 0,
                      Ref.with_tmpOut d (skipn k p)))
      by (destruct (skipn k p); symmetry; exact Hrun).
    injection Hres as -> -> -> ->. change (len (@nil byte)) with 0.
    assert (Hlw : len (firstn k p) = Z.of_nat k) by (unfold len; lia).
    split; [intros Hbad; rewrite Hhint_ok in Hbad; discriminate Hbad |].
    intros _.
    split; [lia |]. split; [lia |]. split; [lia |]. split; [lia |].
    split; [lia |]. split; [assumption |].
    split; [| lia].
    cbn [Z.to_nat skipn]. rewrite ref_reject_rest_tmpOut.
    change (Ref.with_tmpOut (Ref.with_tmpOut d (skipn k p)) []) with (Ref.with_tmpOut d []).
    rewrite Hcore. cbn [option_map Ref.with_tmpOut Ref.d_tmpOut fst snd].
    rewrite Hout, skipn_app. replace (k - length p)%nat with 0%nat by (unfold len in *; lia).
    reflexivity.
  - pose proof (len_nonneg rest) as Hr0. rewrite len_cons.
    assert (Hlw : len (firstn k p) = Z.of_nat k) by (unfold len; lia).
    destruct (skipn k p) as [| x l] eqn:Hskip.
    2: { (* the destination is full *)
      assert (Hkp : (k < length p)%nat).
      { apply (f_equal (@length byte)) in Hskip. rewrite length_skipn in Hskip.
        cbn [length] in Hskip. lia. }
      injection Hrun as <- <- <- <-.
      split; [intros Hbad; rewrite Hhint_ok in Hbad; discriminate Hbad |].
      intros _.
      split; [lia |]. split; [lia |]. split; [lia |]. split; [lia |].
      split; [unfold len in *; lia |]. split; [assumption |].
      split.
      - cbn [Z.to_nat skipn]. rewrite ref_reject_rest_tmpOut.
        change (Ref.with_tmpOut (Ref.with_tmpOut d (x :: l)) []) with (Ref.with_tmpOut d []).
        rewrite Hcore. cbn [option_map Ref.with_tmpOut Ref.d_tmpOut fst snd].
        rewrite Hout, skipn_app, Hskip. replace (k - length p)%nat with 0%nat by lia.
        reflexivity.
      - intros _. rewrite len_app. unfold len in *. lia. }
    assert (Hkp : k = length p).
    { apply (f_equal (@length byte)) in Hskip. rewrite length_skipn in Hskip.
      cbn [length] in Hskip. unfold len in *. lia. }
    assert (Hall : firstn k p = p) by (rewrite Hkp; apply firstn_all).
    rewrite Hall in *.
    destruct i as [| b' rest_i]; [discriminate Hcore |].
    destruct (agree_cons_inv _ _ _ _ Hagree) as [<- Hagree'].
    cbn [Ref.reject_rest] in Hcore.
    change (Ref.with_tmpOut (Ref.with_tmpOut d []) []) with (Ref.with_tmpOut d []) in Hcore.
    rewrite len_cons in *. pose proof (len_nonneg rest_i) as Hri0.
    assert (Hplen : len p = Z.of_nat k) by (unfold len; lia).
    destruct (Ref.feed bc (Ref.with_tmpOut d []) b) as [e1 | | d2] eqn:Hfeed.
    + (* the decoder turns this byte down *)
      destruct rest_i; [| discriminate Hcore].
      cbn [Ref.with_tmpOut Ref.d_tmpOut] in Hcore. injection Hcore as <- <-.
      injection Hrun as <- <- <- <-. change (len (@nil byte)) with 0.
      rewrite app_nil_r.
      split.
      * intros _. split; [reflexivity |]. lia.
      * intros Hok. rewrite (ref_feed_error _ _ _ Hfeed) in Hok. discriminate Hok.
    + discriminate Hcore.
    + cbn [Ref.with_tmpOut Ref.d_tmpOut app] in Hcore.
      destruct (Ref.reject_rest bc d2 rest_i) as [[o2 e2] |] eqn:Hrej2; [| discriminate Hcore].
      cbn [option_map app fst snd] in Hcore. injection Hcore as <- <-.
      destruct (Ref.decompress_run bc d2 (cap - Z.min cap (len p)) rest)
        as [[[code2 w2] n2] d3] eqn:Hrec.
      remember (1 + n2) as m eqn:Hm in Hrun.
      injection Hrun as <- <- <- <-.
      destruct (IH d2 d3 rest_i o2 w2 (cap - Z.min cap (len p)) code2 n2 e2 Hrej2)
        as [Hbad Hgood]; [lia | assumption | assumption |].
      pose proof (len_nonneg w2) as Hw20. pose proof (len_nonneg o2) as Ho20.
      split.
      * intros Herr. destruct (Hbad Herr) as (Hcode & Hcover & Hfit).
        split; [assumption |]. rewrite len_app. lia.
      * intros Herr.
        destruct (Hgood Herr) as (Hcode0 & Hc & Hns & Hni & Hwcap & Hw & Hnext & Hfull).
        split; [assumption |]. split; [assumption |].
        split; [lia |]. split; [lia |].
        split; [rewrite len_app; lia |].
        split.
        { rewrite length_app, firstn_app.
          replace (length p + length w2 - length p)%nat with (length w2) by lia.
          rewrite firstn_all2 by lia. now rewrite <- Hw. }
        split.
        { replace (Z.to_nat m) with (S (Z.to_nat n2)) by lia.
          cbn [skipn]. rewrite Hnext. f_equal. f_equal.
          rewrite length_app, skipn_app.
          replace (length p + length w2 - length p)%nat with (length w2) by lia.
          rewrite (skipn_all2 p) by lia. reflexivity. }
        intros Hlt. destruct Hfull as [Ha Hb]; [lia |].
        rewrite !len_app. lia.
Qed.

Lemma ref_reject_spec : @RejectSpec (Ref.codec bc) (Ref.Rejecting bc).
Proof.
  split.
  - reflexivity.
  - intros d d' i o s w cap code n stable e Hrej Hcap Hagree Hrun.
    exact (ref_reject_step s d d' i o w cap code n e Hrej Hcap Hagree Hrun).
Qed.
End Reference_rejecter.

(* ================================================================= *)
(** ** The claims *)

Lemma len_concat_member {A : Type} (chunks : list (list A)) :
  Forall (fun c => len c <= len (concat chunks)) chunks.
Proof.
  induction chunks as [| c chunks IH]; [constructor |].
  cbn [concat]. rewrite len_app. constructor.
  - pose proof (len_nonneg (concat chunks)). lia.
  - eapply Forall_impl; [| exact IH]. cbn beta. intros x Hx.
    pose proof (len_nonneg c). lia.
Qed.

Section Claim_compression.
Variable bc : Ref.BlockCodec.

Lemma ref_frame_of_body (p : LZ4F_preferences_t) (b : list byte) :
  Ref.frame_of bc p b = Ref.frame_header (frameInfo p) ++ frame_body bc p b.
Proof.
  unfold Ref.frame_of, frame_body.
  destruct (Ref.feed_input bc _ [] b) as [out t]. reflexivity.
Qed.

(** Claim C1, as the code has it: against the reference codec, [compress]
    returns a frame whose 15-byte header declares the content size, and the
    incremental interface, whenever its calls succeed, returns a frame whose
    7-byte header declares none; after their headers the two outputs are the
    same bytes, for every split of the input into non-empty chunks.  The
    incremental calls succeed at least for the default and the 64KB block
    size class; the only failure is the destination-too-small error of the
    library. *)
Theorem compress_incremental_same_body (b : list byte) (chunks : list (list byte))
        (bs bm cs lvl : option Z) :
  valid_preferences bs bm cs lvl ->
  b <> [] -> len b < 2 ^ 56 ->
  concat chunks = b -> Forall (fun c => c <> []) chunks ->
  let one_shot := frameInfo (preferences_of bs bm cs lvl (len b) 0) in
  let incremental := frameInfo (preferences_of bs bm cs lvl 0 0) in
  exists body : list byte,
    fst (fst (@_lz4framed_compress (Ref.codec bc) b bs bm cs lvl tt))
    = Returns (Ref.frame_header one_shot ++ body) /\
    len (Ref.frame_header one_shot) = 15 /\
    len (Ref.frame_header incremental) = 7 /\
    (@compress_incremental (Ref.codec bc) chunks bs bm cs lvl
     = Returns (Ref.frame_header incremental ++ body) \/
     @compress_incremental (Ref.codec bc) chunks bs bm cs lvl
     = Raises (Lz4FramedError "ERROR_dstMaxSize_tooSmall" 11)) /\
    (arg_value LZ4F_default bs = LZ4F_default \/ arg_value LZ4F_default bs = LZ4F_max64KB ->
     @compress_incremental (Ref.codec bc) chunks bs bm cs lvl
     = Returns (Ref.frame_header incremental ++ body)).
Proof.
  intros Hvalid Hne Hlen Hcat Hchunks one_shot incremental.
  pose proof (len_nonempty b Hne) as Hpos.
  assert (Hall : Forall (fun c => c <> [] /\ len c < 2 ^ 56) chunks).
  { pose proof (len_concat_member chunks) as Hmem. rewrite Hcat in Hmem.
    rewrite Forall_forall in *. intros c Hc. split; [now apply Hchunks |].
    specialize (Hmem c Hc). cbn beta in Hmem. lia. }
  exists (frame_body bc (preferences_of bs bm cs lvl 0 0) b).
  split; [| split; [| split; [| split]]].
  - rewrite (ref_compress_returns bc b bs bm cs lvl Hvalid Hne Hlen).
    rewrite ref_frame_of_body. reflexivity.
  - unfold one_shot. rewrite ref_frame_header_len. cbn [preferences_of frameInfo contentSize].
    replace (0 <? len b) with true by (symmetry; apply Z.ltb_lt; lia). reflexivity.
  - unfold incremental. rewrite ref_frame_header_len. reflexivity.
  - rewrite (ref_compress_incremental_cases bc chunks bs bm cs lvl Hvalid Hall).
    rewrite Hcat, ref_frame_of_body.
    match goal with |- context [if ?c then _ else _] => destruct c end;
      [left | right]; reflexivity.
  - intros Hclass.
    rewrite (ref_compress_incremental_cases bc chunks bs bm cs lvl Hvalid Hall).
    rewrite (ref_default_class_fits bc bs bm cs lvl chunks Hvalid Hclass Hall).
    rewrite Hcat, ref_frame_of_body. reflexivity.
Qed.
End Claim_compression.

Lemma default_preferences_valid : valid_preferences None None None None.
Proof.
  assert (Hnone : arg_in_range None) by (intros z Hz; discriminate Hz).
  unfold valid_preferences. cbn [arg_value].
  split; [exact Hnone |]. split; [exact Hnone |]. split; [exact Hnone |].
  split; [exact Hnone |]. split; [reflexivity | lia].
Qed.

Lemma compress_incremental_same_body_witness :
  exists body : list byte,
    fst (fst (@_lz4framed_compress (Ref.codec Ref.rle) abc None None None None tt))
    = Returns (Ref.frame_header (frameInfo (default_preferences 3)) ++ body) /\
    len (Ref.frame_header (frameInfo (default_preferences 3))) = 15 /\
    len (Ref.frame_header (frameInfo (default_preferences 0))) = 7 /\
    (@compress_incremental (Ref.codec Ref.rle) [[x61]; [x62; x63]] None None None None
     = Returns (Ref.frame_header (frameInfo (default_preferences 0)) ++ body) \/
     @compress_incremental (Ref.codec Ref.rle) [[x61]; [x62; x63]] None None None None
     = Raises (Lz4FramedError "ERROR_dstMaxSize_tooSmall" 11)) /\
    (arg_value LZ4F_default None = LZ4F_default \/ arg_value LZ4F_default None = LZ4F_max64KB ->
     @compress_incremental (Ref.codec Ref.rle) [[x61]; [x62; x63]] None None None None
     = Returns (Ref.frame_header (frameInfo (default_preferences 0)) ++ body)).
Proof.
  apply (compress_incremental_same_body Ref.rle abc [[x61]; [x62; x63]] None None None None).
  - exact default_preferences_valid.
  - discriminate.
  - reflexivity.
  - reflexivity.
  - repeat constructor; discriminate.
Defined.

(** Claim C1 fails as stated: the one-shot frame of [abc] and the frame the
    incremental interface produces for the same input and preferences are
    different byte strings. *)
Lemma compress_incremental_differs :
  fst (fst (@_lz4framed_compress (Ref.codec Ref.rle) abc None None None None tt))
  = Returns [x04; x22; x4d; x18; x48; x40; x03; x00; x00; x00; x00; x00; x00; x00; x0f;
             x03; x00; x00; x80; x61; x62; x63; x00; x00; x00; x00] /\
  @compress_incremental (Ref.codec Ref.rle) [abc] None None None None
  = Returns [x04; x22; x4d; x18; x40; x40; xc0;
             x03; x00; x00; x80; x61; x62; x63; x00; x00; x00; x00] /\
  @compress_incremental (Ref.codec Ref.rle) [abc] None None None None
  <> fst (fst (@_lz4framed_compress (Ref.codec Ref.rle) abc None None None None tt)).
Proof.
  split; [vm_compute; reflexivity |]. split; [vm_compute; reflexivity |].
  vm_compute. discriminate.
Qed.

Lemma doubling_chain_tail (L n : Z) (caps : list Z) :
  doubling_chain L n caps -> L < n ->
  exists caps', caps = 2 * L :: caps' /\ doubling_chain (2 * L) n caps'.
Proof.
  intros H Hlt. destruct H as [L n Hfit | L n caps _ Hchain]; [lia | now exists caps].
Qed.

Section Claim_decompress.
Context {L : LZ4F}.
Variable Decoding : dctx -> list byte -> list byte -> Prop.
Hypothesis HD : DecoderSpec Decoding.

(** Claim C2: for a frame whose header declares no content length and a
    positive [buffer_size], [decompress] allocates [max(buffer_size, input
    left after the header)] bytes, then doubles the capacity, one resize per
    doubling, until the content fits, and returns exactly the content of the
    frame (shrinking the buffer to its length at the end), whatever the
    initial capacity was. *)
Theorem decompress_grows_by_doubling (rt : PyRuntime) (frame o : list byte)
        (info : LZ4F_frameInfo_t) (h buffer_size : Z) (fuel : nat) :
  frame_decodes Decoding frame info h o ->
  contentSize info = 0 ->
  frame <> [] ->
  0 < buffer_size <= INT_MAX ->
  len frame < 2 ^ 62 -> len o < 2 ^ 62 ->
  (length o < fuel)%nat ->
  exists caps : list Z,
    doubling_chain (Z.max buffer_size (len frame - h)) (len o) caps /\
    _lz4framed_decompress rt fuel frame (Some buffer_size)
    = (Returns o,
       EvAlloc (Z.max buffer_size (len frame - h)) :: map EvResize caps ++ [EvResize (len o)]).
Proof.
  intros Hframe Hcs Hne Hbs Hflen Holen Hfuel.
  destruct (decompress_spec Decoding HD rt frame o info h buffer_size Hframe Hne Hbs Hflen Holen)
    with (fuel := fuel) as (caps & Hchain & Hrun); [lia | | exact Hfuel |].
  - left. rewrite Hcs. reflexivity.
  - unfold initial_capacity in Hchain, Hrun. rewrite Hcs in Hchain, Hrun.
    cbn [Z.ltb Z.compare] in Hchain, Hrun.
    rewrite growth_events_undeclared in Hrun.
    exists caps. split; assumption.
Qed.

(** Claim C3: for a frame that declares a nonzero content length equal to
    the size of its content, [decompress] allocates the output once, of
    exactly that length, and no resize happens before the final one, which
    sets the length the buffer already has. *)
Theorem decompress_declared_size_no_realloc (rt : PyRuntime) (frame o : list byte)
        (info : LZ4F_frameInfo_t) (h buffer_size : Z) (fuel : nat) :
  frame_decodes Decoding frame info h o ->
  contentSize info = len o -> 0 < len o ->
  frame <> [] ->
  0 < buffer_size <= INT_MAX ->
  len frame < 2 ^ 62 -> len o < 2 ^ 62 ->
  (length o < fuel)%nat ->
  _lz4framed_decompress rt fuel frame (Some buffer_size)
  = (Returns o, [EvAlloc (contentSize info); EvResize (contentSize info)]).
Proof.
  intros Hframe Hcs Hpos Hne Hbs Hflen Holen Hfuel.
  assert (Hcap : initial_capacity info buffer_size (len frame - h) = len o).
  { unfold initial_capacity. rewrite Hcs.
    replace (0 <? len o) with true by (symmetry; apply Z.ltb_lt; lia). reflexivity. }
  destruct (decompress_spec Decoding HD rt frame o info h buffer_size Hframe Hne Hbs Hflen Holen)
    with (fuel := fuel) as (caps & Hchain & Hrun); [lia | | exact Hfuel |].
  - right. rewrite Hcap. lia.
  - rewrite Hcap in Hchain, Hrun.
    rewrite (doubling_chain_exact _ _ _ Hchain) in Hrun by lia.
    rewrite Hrun, Hcs. reflexivity.
Qed.

End Claim_decompress.

Section Claim_mismatch.
Context {L : LZ4F}.
Variable Rejecting : dctx -> list byte -> list byte -> LZ4F_errorCodes -> Prop.
Hypothesis HR : RejectSpec Rejecting.

End Claim_mismatch.

(** The header of a frame of the reference codec parses on a fresh context;
    what follows it decodes to the content. *)
Lemma abc_frame_decodes :
  @frame_decodes (Ref.codec Ref.rle) (Ref.Decoding Ref.rle) abc_frame
                 (frameInfo (preferences_of (Some 4) None None None 3 0)) 15 abc.
Proof.
  exists 4, (snd (Ref.getFrameInfo Ref.rle Ref.new_decompression_context abc_frame)),
    (skipn 15 abc_frame), [].
  split; [vm_compute; reflexivity |]. split; [vm_compute; reflexivity |].
  split; [discriminate |]. split; [vm_compute; split; discriminate |].
  split; [vm_compute; reflexivity |]. vm_compute. reflexivity.
Qed.

Lemma a100_stream_decodes :
  @frame_decodes (Ref.codec Ref.rle) (Ref.Decoding Ref.rle) a100_stream
                 (frameInfo (preferences_of (Some 4) None None None 0 0)) 7 a100.
Proof.
  exists 4, (snd (Ref.getFrameInfo Ref.rle Ref.new_decompression_context a100_stream)),
    (skipn 7 a100_stream), [].
  split; [vm_compute; reflexivity |]. split; [vm_compute; reflexivity |].
  split; [discriminate |]. split; [vm_compute; split; discriminate |].
  split; [vm_compute; reflexivity |]. vm_compute. reflexivity.
Qed.

(** The reference decoder takes the five bytes of a frame that declares two
    and turns the frame down at its end mark. *)
Lemma mismatched_frame_rejected :
  @frame_rejected (Ref.codec Ref.rle) (Ref.Rejecting Ref.rle) mismatched_frame
                  short_declared 15 hello LZ4F_ERROR_frameSize_wrong.
Proof.
  exists 4, (snd (Ref.getFrameInfo Ref.rle Ref.new_decompression_context mismatched_frame)),
    (skipn 15 mismatched_frame), [].
  split; [vm_compute; reflexivity |]. split; [vm_compute; reflexivity |].
  split; [discriminate |]. split; [vm_compute; split; discriminate |].
  split; [vm_compute; reflexivity |]. vm_compute. reflexivity.
Qed.

Lemma decompress_grows_by_doubling_witness :
  exists caps : list Z,
    doubling_chain (Z.max 1 (len a100_stream - 7)) (len a100) caps /\
    @_lz4framed_decompress (Ref.codec Ref.rle) no_warning_errors 101 a100_stream (Some 1)
    = (Returns a100,
       EvAlloc (Z.max 1 (len a100_stream - 7)) :: map EvResize caps ++ [EvResize (len a100)]).
Proof.
  apply (@decompress_grows_by_doubling (Ref.codec Ref.rle) (Ref.Decoding Ref.rle) (ref_decoder_spec Ref.rle)
           no_warning_errors a100_stream a100
           (frameInfo (preferences_of (Some 4) None None None 0 0)) 7 1 101).
  - exact a100_stream_decodes.
  - reflexivity.
  - discriminate.
  - unfold INT_MAX. lia.
  - vm_compute. reflexivity.
  - vm_compute. reflexivity.
  - vm_compute. lia.
Defined.

Lemma decompress_declared_size_no_realloc_witness :
  @_lz4framed_decompress (Ref.codec Ref.rle) no_warning_errors 4 abc_frame (Some 1024)
  = (Returns abc, [EvAlloc 3; EvResize 3]).
Proof.
  apply (@decompress_declared_size_no_realloc (Ref.codec Ref.rle) (Ref.Decoding Ref.rle) (ref_decoder_spec Ref.rle)
           no_warning_errors abc_frame abc
           (frameInfo (preferences_of (Some 4) None None None 3 0)) 15 1024 4).
  - exact abc_frame_decodes.
  - reflexivity.
  - vm_compute. reflexivity.
  - discriminate.
  - unfold INT_MAX. lia.
  - vm_compute. reflexivity.
  - vm_compute. reflexivity.
  - vm_compute. lia.
Defined.



Section Claim_update.
Context {L : LZ4F}.
Variable Decoding : dctx -> list byte -> list byte -> Prop.
Hypothesis HD : DecoderSpec Decoding.

(** Claim C4: every successful call of [decompress_update] returns a list
    of chunks of exactly [chunk_len] bytes, then at most one shorter,
    non-empty chunk, then the input hint.  On a context that is decoding a
    frame, with input that agrees with the rest [i] of that frame, the call
    succeeds; the chunks are the content decoded by the call, in order; the
    hint is never negative, and it is 0 exactly when the input reaches the
    end of the frame, in which case the chunks are all of the remaining
    content. *)
Theorem decompress_update_chunks (c : Z) (fuel : nat) (d : dctx) (i o b : list byte) :
  ApiBounds ->
  0 < c <= INT_MAX ->
  Decoding d i o ->
  agree b i ->
  b <> [] -> len b < 2 ^ 62 ->
  (S (length o) < fuel)%nat ->
  (forall (fuel0 : nat) (cap : capsule) (b0 : list byte) (d0 d1 : dctx)
          (r0 : list PyObject) (ev0 : list event),
      _lz4framed_decompress_update fuel0 cap b0 (Some c) d0 = (Returns r0, d1, ev0) ->
      exists (full last : list (list byte)) (hint : Z), chunked_result c full last hint r0) /\
  exists (r : list PyObject) (d' : dctx) (ev : list event)
         (full last : list (list byte)) (hint : Z),
    _lz4framed_decompress_update fuel (Capsule DECOMPRESSION_CAPSULE_NAME) b (Some c) d
    = (Returns r, d', ev) /\
    chunked_result c full last hint r /\
    concat (full ++ last) = firstn (length (concat (full ++ last))) o /\
    0 <= hint /\
    (hint = 0 <-> exists t, b = i ++ t) /\
    (hint = 0 -> concat (full ++ last) = o).
Proof.
  intros HB Hc Hdec Hagree Hne Hblen Hfuel.
  split.
  { intros fuel0 cap b0 d0 d1 r0 ev0 Hcall0.
    exact (update_returns_chunks fuel0 cap b0 c d0 d1 r0 ev0 HB Hc Hcall0). }
  destruct (update_spec Decoding HD c fuel d i o b Hc Hfuel Hdec Hagree Hne Hblen)
    as (v' & d' & ev & ev' & full & last & _ & Hcall & Hfull & Hlast & Hpre & Hh0 & Hend & Hmore).
  assert (Hiff : du_input_size_hint v' = 0 <-> exists t, b = i ++ t).
  { split.
    - intros Hz. destruct Hagree as [t [Ht | Ht]]; [now exists t |].
      destruct t as [| x t'].
      + exists []. rewrite app_nil_r in Ht |- *. now symmetry.
      + destruct (Hmore (x :: t')) as [Hnz _]; [discriminate | exact Ht |]. contradiction.
    - intros [t Ht]. now destruct (Hend t Ht). }
  exists (map PyBytes (full ++ last) ++ [PyLong (du_input_size_hint v')]), d', ev',
    full, last, (du_input_size_hint v').
  split; [exact Hcall |]. split; [repeat split; assumption |].
  split; [exact Hpre |]. split; [exact Hh0 |]. split; [exact Hiff |].
  intros Hz. apply Hiff in Hz. destruct Hz as [t Ht]. now destruct (Hend t Ht).
Qed.

(** Claim C10: when the input of [decompress_update] holds the rest [i] of
    the current frame followed by further bytes [t], the decoding loop ends
    with the hint at 0 and with exactly [t] left in its input window; the
    list returned holds the content of the frame in chunks and the hint 0,
    and nothing that tells how much of the input was read. *)
Theorem decompress_update_ignores_trailing (c : Z) (fuel : nat) (d : dctx)
        (i o t : list byte) :
  0 < c <= INT_MAX ->
  Decoding d i o ->
  t <> [] ->
  len (i ++ t) < 2 ^ 62 ->
  (S (length o) < fuel)%nat ->
  exists (v' : update_vars) (d' : dctx) (ev ev' : list event) (full last : list (list byte)),
    decompress_update_loop fuel c (update_init (i ++ t) c) d = (Returns v', d', ev) /\
    du_input_size_hint v' = 0 /\
    du_input v' = t /\
    _lz4framed_decompress_update fuel (Capsule DECOMPRESSION_CAPSULE_NAME) (i ++ t) (Some c) d
    = (Returns (map PyBytes (full ++ last) ++ [PyLong 0]), d', ev') /\
    chunked_result c full last 0 (map PyBytes (full ++ last) ++ [PyLong 0]) /\
    concat (full ++ last) = o.
Proof.
  intros Hc Hdec Ht Hlen Hfuel.
  assert (Hne : i ++ t <> []) by (destruct i; [exact Ht | discriminate]).
  assert (Hagree : agree (i ++ t) i) by (exists t; now left).
  destruct (update_spec Decoding HD c fuel d i o (i ++ t) Hc Hfuel Hdec Hagree Hne Hlen)
    as (v' & d' & ev & ev' & full & last & Hloop & Hcall & Hfull & Hlast & _ & _ & Hend & _).
  destruct (Hend t eq_refl) as (Hz & Hcat & Hin).
  exists v', d', ev, ev', full, last.
  rewrite Hz in Hcall.
  repeat (split; [assumption |]). split; [| exact Hcat].
  repeat split; assumption.
Qed.
End Claim_update.

Section Claim_chunk_len.
Context {L : LZ4F}.

Lemma update_accepts_negative (fuel : nat) (d : dctx) (b : list byte) (c : Z) :
  b <> [] -> INT_MIN <= c < 0 ->
  exists (r : outcome (list PyObject)) (d' : dctx) (ev : list event),
    _lz4framed_decompress_update fuel (Capsule DECOMPRESSION_CAPSULE_NAME) b (Some c) d
    = (r, d', EvAlloc (2 ^ 32 + c) :: ev).
Proof.
  intros Hne Hc. pose proof (len_nonempty b Hne) as Hpos.
  rewrite update_unfold by (intros c' [= ->]; unfold INT_MIN, INT_MAX in *; lia).
  cbv zeta. unfold chunk_len_of. rewrite (store_int_in_size_t_negative c Hc).
  change (PyCapsule_IsValid (Capsule DECOMPRESSION_CAPSULE_NAME) DECOMPRESSION_CAPSULE_NAME)
    with true.
  cbn [negb].
  replace (len b <=? 0) with false by (symmetry; apply Z.leb_gt; lia).
  replace (2 ^ 32 + c <=? 0) with false
    by (symmetry; apply Z.leb_gt; unfold INT_MIN in Hc; lia).
  destruct (decompress_update_loop fuel (2 ^ 32 + c) (update_init b (2 ^ 32 + c)) d)
    as [[[v | x |] d'] ev].
  - destruct (du_chunk_remaining v <? 2 ^ 32 + c); repeat eexists.
  - repeat eexists.
  - repeat eexists.
Qed.
End Claim_chunk_len.

(** Claim C5: the block size of each class, as [get_block_size] returns it;
    the default class stands for the 64KB class. *)
Theorem get_block_size_values :
  _lz4framed_get_block_size LZ4F_max64KB tt = (Returns (PyLong 65536), tt, []) /\
  _lz4framed_get_block_size LZ4F_max256KB tt = (Returns (PyLong 262144), tt, []) /\
  _lz4framed_get_block_size LZ4F_max1MB tt = (Returns (PyLong 1048576), tt, []) /\
  _lz4framed_get_block_size LZ4F_max4MB tt = (Returns (PyLong 4194304), tt, []) /\
  _lz4framed_get_block_size LZ4F_default tt = _lz4framed_get_block_size LZ4F_max64KB tt.
Proof. repeat split; reflexivity. Qed.

(** Claim C8, at the inputs where the code departs from it: a [chunk_len]
    of 0 is refused with [ValueError] before anything happens, as the claim
    says; a negative [chunk_len] is not.  Stored in the [size_t] it reads as
    [2^32 + chunk_len], the check passes, a chunk of that size is allocated
    and the input is fed to the decoder: with -1 and one byte of input the
    reference decoder takes the byte and the call returns the hint. *)
Theorem decompress_update_negative_chunk_len :
  (forall (L : LZ4F) (fuel : nat) (d : dctx) (b : list byte),
      b <> [] ->
      _lz4framed_decompress_update fuel (Capsule DECOMPRESSION_CAPSULE_NAME) b (Some 0) d
      = (Raises (ValueError "chunk_len invalid"), d, [])) /\
  (forall (L : LZ4F) (fuel : nat) (d : dctx) (b : list byte) (c : Z),
      b <> [] -> INT_MIN <= c < 0 ->
      exists (r : outcome (list PyObject)) (d' : dctx) (ev : list event),
        _lz4framed_decompress_update fuel (Capsule DECOMPRESSION_CAPSULE_NAME) b (Some c) d
        = (r, d', EvAlloc (2 ^ 32 + c) :: ev)) /\
  @_lz4framed_decompress_update (Ref.codec Ref.rle) 2 (Capsule DECOMPRESSION_CAPSULE_NAME)
                                [x04] (Some (-1)) Ref.new_decompression_context
  = (Returns [PyLong 10],
     Ref.with_stage Ref.new_decompression_context (Ref.dstage_getHeader [x04]),
     [EvAlloc 4294967295]).
Proof.
  split; [| split].
  - intros L fuel d b Hne. now apply update_rejects_zero.
  - intros L fuel d b c Hne Hc. now apply update_accepts_negative.
  - vm_compute. reflexivity.
Qed.

Section Claim_header.
Variable bc : Ref.BlockCodec.

(** Claim C7: [decompress] on a non-empty proper prefix of the header of a
    frame fails, against the reference decoder, with the error of the
    header-incomplete code, before any output buffer exists; every other
    code of the library gives a different outcome. *)
Theorem decompress_truncated_header (rt : PyRuntime) (fuel : nat) (frame : list byte)
        (hs : Z) (k : nat) (buffer_size : Z) :
  Ref.LZ4F_headerSize frame = inr hs ->
  (0 < k)%nat -> Z.of_nat k < hs ->
  0 < buffer_size <= INT_MAX ->
  @_lz4framed_decompress (Ref.codec bc) rt fuel (firstn k frame) (Some buffer_size)
  = (Raises (Lz4FramedError "ERROR_frameHeader_incomplete"
                            (error_number LZ4F_ERROR_frameHeader_incomplete)), []) /\
  forall e : LZ4F_errorCodes,
    e <> LZ4F_ERROR_frameHeader_incomplete ->
    @BAIL_ON_LZ4_ERROR unit (LZ4F_error e) tt
    <> @BAIL_ON_LZ4_ERROR unit (LZ4F_error LZ4F_ERROR_frameHeader_incomplete) tt.
Proof.
  intros Hhs Hk0 Hk Hbs. split.
  - assert (Hne : firstn k frame <> []).
    { destruct frame as [| x frame']; [discriminate Hhs |].
      destruct k as [| k']; [lia | discriminate]. }
    rewrite (@decompress_header_error (Ref.codec bc) rt fuel (firstn k frame) buffer_size
               (LZ4F_error LZ4F_ERROR_frameHeader_incomplete) 0 Ref.default_frameInfo
               Ref.new_decompression_context Hne Hbs).
    + reflexivity.
    + reflexivity.
    + exact (ref_truncated_header bc frame hs k Hhs Hk).
    + reflexivity.
  - intros e He. destruct e; try (vm_compute; discriminate). now contradiction He.
Qed.

End Claim_header.

(** Claim C9: [get_frame_info] hands the header parser an empty source.
    Against the reference decoder it returns the five entries exactly when
    the context has the header of its current frame, fails with the
    header-incomplete error otherwise, and leaves the context as it was in
    both cases: after [decompress_update] was given six bytes of the header
    of [abc_frame] it fails, after the fifteen bytes of the header it
    succeeds. *)
Theorem get_frame_info_reads_nothing :
  (forall (L : LZ4F) (d : dctx),
      _lz4framed_get_frame_info (Capsule DECOMPRESSION_CAPSULE_NAME) d
      = match LZ4F_getFrameInfo d [] with
        | (code, info, _, d') =>
          if LZ4F_isError code then
            (Raises (Lz4FramedError (LZ4F_getErrorName code) (size_neg code)), d', [])
          else
            (Returns [("input_hint"%string, PyLong code);
                      ("length"%string, PyLong (contentSize info));
                      ("block_size_id"%string, PyLong (blockSizeID info));
                      ("block_mode_linked"%string,
                       PyBool match blockMode info with
                              | LZ4F_blockLinked => true
                              | LZ4F_blockIndependent => false
                              end);
                      ("checksum"%string,
                       PyBool match contentChecksumFlag info with
                              | LZ4F_contentChecksumEnabled => true
                              | LZ4F_noContentChecksum => false
                              end)], d', [])
        end) /\
  (forall (bc : Ref.BlockCodec) (d : Ref.decompression_context),
      @_lz4framed_get_frame_info (Ref.codec bc) (Capsule DECOMPRESSION_CAPSULE_NAME) d
      = if Ref.header_parsed d then
          (Returns [("input_hint"%string, PyLong (Ref.input_hint d));
                    ("length"%string, PyLong (contentSize (Ref.d_frameInfo d)));
                    ("block_size_id"%string, PyLong (blockSizeID (Ref.d_frameInfo d)));
                    ("block_mode_linked"%string,
                     PyBool match blockMode (Ref.d_frameInfo d) with
                            | LZ4F_blockLinked => true
                            | LZ4F_blockIndependent => false
                            end);
                    ("checksum"%string,
                     PyBool match contentChecksumFlag (Ref.d_frameInfo d) with
                            | LZ4F_contentChecksumEnabled => true
                            | LZ4F_noContentChecksum => false
                            end)], d, [])
        else
          (Raises (Lz4FramedError "ERROR_frameHeader_incomplete" 12), d, [])) /\
  @_lz4framed_get_frame_info (Ref.codec Ref.rle) (Capsule DECOMPRESSION_CAPSULE_NAME)
                             (context_after (firstn 6 abc_frame))
  = (Raises (Lz4FramedError "ERROR_frameHeader_incomplete" 12),
     context_after (firstn 6 abc_frame), []) /\
  @_lz4framed_get_frame_info (Ref.codec Ref.rle) (Capsule DECOMPRESSION_CAPSULE_NAME)
                             (context_after (firstn 15 abc_frame))
  = (Returns [("input_hint"%string, PyLong 4); ("length"%string, PyLong 3);
              ("block_size_id"%string, PyLong 4); ("block_mode_linked"%string, PyBool true);
              ("checksum"%string, PyBool false)],
     context_after (firstn 15 abc_frame), []).
Proof.
  split; [| split; [| split]].
  - intros L d. apply get_frame_info_calls_parser.
  - intros bc d. rewrite (@get_frame_info_calls_parser (Ref.codec bc) d).
    cbn [LZ4F_getFrameInfo Ref.codec]. rewrite ref_get_frame_info_nil.
    destruct (Ref.header_parsed d).
    + rewrite (ref_input_hint_ok d). reflexivity.
    + reflexivity.
  - vm_compute. reflexivity.
  - vm_compute. reflexivity.
Qed.

(** A call that returns the hint alone: the input ends with the header. *)
Lemma decompress_update_hint_only :
  fst (@_lz4framed_decompress_update (Ref.codec Ref.rle) 102 (Capsule DECOMPRESSION_CAPSULE_NAME)
                                     (firstn 7 a100_stream) (Some 30)
                                     Ref.new_decompression_context)
  = (Returns [PyLong 4],
     {| Ref.d_stage := Ref.dstage_getCBlockSize [];
        Ref.d_frameInfo := frameInfo (preferences_of (Some 4) None None None 0 0);
        Ref.d_content := []; Ref.d_tmpOut := [] |}).
Proof. vm_compute. reflexivity. Qed.

Lemma decompress_update_chunks_witness :
  ((forall (fuel0 : nat) (cap : capsule) (b0 : list byte)
           (d0 d1 : Ref.decompression_context) (r0 : list PyObject) (ev0 : list event),
       @_lz4framed_decompress_update (Ref.codec Ref.rle) fuel0 cap b0 (Some 30) d0
       = (Returns r0, d1, ev0) ->
       exists (full last : list (list byte)) (hint : Z), chunked_result 30 full last hint r0) /\
   exists (r : list PyObject) (d' : Ref.decompression_context) (ev : list event)
          (full last : list (list byte)) (hint : Z),
      @_lz4framed_decompress_update (Ref.codec Ref.rle) 102 (Capsule DECOMPRESSION_CAPSULE_NAME)
                                    a100_stream (Some 30) Ref.new_decompression_context
      = (Returns r, d', ev) /\
      chunked_result 30 full last hint r /\
      concat (full ++ last) = firstn (length (concat (full ++ last))) a100 /\
      0 <= hint /\
      (hint = 0 <-> exists t, a100_stream = a100_stream ++ t) /\
      (hint = 0 -> concat (full ++ last) = a100)) /\
  exists (r : list PyObject) (d' : Ref.decompression_context) (ev : list event)
         (full last : list (list byte)) (hint : Z),
    @_lz4framed_decompress_update (Ref.codec Ref.rle) 102 (Capsule DECOMPRESSION_CAPSULE_NAME)
                                  (firstn 7 a100_stream) (Some 30) Ref.new_decompression_context
    = (Returns r, d', ev) /\
    chunked_result 30 full last hint r /\
    concat (full ++ last) = firstn (length (concat (full ++ last))) a100 /\
    0 <= hint /\
    (hint = 0 <-> exists t, firstn 7 a100_stream = a100_stream ++ t) /\
    (hint = 0 -> concat (full ++ last) = a100).
Proof.
  split.
  - apply (@decompress_update_chunks (Ref.codec Ref.rle) (Ref.Decoding Ref.rle)
             (ref_decoder_spec Ref.rle) 30 102 Ref.new_decompression_context
             a100_stream a100 a100_stream).
    + exact (ref_api_bounds Ref.rle).
    + unfold INT_MAX. lia.
    + vm_compute. reflexivity.
    + exists []. left. now rewrite app_nil_r.
    + discriminate.
    + vm_compute. reflexivity.
    + vm_compute. lia.
  - apply (@decompress_update_chunks (Ref.codec Ref.rle) (Ref.Decoding Ref.rle)
             (ref_decoder_spec Ref.rle) 30 102 Ref.new_decompression_context
             a100_stream a100 (firstn 7 a100_stream)).
    + exact (ref_api_bounds Ref.rle).
    + unfold INT_MAX. lia.
    + vm_compute. reflexivity.
    + exists (skipn 7 a100_stream). right. now rewrite firstn_skipn.
    + discriminate.
    + vm_compute. reflexivity.
    + vm_compute. lia.
Defined.

Lemma decompress_update_ignores_trailing_witness :
  exists (v' : @update_vars) (d' : Ref.decompression_context) (ev ev' : list event)
         (full last : list (list byte)),
    @decompress_update_loop (Ref.codec Ref.rle) 102 30 (update_init (a100_stream ++ abc_frame) 30)
                            Ref.new_decompression_context
    = (Returns v', d', ev) /\
    du_input_size_hint v' = 0 /\
    du_input v' = abc_frame /\
    @_lz4framed_decompress_update (Ref.codec Ref.rle) 102 (Capsule DECOMPRESSION_CAPSULE_NAME)
                                  (a100_stream ++ abc_frame) (Some 30)
                                  Ref.new_decompression_context
    = (Returns (map PyBytes (full ++ last) ++ [PyLong 0]), d', ev') /\
    chunked_result 30 full last 0 (map PyBytes (full ++ last) ++ [PyLong 0]) /\
    concat (full ++ last) = a100.
Proof.
  apply (@decompress_update_ignores_trailing (Ref.codec Ref.rle) (Ref.Decoding Ref.rle)
           (ref_decoder_spec Ref.rle) 30 102 Ref.new_decompression_context
           a100_stream a100 abc_frame).
  - unfold INT_MAX. lia.
  - vm_compute. reflexivity.
  - discriminate.
  - vm_compute. reflexivity.
  - vm_compute. lia.
Defined.

Lemma decompress_truncated_header_witness :
  @_lz4framed_decompress (Ref.codec Ref.rle) no_warning_errors 4 (firstn 9 abc_frame) (Some 1024)
  = (Raises (Lz4FramedError "ERROR_frameHeader_incomplete"
                            (error_number LZ4F_ERROR_frameHeader_incomplete)), []) /\
  forall e : LZ4F_errorCodes,
    e <> LZ4F_ERROR_frameHeader_incomplete ->
    @BAIL_ON_LZ4_ERROR unit (LZ4F_error e) tt
    <> @BAIL_ON_LZ4_ERROR unit (LZ4F_error LZ4F_ERROR_frameHeader_incomplete) tt.
Proof.
  apply (decompress_truncated_header Ref.rle no_warning_errors 4 abc_frame 15 9 1024).
  - vm_compute. reflexivity.
  - lia.
  - lia.
  - unfold INT_MAX. lia.
Defined.

(* ================================================================= *)
(** * Further properties of the module *)

(** ** [decompress]: the decoding loop *)

Lemma doubling_chain_doubled (L n : Z) (caps : list Z) :
  doubling_chain L n caps ->
  0 < L ->
  caps = doubled L (length caps) /\
  n <= L * 2 ^ Z.of_nat (length caps) /\
  (caps <> [] -> L * 2 ^ Z.of_nat (length caps) < 2 * n).
Proof.
  induction 1 as [L n Hfit | L n caps Hlt Hchain IH]; intros HL.
  - cbn. split; [reflexivity |]. split; [lia | congruence].
  - destruct IH as (Hcaps & Hfits & Hmin); [lia |].
    assert (Hpow : forall j : nat, 2 * L * 2 ^ Z.of_nat j = L * 2 ^ Z.of_nat (S j)).
    { intros j. rewrite Nat2Z.inj_succ, Z.pow_succ_r by lia. ring. }
    cbn [length]. split; [| split].
    + unfold doubled. cbn [seq map]. f_equal; [change (Z.of_nat 1) with 1; rewrite Z.pow_1_r; lia |].
      rewrite Hcaps at 1. unfold doubled.
      rewrite <- (seq_shift (length caps) 1), map_map.
      apply map_ext. intros j. apply Hpow.
    + rewrite <- Hpow. exact Hfits.
    + intros _. rewrite <- Hpow. destruct caps as [| c caps'].
      * change (Z.of_nat (length (@nil Z))) with 0. rewrite Z.pow_0_r. lia.
      * apply Hmin. discriminate.
Qed.

Section Extra_decompress.
Context {L : LZ4F}.
Variable Decoding : dctx -> list byte -> list byte -> Prop.
Hypothesis HD : DecoderSpec Decoding.

(** The loop on an input that ends before the frame does: the hint never
    reaches 0 and nothing ends the loop. *)
Lemma decompress_loop_starved (rt : PyRuntime) (info : LZ4F_frameInfo_t) (stable : bool) :
  forall (fuel : nat) (v : decompress_vars) (d : dctx) (i t o : list byte) (W : Z),
    (0 <? contentSize info) && warnings_as_errors rt = false
    \/ W + len o <= dv_output_len v ->
    Decoding d i o ->
    i = dv_input v ++ t -> t <> [] ->
    dv_input_size_hint v <> 0 ->
    dv_output_remaining v = dv_output_len v - W ->
    0 <= W -> 0 <= dv_output_remaining v ->
    dv_output_len v < 2 ^ 63 ->
    W + len o < 2 ^ 62 ->
    len (dv_input v) < 2 ^ 63 ->
    exists (d' : dctx) (ev : list event),
      while_loop fuel (fun v => negb (dv_input_size_hint v =? 0))
                 (decompress_body rt info stable) v d
      = (OutOfFuel, d', ev).
Proof.
  induction fuel as [| fuel IH];
    intros v d i t o W Hwarn Hdec Hin Ht Hhint Hrem HW Hrem0 HL HT Hlen.
  { cbn. eexists. eexists. reflexivity. }
  rewrite while_loop_unfold.
  replace (negb (dv_input_size_hint v =? 0)) with true
    by (symmetry; apply negb_true_iff, Z.eqb_neq, Hhint).
  destruct (LZ4F_decompress d (dv_output_remaining v) (dv_input v) stable)
    as [[[code w] n] d'] eqn:Hcall.
  pose proof (len_nonneg o) as Ho0. pose proof (len_nonneg w) as Hw0.
  pose proof (len_nonneg (dv_input v)) as Hs0. pose proof (len_nonempty t Ht) as Ht0.
  destruct (decoder_step _ HD d d' i o (dv_input v) w (dv_output_remaining v) code n stable)
    as (Herr & Hcode0 & Hn0 & Hns & Hni & Hwcap & Hw & Hdone & Hall & Hnext & Hfull);
    [assumption | lia | exists t; right; assumption | assumption |].
  assert (Hilen : len i = len (dv_input v) + len t) by (rewrite Hin; apply len_app).
  assert (Hc : code <> 0) by (intros Hz; apply Hdone in Hz; lia).
  specialize (Hnext Hc).
  rewrite (decompress_body_eq rt info stable v d d' code n w Hcall Herr).
  cbv zeta.
  replace (code =? 0) with false by (symmetry; apply Z.eqb_neq, Hc).
  assert (Hsub : size_sub (len (dv_input v)) n = len (dv_input v) - n)
    by (unfold size_sub; apply size_wrap_small; rewrite SIZE_MOD_eq; lia).
  rewrite Hsub.
  assert (Hrw : size_sub (dv_output_remaining v) (len w) = dv_output_remaining v - len w)
    by (unfold size_sub; apply size_wrap_small; rewrite SIZE_MOD_eq; lia).
  rewrite Hrw.
  assert (Hskip : skipn (Z.to_nat n) i = skipn (Z.to_nat n) (dv_input v) ++ t).
  { rewrite Hin. apply skipn_app_le. unfold len in Hns. lia. }
  assert (Hlw : (length w <= length o)%nat).
  { rewrite Hw. rewrite length_firstn. lia. }
  assert (Hlo : len (skipn (length w) o) = len o - len w).
  { unfold len. rewrite length_skipn. lia. }
  destruct (Z.ltb_spec 0 (len (dv_input v) - n)) as [Hleft | Hleft].
  - (* the destination is full *)
    destruct (Hfull Hc) as [Hwfull Hsmall]; [lia |].
    assert (Hw' : (0 <? contentSize info) && warnings_as_errors rt = false)
      by (destruct Hwarn as [Hwarn | Hwarn]; [assumption | lia]).
    rewrite Hw'.
    assert (Hadd : size_add (dv_output_remaining v - len w) (dv_output_len v) = dv_output_len v)
      by (unfold size_add; rewrite Hwfull, Z.sub_diag; apply size_wrap_small;
          rewrite SIZE_MOD_eq; lia).
    assert (Hmul : size_mul (dv_output_len v) 2 = 2 * dv_output_len v)
      by (unfold size_mul; rewrite size_wrap_small; rewrite ?SIZE_MOD_eq; lia).
    rewrite Hadd, Hmul.
    match goal with
    | |- context [while_loop fuel ?c ?b ?v1 d'] =>
      destruct (IH v1 d' (skipn (Z.to_nat n) i) t (skipn (length w) o) (W + len w))
        as (d2 & ev2 & Hloop)
    end;
      cbn [dv_input dv_input_size_hint dv_output_len dv_output_remaining];
      try assumption; try lia.
    + left. exact Hw'.
    + rewrite len_skipn. lia.
    + rewrite Hloop. eexists. eexists. reflexivity.
  - (* the input is used up *)
    match goal with
    | |- context [while_loop fuel ?c ?b ?v1 d'] =>
      destruct (IH v1 d' (skipn (Z.to_nat n) i) t (skipn (length w) o) (W + len w))
        as (d2 & ev2 & Hloop)
    end;
      cbn [dv_input dv_input_size_hint dv_output_len dv_output_remaining];
      try assumption; try lia.
    + destruct Hwarn as [Hwarn | Hwarn]; [left; assumption | right; lia].
    + rewrite len_skipn. lia.
    + rewrite Hloop. eexists. eexists. reflexivity.
Qed.

(** X1 ([_lz4framed_decompress]): when the input holds the header of a frame
    and stops before the end of the frame, the decoding loop is never left:
    the hint stays nonzero, and with no input remaining the loop neither
    grows the buffer nor fails.  The call does not return, whatever the
    fuel. *)
Theorem decompress_hangs_on_truncated_frame (rt : PyRuntime) (b t o : list byte)
        (info : LZ4F_frameInfo_t) (hint h buffer_size : Z) (d1 : dctx) (fuel : nat) :
  LZ4F_getFrameInfo (snd LZ4F_createDecompressionContext) b = (hint, info, h, d1) ->
  LZ4F_isError hint = false -> hint <> 0 ->
  0 <= h <= len b ->
  Decoding d1 (skipn (Z.to_nat h) b ++ t) o ->
  t <> [] ->
  b <> [] ->
  0 < buffer_size <= INT_MAX ->
  len b < 2 ^ 62 -> len o < 2 ^ 62 -> 0 <= contentSize info < 2 ^ 62 ->
  (0 <? contentSize info) && warnings_as_errors rt = false
  \/ len o <= initial_capacity info buffer_size (len b - h) ->
  fst (_lz4framed_decompress rt fuel b (Some buffer_size)) = OutOfFuel.
Proof.
  intros Hinfo Herr Hhint Hh Hdec Ht Hne Hbs Hblen Holen Hcs Hwarn.
  pose proof (len_nonneg b) as Hb0.
  rewrite (decompress_prelude Decoding HD rt b (skipn (Z.to_nat h) b) [] info h hint
             buffer_size d1 fuel Hinfo Herr Hh)
    by (try assumption; now rewrite app_nil_r).
  cbv zeta.
  set (L0 := initial_capacity info buffer_size (len b - h)) in *.
  assert (HL0 : 0 < L0 < 2 ^ 62).
  { unfold L0, initial_capacity.
    destruct (Z.ltb_spec 0 (contentSize info)); unfold INT_MAX in *; lia. }
  rewrite app_nil_r.
  destruct (decompress_loop_starved rt info (0 <? contentSize info) fuel
              {| dv_input := skipn (Z.to_nat h) b; dv_input_size_hint := hint;
                 dv_output := buf_new L0; dv_output_pos := 0;
                 dv_output_len := L0; dv_output_remaining := L0 |}
              d1 (skipn (Z.to_nat h) b ++ t) t o 0)
    as (d' & ev & Hloop);
    cbn [dv_input dv_input_size_hint dv_output_len dv_output_remaining];
    try assumption; try reflexivity; try lia.
  - rewrite len_skipn. lia.
  - rewrite Hloop. reflexivity.
Qed.

(** X2 ([_lz4framed_decompress]): the number of reallocations.  The buffer
    starts at the declared content size, or at the larger of [buffer_size]
    and the input left after the header, and is doubled [k] times, [k] the
    least number of doublings after which the content fits: none when the
    initial capacity suffices, and then the only resize is the final one to
    the length of the content; otherwise the last capacity is below twice
    the length of the content. *)
Theorem decompress_reallocation_count (rt : PyRuntime) (frame o : list byte)
        (info : LZ4F_frameInfo_t) (h buffer_size : Z) (fuel : nat) :
  frame_decodes Decoding frame info h o ->
  frame <> [] ->
  0 < buffer_size <= INT_MAX ->
  len frame < 2 ^ 62 -> len o < 2 ^ 62 -> 0 <= contentSize info < 2 ^ 62 ->
  (0 <? contentSize info) && warnings_as_errors rt = false
  \/ len o <= initial_capacity info buffer_size (len frame - h) ->
  (length o < fuel)%nat ->
  let L0 := initial_capacity info buffer_size (len frame - h) in
  exists k : nat,
    _lz4framed_decompress rt fuel frame (Some buffer_size)
    = (Returns o,
       EvAlloc L0 :: growth_events (0 <? contentSize info) (doubled L0 k)
         ++ [EvResize (len o)]) /\
    len o <= L0 * 2 ^ Z.of_nat k /\
    (k <> 0%nat -> L0 * 2 ^ Z.of_nat k < 2 * len o) /\
    (len o <= L0 -> k = 0%nat).
Proof.
  intros Hframe Hne Hbs Hflen Holen Hcs Hwarn Hfuel L0.
  destruct (decompress_spec Decoding HD rt frame o info h buffer_size Hframe Hne Hbs Hflen
                            Holen Hcs Hwarn fuel Hfuel) as (caps & Hchain & Hrun).
  fold L0 in Hchain, Hrun.
  assert (HL0 : 0 < L0).
  { unfold L0, initial_capacity.
    destruct (Z.ltb_spec 0 (contentSize info)); lia. }
  destruct (doubling_chain_doubled _ _ _ Hchain HL0) as (Hcaps & Hfits & Hmin).
  exists (length caps). rewrite <- Hcaps.
  split; [exact Hrun |]. split; [exact Hfits |]. split.
  - intros Hk. apply Hmin. intros ->. now apply Hk.
  - intros Hle. now rewrite (doubling_chain_exact _ _ _ Hchain Hle).
Qed.
End Extra_decompress.

Section Extra_any_library.
Context {L : LZ4F}.

(** X3 ([_lz4framed_decompress]): [buffer_size] is used for nothing but the
    initial capacity of a frame that declares no content size, and only when
    it exceeds the input left after the header.  Two valid values that are
    both at most that input, or any two when the frame declares its content
    size, give the same outcome and the same allocations, with any library. *)
Theorem decompress_buffer_size_ignored (rt : PyRuntime) (fuel : nat) (b : list byte)
        (bs1 bs2 code n : Z) (info : LZ4F_frameInfo_t) (d' : dctx) :
  0 < bs1 <= INT_MAX -> 0 < bs2 <= INT_MAX ->
  LZ4F_getFrameInfo (snd LZ4F_createDecompressionContext) b = (code, info, n, d') ->
  0 < contentSize info
  \/ (bs1 <= size_sub (len b) n /\ bs2 <= size_sub (len b) n) ->
  _lz4framed_decompress rt fuel b (Some bs1) = _lz4framed_decompress rt fuel b (Some bs2).
Proof.
  intros H1 H2 Hinfo Hcase.
  unfold _lz4framed_decompress, arg_int, bind.
  replace ((INT_MIN <=? bs1) && (bs1 <=? INT_MAX)) with true
    by (symmetry; apply andb_true_iff; unfold INT_MIN, INT_MAX in *;
        split; apply Z.leb_le; lia).
  replace ((INT_MIN <=? bs2) && (bs2 <=? INT_MAX)) with true
    by (symmetry; apply andb_true_iff; unfold INT_MIN, INT_MAX in *;
        split; apply Z.leb_le; lia).
  cbn [ret].
  destruct (len b <=? 0); [reflexivity |].
  replace (bs1 <=? 0) with false by (symmetry; apply Z.leb_gt; lia).
  replace (bs2 <=? 0) with false by (symmetry; apply Z.leb_gt; lia).
  destruct LZ4F_createDecompressionContext as [code0 d0]. cbn [snd] in Hinfo.
  unfold BAIL_ON_LZ4_ERROR.
  destruct (LZ4F_isError code0); [reflexivity |]. cbn [ret].
  unfold decompress_with_context, call_getFrameInfo, bind. rewrite Hinfo.
  unfold BAIL_ON_LZ4_ERROR.
  destruct (LZ4F_isError code); [reflexivity |]. cbn [ret].
  assert (Hcap : (if 0 <? contentSize info then contentSize info
                  else if size_wrap bs1 >=? size_sub (len b) n then size_wrap bs1
                       else size_sub (len b) n)
                 = (if 0 <? contentSize info then contentSize info
                    else if size_wrap bs2 >=? size_sub (len b) n then size_wrap bs2
                         else size_sub (len b) n)).
  { destruct (Z.ltb_spec 0 (contentSize info)) as [Hcs | Hcs]; [reflexivity |].
    destruct Hcase as [Hcase | [Hb1 Hb2]]; [lia |].
    rewrite !size_wrap_small by (rewrite SIZE_MOD_eq; unfold INT_MAX in *; lia).
    destruct (Z.geb_spec bs1 (size_sub (len b) n));
      destruct (Z.geb_spec bs2 (size_sub (len b) n)); lia. }
  rewrite Hcap. reflexivity.
Qed.

(** X4 ([_lz4framed_decompress_update]): whatever the arguments, a call that
    returns was given a decompression capsule and a non-empty input, worked
    with a chunk length between 1 and [2^32] (65536 when [chunk_len] is
    omitted, [chunk_len] modulo [2^32] otherwise), and its list is made of
    chunks of exactly that length, at most one shorter non-empty chunk, and
    the hint. *)
Theorem decompress_update_result_shape (fuel : nat) (cap : capsule) (b : list byte)
        (a : option Z) (d d' : dctx) (r : list PyObject) (ev : list event) :
  ApiBounds ->
  _lz4framed_decompress_update fuel cap b a d = (Returns r, d', ev) ->
  cap = Capsule DECOMPRESSION_CAPSULE_NAME /\
  b <> [] /\
  0 < chunk_len_of a <= 2 ^ 32 /\
  (a = None -> chunk_len_of a = 65536) /\
  (forall c, a = Some c -> chunk_len_of a = c mod 2 ^ 32) /\
  exists (full last : list (list byte)) (hint : Z),
    chunked_result (chunk_len_of a) full last hint r.
Proof.
  intros HB Hcall.
  assert (Hrange : forall c, a = Some c -> INT_MIN <= c <= INT_MAX).
  { intros c ->. unfold _lz4framed_decompress_update, arg_int_into_size_t in Hcall.
    destruct ((INT_MIN <=? c) && (c <=? INT_MAX)) eqn:Hr.
    - apply andb_true_iff in Hr. destruct Hr as [H1 H2].
      apply Z.leb_le in H1, H2. lia.
    - unfold bind at 1 in Hcall. cbn in Hcall. discriminate Hcall. }
  rewrite (update_unfold fuel cap b a d Hrange) in Hcall. cbv zeta in Hcall.
  destruct (PyCapsule_IsValid cap DECOMPRESSION_CAPSULE_NAME) eqn:Hcap;
    cbn [negb] in Hcall; [| discriminate].
  destruct (Z.leb_spec (len b) 0) as [Hb | Hb]; [discriminate |].
  destruct (Z.leb_spec (chunk_len_of a) 0) as [Hc | Hc]; [discriminate |].
  assert (Hmod : forall c, a = Some c -> chunk_len_of a = c mod 2 ^ 32).
  { intros c ->. unfold chunk_len_of, store_int_in_size_t.
    change (65536 / 2 ^ 32) with 0. lia. }
  assert (Hup : chunk_len_of a <= 2 ^ 32).
  { destruct a as [c |]; [| cbn; lia].
    rewrite (Hmod c eq_refl). pose proof (Z.mod_pos_bound c (2 ^ 32)). lia. }
  split.
  { destruct cap as [name |]; [| discriminate Hcap].
    cbn in Hcap. apply String.eqb_eq in Hcap. now subst name. }
  split; [intros ->; change (len (@nil byte)) with 0 in Hb; lia |].
  split; [lia |]. split; [now intros -> |]. split; [exact Hmod |].
  set (c := chunk_len_of a) in *.
  destruct (decompress_update_loop fuel c (update_init b c) d) as [[[v | x |] d1] ev1] eqn:Hloop;
    try (destruct (du_chunk_remaining v <? c); discriminate); try discriminate.
  assert (Hc' : 0 < c < 2 ^ 62) by lia.
  destruct (update_loop_inv c HB Hc' fuel _ v d d1 ev1 [] (update_init_inv b c Hc) Hloop)
    as (full & Hinv).
  destruct (update_result_shape c v full Hc' Hinv) as (last & Hres & Hlast & _).
  exists full, last, (du_input_size_hint v).
  assert (Hr : r = map PyBytes (full ++ last) ++ [PyLong (du_input_size_hint v)]).
  { rewrite <- Hres. destruct (du_chunk_remaining v <? c); injection Hcall as <- _ _; reflexivity. }
  split; [assumption |]. split; [apply Hinv | assumption].
Qed.
End Extra_any_library.

Lemma bytes_of_chunks (chunks : list (list byte)) (h : Z) :
  bytes_of (map PyBytes chunks ++ [PyLong h]) = concat chunks.
Proof.
  unfold bytes_of. rewrite flat_map_app. cbn [flat_map app]. rewrite app_nil_r.
  induction chunks as [| c chunks IH]; [reflexivity |].
  cbn [map flat_map concat]. now rewrite IH.
Qed.

Lemma hint_of_chunks (chunks : list (list byte)) (h : Z) :
  hint_of (map PyBytes chunks ++ [PyLong h]) = Some h.
Proof. unfold hint_of. now rewrite last_last. Qed.

Section Extra_streaming.
Context {L : LZ4F}.
Variable Decoding : dctx -> list byte -> list byte -> Prop.
Hypothesis HD : DecoderSpec Decoding.

(** X5 ([_lz4framed_decompress_update]): the rest of a frame given to
    successive calls in non-empty pieces, however it is cut and whatever the
    chunk length: every call returns, the bytes of the returned chunks, in
    order, are the content of the frame, the hint of every call but the last
    is positive, and the hint of the last is 0. *)
Theorem decompress_updates_content (c : Z) (fuel : nat) (pieces : list (list byte)) :
  0 < c <= INT_MAX ->
  pieces <> [] ->
  Forall (fun b => b <> []) pieces ->
  forall (d : dctx) (i o : list byte),
    Decoding d i o ->
    concat pieces = i ->
    len i < 2 ^ 62 ->
    (S (length o) < fuel)%nat ->
    exists (rs : list (list PyObject)) (r : list PyObject) (d' : dctx) (ev : list event),
      decompress_updates fuel (Capsule DECOMPRESSION_CAPSULE_NAME) pieces (Some c) d
      = (Returns (rs ++ [r]), d', ev) /\
      length (rs ++ [r]) = length pieces /\
      concat (map bytes_of (rs ++ [r])) = o /\
      Forall (fun r' => exists h, hint_of r' = Some h /\ 0 < h) rs /\
      hint_of r = Some 0.
Proof.
  intros Hc. induction pieces as [| b rest IH]; intros Hne Hall d i o Hdec Hcat Hlen Hfuel.
  { congruence. }
  inversion Hall as [| b' rest' Hb Hrest]; subst b' rest'.
  cbn [concat] in Hcat.
  assert (Hblen : len b < 2 ^ 62).
  { rewrite <- Hcat, len_app in Hlen. pose proof (len_nonneg (concat rest)). lia. }
  assert (Hagree : agree b i) by (exists (concat rest); right; now symmetry).
  destruct (update_spec Decoding HD c fuel d i o b Hc Hfuel Hdec Hagree Hb Hblen)
    as (v' & d1 & ev & ev1 & full & last & _ & Hcall & _ & _ & Hpre & Hh0 & Hend & Hmore).
  cbn [decompress_updates]. unfold bind at 1. rewrite Hcall.
  destruct rest as [| b2 rest'].
  - (* the last piece *)
    cbn [concat] in Hcat. rewrite app_nil_r in Hcat.
    destruct (Hend []) as (Hz & Hall_o & _); [rewrite app_nil_r; exact Hcat |].
    exists [], (map PyBytes (full ++ last) ++ [PyLong (du_input_size_hint v')]), d1.
    eexists. cbn [decompress_updates app].
    split; [unfold bind, ret; reflexivity |].
    split; [reflexivity |].
    split; [cbn [map concat]; rewrite bytes_of_chunks, app_nil_r; exact Hall_o |].
    split; [constructor |]. rewrite hint_of_chunks, Hz. reflexivity.
  - (* more pieces follow *)
    assert (Ht : concat (b2 :: rest') <> []).
    { inversion Hrest as [| x y Hb2 _]; subst. cbn [concat].
      destruct b2; [congruence | discriminate]. }
    destruct (Hmore (concat (b2 :: rest')) Ht (eq_sym Hcat)) as (Hnz & _ & Hdec').
    assert (Hlen' : len (concat (b2 :: rest')) < 2 ^ 62).
    { rewrite <- Hcat, len_app in Hlen. pose proof (len_nonneg b). lia. }
    assert (Hfuel' : (S (length (skipn (length (concat (full ++ last))) o)) < fuel)%nat).
    { rewrite length_skipn. lia. }
    destruct (IH ltac:(discriminate) Hrest d1 _ _ Hdec' eq_refl Hlen' Hfuel')
      as (rs & r & d2 & ev2 & Hrun & Hcount & Hbytes & Hhints & Hlast).
    exists ((map PyBytes (full ++ last) ++ [PyLong (du_input_size_hint v')]) :: rs), r, d2.
    eexists.
    split; [unfold bind at 1; rewrite Hrun; unfold ret; cbn [app]; reflexivity |].
    split; [cbn [app length] in Hcount |- *; now rewrite Hcount |].
    split.
    { cbn [app map concat]. rewrite bytes_of_chunks, Hbytes.
      rewrite Hpre at 1. apply firstn_skipn. }
    split; [| exact Hlast].
    constructor; [| exact Hhints].
    exists (du_input_size_hint v'). rewrite hint_of_chunks. split; [reflexivity | lia].
Qed.
End Extra_streaming.

(** ** Errors and module constants *)

(** X6 ([BAIL_ON_LZ4_ERROR], [PyInit__lz4framed]): every error code of the
    library is raised as [Lz4FramedError(name, number)]; the number is the
    value of the module constant [LZ4F_<name>], and no other error has that
    number. *)
Theorem error_matches_module_constant (VERSION LZ4_VERSION : string) (LZ4F_VERSION : Z)
        (e : LZ4F_errorCodes) (St : Type) (s : St) :
  LZ4F_isError (LZ4F_error e) = true ->
  exists (name : string) (number : Z),
    @BAIL_ON_LZ4_ERROR St (LZ4F_error e) s = (Raises (Lz4FramedError name number), s, []) /\
    module_getattr (PyInit__lz4framed VERSION LZ4_VERSION LZ4F_VERSION) ("LZ4F_" ++ name)
    = Some (ModInt number) /\
    number = error_number e /\
    forall e' : LZ4F_errorCodes, error_number e' = number -> e' = e.
Proof.
  intros He.
  destruct e; try (vm_compute in He; discriminate He);
    (eexists; eexists; split; [unfold BAIL_ON_LZ4_ERROR; rewrite He; reflexivity |];
     split; [reflexivity |]; split; [reflexivity |];
     intros e' He'; destruct e'; try reflexivity; vm_compute in He'; discriminate He').
Qed.

Lemma error_matches_module_constant_witness :
  exists (name : string) (number : Z),
    @BAIL_ON_LZ4_ERROR unit (LZ4F_error LZ4F_ERROR_frameHeader_incomplete) tt
    = (Raises (Lz4FramedError name number), tt, []) /\
    module_getattr (PyInit__lz4framed "0.9" "r131" 100) ("LZ4F_" ++ name)
    = Some (ModInt number) /\
    number = error_number LZ4F_ERROR_frameHeader_incomplete /\
    forall e' : LZ4F_errorCodes,
      error_number e' = number -> e' = LZ4F_ERROR_frameHeader_incomplete.
Proof.
  apply (error_matches_module_constant "0.9" "r131" 100 LZ4F_ERROR_frameHeader_incomplete
                                       unit tt).
  reflexivity.
Defined.

(** X7 ([_lz4framed_get_block_size], [_valid_lz4f_block_size_id],
    [_lz4f_block_size_from_id], [PyInit__lz4framed]): for every integer
    argument.  The ids 0, 4, 5, 6 and 7 give [65536 * 4^(max(id, 4) - 4)]
    bytes, every other [int] gives [ValueError] with the id in the message,
    and what does not fit an [int] gives [OverflowError]; 0, the value the
    helper has for an invalid id, is never returned.  The accepted ids are
    the values of the module's block size constants. *)
Theorem get_block_size_total (VERSION LZ4_VERSION : string) (LZ4F_VERSION : Z) (id : Z) :
  (In id [0; 4; 5; 6; 7] ->
   _lz4framed_get_block_size id tt
   = (Returns (PyLong (65536 * 4 ^ (Z.max id 4 - 4))), tt, [])) /\
  (~ In id [0; 4; 5; 6; 7] -> INT_MIN <= id <= INT_MAX ->
   _lz4framed_get_block_size id tt
   = (Raises (ValueError ("id (" ++ dec id ++ ") invalid")), tt, [])) /\
  (~ INT_MIN <= id <= INT_MAX ->
   _lz4framed_get_block_size id tt = (Raises OverflowError, tt, [])) /\
  _lz4framed_get_block_size id tt <> (Returns (PyLong 0), tt, []) /\
  (In id [0; 4; 5; 6; 7] <->
   exists name, In name block_size_constants /\
                module_getattr (PyInit__lz4framed VERSION LZ4_VERSION LZ4F_VERSION) name
                = Some (ModInt id)).
Proof.
  assert (Hvalid : In id [0; 4; 5; 6; 7] ->
                   _lz4framed_get_block_size id tt
                   = (Returns (PyLong (65536 * 4 ^ (Z.max id 4 - 4))), tt, [])).
  { intros Hin. cbn [In] in Hin.
    destruct Hin as [<- | [<- | [<- | [<- | [<- | []]]]]]; reflexivity. }
  assert (Hinvalid : ~ In id [0; 4; 5; 6; 7] -> INT_MIN <= id <= INT_MAX ->
                     _lz4framed_get_block_size id tt
                     = (Raises (ValueError ("id (" ++ dec id ++ ") invalid")), tt, [])).
  { intros Hnot Hr. cbn [In] in Hnot.
    unfold _lz4framed_get_block_size, arg_int, bind.
    replace ((INT_MIN <=? id) && (id <=? INT_MAX)) with true
      by (symmetry; apply andb_true_iff; split; apply Z.leb_le; lia).
    cbn [ret]. unfold _valid_lz4f_block_size_id, LZ4F_default, LZ4F_max64KB, LZ4F_max256KB,
                      LZ4F_max1MB, LZ4F_max4MB.
    repeat match goal with
           | |- context [id =? ?k] => destruct (Z.eqb_spec id k) as [Hk | Hk]; [exfalso; apply Hnot; rewrite Hk; tauto | clear Hk]
           end.
    reflexivity. }
  assert (Hover : ~ INT_MIN <= id <= INT_MAX ->
                  _lz4framed_get_block_size id tt = (Raises OverflowError, tt, [])).
  { intros Hr. unfold _lz4framed_get_block_size, arg_int, bind.
    replace ((INT_MIN <=? id) && (id <=? INT_MAX)) with false; [reflexivity |].
    symmetry. apply andb_false_iff.
    destruct (Z.leb_spec INT_MIN id); [| now left].
    destruct (Z.leb_spec id INT_MAX); [lia | now right]. }
  split; [exact Hvalid |]. split; [exact Hinvalid |]. split; [exact Hover |]. split.
  - destruct (in_dec Z.eq_dec id [0; 4; 5; 6; 7]) as [Hin | Hnot].
    + rewrite (Hvalid Hin). cbn [In] in Hin.
      destruct Hin as [<- | [<- | [<- | [<- | [<- | []]]]]]; discriminate.
    + assert (Hr : INT_MIN <= id <= INT_MAX \/ ~ INT_MIN <= id <= INT_MAX)
        by (unfold INT_MIN, INT_MAX; lia).
      destruct Hr as [Hr | Hr]; [rewrite (Hinvalid Hnot Hr) | rewrite (Hover Hr)]; discriminate.
  - split.
    + intros Hin. cbn [In] in Hin.
      destruct Hin as [<- | [<- | [<- | [<- | [<- | []]]]]].
      * exists "LZ4F_BLOCKSIZE_DEFAULT"%string. split; [cbn; tauto | reflexivity].
      * exists "LZ4F_BLOCKSIZE_MAX64KB"%string. split; [cbn; tauto | reflexivity].
      * exists "LZ4F_BLOCKSIZE_MAX256KB"%string. split; [cbn; tauto | reflexivity].
      * exists "LZ4F_BLOCKSIZE_MAX1M"%string. split; [cbn; tauto | reflexivity].
      * exists "LZ4F_BLOCKSIZE_MAX4M"%string. split; [cbn; tauto | reflexivity].
    + intros (name & Hname & Hattr). cbn [In block_size_constants] in Hname.
      destruct Hname as [<- | [<- | [<- | [<- | [<- | []]]]]];
        vm_compute in Hattr; injection Hattr as <-; cbn; tauto.
Qed.

(** ** Argument checks *)

Lemma while_loop_raises {St S : Type} (P : PyExc -> Prop) (cond : S -> bool)
      (body : S -> Py St (iter S)) :
  (forall s st x st' ev, body s st = (Raises x, st', ev) -> P x) ->
  forall (fuel : nat) (s : S) (st : St) (x : PyExc) (st' : St) (ev : list event),
    while_loop fuel cond body s st = (Raises x, st', ev) -> P x.
Proof.
  intros Hbody. induction fuel as [| fuel IH]; intros s st x st' ev Hloop.
  { discriminate Hloop. }
  rewrite while_loop_unfold in Hloop.
  destruct (cond s); [| discriminate Hloop].
  destruct (body s st) as [[[[s1 | s1] | y |] st1] e1] eqn:Hb.
  - destruct (while_loop fuel cond body s1 st1) as [[r st2] e2] eqn:Hrest.
    injection Hloop as -> -> _. exact (IH _ _ _ _ _ Hrest).
  - discriminate Hloop.
  - injection Hloop as -> _ _. exact (Hbody _ _ _ _ _ Hb).
  - discriminate Hloop.
Qed.

Lemma capsule_invalid (cap : capsule) (name : string) :
  cap <> Capsule name -> PyCapsule_IsValid cap name = false.
Proof.
  intros H. destruct cap as [n |]; [| reflexivity].
  cbn. apply String.eqb_neq. congruence.
Qed.

Lemma arg_int_cases {St : Type} (initial : Z) (a : option Z) (s : St) :
  @arg_int St initial a s = (Returns (arg_value initial a), s, []) /\ arg_in_range a
  \/ @arg_int St initial a s = (Raises OverflowError, s, []).
Proof.
  destruct a as [z |]; [| left; split; [reflexivity | intros z Hz; discriminate Hz]].
  cbn [arg_int arg_value].
  destruct ((INT_MIN <=? z) && (z <=? INT_MAX)) eqn:Hr; [left | right; reflexivity].
  split; [reflexivity |]. intros z' [= <-].
  apply andb_true_iff in Hr. destruct Hr as [H1 H2]. apply Z.leb_le in H1, H2. lia.
Qed.

Section Extra_checks.
Context {L : LZ4F}.

Lemma compress_unfold (b : list byte) (bs bm cs lvl : option Z) :
  arg_in_range bs -> arg_in_range bm -> arg_in_range cs -> arg_in_range lvl ->
  _lz4framed_compress b bs bm cs lvl tt =
  let p := preferences_of bs bm cs lvl (len b) 0 in
  if len b <=? 0 then (Raises (ValueError "b (data) is empty"), tt, [])
  else if negb (_valid_lz4f_block_size_id (blockSizeID (frameInfo p))) then
    (Raises (ValueError ("block_size_id (" ++ dec (blockSizeID (frameInfo p)) ++ ") invalid")),
     tt, [])
  else if (compressionLevel p <? 0) || (16 <? compressionLevel p) then
    (Raises (ValueError ("compression_level (" ++ dec (compressionLevel p) ++ ") invalid")),
     tt, [])
  else
    let bound := LZ4F_compressFrameBound (len b) p in
    if LZ4F_isError bound then
      (Raises (Lz4FramedError (LZ4F_getErrorName bound) (size_neg bound)), tt, [])
    else
      if LZ4F_isError (fst (LZ4F_compressFrame bound b p)) then
        (Raises (Lz4FramedError (LZ4F_getErrorName (fst (LZ4F_compressFrame bound b p)))
                                (size_neg (fst (LZ4F_compressFrame bound b p)))),
         tt, [EvAlloc bound])
      else
        (Returns (PyBytes_value
                    (buf_resize (buf_write (buf_new bound) 0
                                           (snd (LZ4F_compressFrame bound b p)))
                                (fst (LZ4F_compressFrame bound b p)))),
         tt, [EvAlloc bound; EvResize (fst (LZ4F_compressFrame bound b p))]).
Proof.
  intros Hbs Hbm Hcs Hlvl. unfold _lz4framed_compress.
  rewrite (arg_int_ok _ _ Hbs), (arg_int_ok _ _ Hbm), (arg_int_ok _ _ Hcs), (arg_int_ok _ _ Hlvl).
  unfold bind at 1 2 3 4. cbn [ret]. cbv zeta.
  cbn [preferences_of frameInfo blockSizeID compressionLevel].
  destruct (len b <=? 0); [reflexivity |].
  destruct (negb (_valid_lz4f_block_size_id (arg_value LZ4F_default bs))); [reflexivity |].
  destruct ((arg_value 0 lvl <? 0) || (16 <? arg_value 0 lvl)); [reflexivity |].
  fold (preferences_of bs bm cs lvl (len b) 0).
  set (p := preferences_of bs bm cs lvl (len b) 0).
  unfold BAIL_ON_LZ4_ERROR at 1. unfold bind at 1.
  destruct (LZ4F_isError (LZ4F_compressFrameBound (len b) p)); [reflexivity |].
  cbn [ret]. unfold PyBytes_FromStringAndSize. unfold bind at 1 2. cbn [emit ret].
  destruct (LZ4F_compressFrame (LZ4F_compressFrameBound (len b) p) b p) as [code written].
  cbn [fst snd]. unfold BAIL_ON_LZ4_ERROR, _PyBytes_Resize, bind, emit, ret.
  destruct (LZ4F_isError code); reflexivity.
Qed.

(** X8 ([_lz4framed_compress]): the argument checks, with any library.  An
    empty input, a block size id that is not one of the five, and a level
    outside 0..16 are refused in this order with [ValueError]; a
    [ValueError] has no other cause, and when one is raised nothing has been
    allocated. *)
Theorem compress_value_errors (b : list byte) (bs bm cs lvl : option Z) :
  arg_in_range bs -> arg_in_range bm -> arg_in_range cs -> arg_in_range lvl ->
  let id := arg_value LZ4F_default bs in
  let level := arg_value 0 lvl in
  (b = [] ->
   _lz4framed_compress b bs bm cs lvl tt = (Raises (ValueError "b (data) is empty"), tt, [])) /\
  (b <> [] -> ~ In id [0; 4; 5; 6; 7] ->
   _lz4framed_compress b bs bm cs lvl tt
   = (Raises (ValueError ("block_size_id (" ++ dec id ++ ") invalid")), tt, [])) /\
  (b <> [] -> In id [0; 4; 5; 6; 7] -> ~ 0 <= level <= 16 ->
   _lz4framed_compress b bs bm cs lvl tt
   = (Raises (ValueError ("compression_level (" ++ dec level ++ ") invalid")), tt, [])) /\
  (forall (msg : string) (st : unit) (ev : list event),
      _lz4framed_compress b bs bm cs lvl tt = (Raises (ValueError msg), st, ev) ->
      ev = [] /\ (b = [] \/ ~ In id [0; 4; 5; 6; 7] \/ ~ 0 <= level <= 16)).
Proof.
  intros Hbs Hbm Hcs Hlvl id level.
  rewrite (compress_unfold b bs bm cs lvl Hbs Hbm Hcs Hlvl). cbv zeta.
  cbn [preferences_of frameInfo blockSizeID compressionLevel]. fold id level.
  assert (Hid : _valid_lz4f_block_size_id id = true <-> In id [0; 4; 5; 6; 7]).
  { unfold _valid_lz4f_block_size_id, LZ4F_default, LZ4F_max64KB, LZ4F_max256KB,
           LZ4F_max1MB, LZ4F_max4MB. cbn [In].
    rewrite !orb_true_iff, !Z.eqb_eq. intuition congruence. }
  assert (Hlev : (level <? 0) || (16 <? level) = false <-> 0 <= level <= 16).
  { rewrite orb_false_iff, !Z.ltb_ge. lia. }
  split; [| split; [| split]].
  - intros ->. reflexivity.
  - intros Hne Hnot. replace (len b <=? 0) with false
      by (symmetry; apply Z.leb_gt, len_nonempty, Hne).
    destruct (_valid_lz4f_block_size_id id) eqn:Hv; [exfalso; apply Hnot, Hid; reflexivity |].
    reflexivity.
  - intros Hne Hin Hout. replace (len b <=? 0) with false
      by (symmetry; apply Z.leb_gt, len_nonempty, Hne).
    apply Hid in Hin. rewrite Hin. cbn [negb].
    destruct ((level <? 0) || (16 <? level)) eqn:Hl; [reflexivity |].
    exfalso. apply Hout, Hlev. reflexivity.
  - intros msg st ev Hrun.
    destruct (Z.leb_spec (len b) 0) as [Hb | Hb].
    { injection Hrun as _ _ <-. split; [reflexivity |]. left.
      destruct b as [| x b']; [reflexivity |].
      rewrite len_cons in Hb. pose proof (len_nonneg b'). lia. }
    destruct (_valid_lz4f_block_size_id id) eqn:Hv; cbn [negb] in Hrun.
    2: { injection Hrun as _ _ <-. split; [reflexivity |]. right. left.
         intros Hin. apply Hid in Hin. congruence. }
    destruct ((level <? 0) || (16 <? level)) eqn:Hl.
    { injection Hrun as _ _ <-. split; [reflexivity |]. right. right.
      intros Hin. apply Hlev in Hin. congruence. }
    destruct (LZ4F_isError _); [discriminate Hrun |].
    destruct (LZ4F_isError _); discriminate Hrun.
Qed.

Lemma compress_returns_library_frame (b written : list byte) (bs bm cs lvl : option Z) :
  valid_preferences bs bm cs lvl ->
  b <> [] ->
  LZ4F_isError (LZ4F_compressFrameBound (len b) (preferences_of bs bm cs lvl (len b) 0))
  = false ->
  LZ4F_compressFrame (LZ4F_compressFrameBound (len b) (preferences_of bs bm cs lvl (len b) 0))
                     b (preferences_of bs bm cs lvl (len b) 0)
  = (len written, written) ->
  LZ4F_isError (len written) = false ->
  _lz4framed_compress b bs bm cs lvl tt
  = (Returns written, tt,
     [EvAlloc (LZ4F_compressFrameBound (len b) (preferences_of bs bm cs lvl (len b) 0));
      EvResize (len written)]).
Proof.
  intros (Hbs & Hbm & Hcs & Hlvl & Hvid & Hlevel) Hne Hbound Hframe Herr.
  rewrite (compress_unfold b bs bm cs lvl Hbs Hbm Hcs Hlvl). cbv zeta.
  set (p := preferences_of bs bm cs lvl (len b) 0) in *.
  replace (len b <=? 0) with false by (symmetry; apply Z.leb_gt, len_nonempty, Hne).
  change (blockSizeID (frameInfo p)) with (arg_value LZ4F_default bs).
  change (compressionLevel p) with (arg_value 0 lvl).
  rewrite Hvid. cbn [negb].
  replace ((arg_value 0 lvl <? 0) || (16 <? arg_value 0 lvl)) with false
    by (symmetry; apply orb_false_iff; split; apply Z.ltb_ge; lia).
  rewrite Hbound, Hframe. cbn [fst snd]. rewrite Herr, wrote_whole. reflexivity.
Qed.

(** X9 ([_lz4framed_compress]): the success path, with any library.  The
    library is asked to frame the input with the content size set to the
    length of the input and no auto-flush, into a buffer of
    [LZ4F_compressFrameBound] bytes; when it reports the number of bytes it
    wrote, those bytes are returned, the buffer shrunk to them. *)
Theorem compress_returns_what_library_wrote (b written : list byte)
        (bs bm cs lvl : option Z) :
  valid_preferences bs bm cs lvl ->
  b <> [] ->
  let p := preferences_of bs bm cs lvl (len b) 0 in
  let bound := LZ4F_compressFrameBound (len b) p in
  LZ4F_isError bound = false ->
  LZ4F_compressFrame bound b p = (len written, written) ->
  LZ4F_isError (len written) = false ->
  _lz4framed_compress b bs bm cs lvl tt
  = (Returns written, tt, [EvAlloc bound; EvResize (len written)]).
Proof.
  intros Hvalid Hne p bound Hbound Hframe Herr.
  exact (compress_returns_library_frame b written bs bm cs lvl Hvalid Hne Hbound Hframe Herr).
Qed.

Lemma compress_update_unfold (cap : capsule) (b : list byte) (c : cctx) :
  _lz4framed_compress_update cap b c =
  if negb (PyCapsule_IsValid cap COMPRESSION_CAPSULE_NAME) then
    (Raises (ValueError "ctx invalid"), c, [])
  else if len b <=? 0 then (Raises (ValueError "b (data) is empty"), c, [])
  else
    let bound := LZ4F_compressBound (len b) None in
    if LZ4F_isError bound then
      (Raises (Lz4FramedError (LZ4F_getErrorName bound) (size_neg bound)), c, [])
    else
      match LZ4F_compressUpdate c bound b with
      | (code, written, c') =>
        if LZ4F_isError code then
          (Raises (Lz4FramedError (LZ4F_getErrorName code) (size_neg code)), c', [EvAlloc bound])
        else
          (Returns (PyBytes_value (buf_resize (buf_write (buf_new bound) 0 written) code)),
           c', [EvAlloc bound; EvResize code])
      end.
Proof.
  unfold _lz4framed_compress_update.
  destruct (negb (PyCapsule_IsValid cap COMPRESSION_CAPSULE_NAME)); [reflexivity |].
  destruct (len b <=? 0); [reflexivity |].
  unfold BAIL_ON_LZ4_ERROR at 1. unfold bind at 1. cbv zeta.
  destruct (LZ4F_isError (LZ4F_compressBound (len b) None)); [reflexivity |].
  cbn [ret]. unfold PyBytes_FromStringAndSize, call_compressUpdate. unfold bind at 1 2 3.
  cbn [emit ret].
  destruct (LZ4F_compressUpdate c (LZ4F_compressBound (len b) None) b) as [[code written] c'].
  unfold BAIL_ON_LZ4_ERROR, _PyBytes_Resize, bind, emit, ret.
  destruct (LZ4F_isError code); reflexivity.
Qed.

Lemma compress_end_unfold (cap : capsule) (c : cctx) :
  _lz4framed_compress_end cap c =
  if negb (PyCapsule_IsValid cap COMPRESSION_CAPSULE_NAME) then
    (Raises (ValueError "ctx invalid"), c, [])
  else
    let bound := LZ4F_compressBound 0 None in
    if LZ4F_isError bound then
      (Raises (Lz4FramedError (LZ4F_getErrorName bound) (size_neg bound)), c, [])
    else
      match LZ4F_compressEnd c bound with
      | (code, written, c') =>
        if LZ4F_isError code then
          (Raises (Lz4FramedError (LZ4F_getErrorName code) (size_neg code)), c', [EvAlloc bound])
        else
          (Returns (PyBytes_value (buf_resize (buf_write (buf_new bound) 0 written) code)),
           c', [EvAlloc bound; EvResize code])
      end.
Proof.
  unfold _lz4framed_compress_end.
  destruct (negb (PyCapsule_IsValid cap COMPRESSION_CAPSULE_NAME)); [reflexivity |].
  unfold BAIL_ON_LZ4_ERROR at 1. unfold bind at 1. cbv zeta.
  destruct (LZ4F_isError (LZ4F_compressBound 0 None)); [reflexivity |].
  cbn [ret]. unfold PyBytes_FromStringAndSize, call_compressEnd. unfold bind at 1 2 3.
  cbn [emit ret].
  destruct (LZ4F_compressEnd c (LZ4F_compressBound 0 None)) as [[code written] c'].
  unfold BAIL_ON_LZ4_ERROR, _PyBytes_Resize, bind, emit, ret.
  destruct (LZ4F_isError code); reflexivity.
Qed.

Lemma compress_begin_unfold (cap : capsule) (bs bm cs af lvl : option Z) (c : cctx) :
  arg_in_range bs -> arg_in_range bm -> arg_in_range cs -> arg_in_range af ->
  arg_in_range lvl ->
  _lz4framed_compress_begin cap bs bm cs af lvl c =
  let p := preferences_of bs bm cs lvl 0 (if arg_value 0 af =? 0 then 0 else 1) in
  if negb (PyCapsule_IsValid cap COMPRESSION_CAPSULE_NAME) then
    (Raises (ValueError "ctx invalid"), c, [])
  else if negb (_valid_lz4f_block_size_id (blockSizeID (frameInfo p))) then
    (Raises (ValueError ("block_size_id (" ++ dec (blockSizeID (frameInfo p)) ++ ") invalid")),
     c, [])
  else if (compressionLevel p <? 0) || (16 <? compressionLevel p) then
    (Raises (ValueError ("compression_level (" ++ dec (compressionLevel p) ++ ") invalid")),
     c, [])
  else
    match LZ4F_compressBegin c 15 p with
    | (code, written, c') =>
      if LZ4F_isError code then
        (Raises (Lz4FramedError (LZ4F_getErrorName code) (size_neg code)), c', [EvAlloc 15])
      else
        (Returns (PyBytes_value (buf_resize (buf_write (buf_new 15) 0 written) code)),
         c', [EvAlloc 15; EvResize code])
    end.
Proof.
  intros Hbs Hbm Hcs Haf Hlvl. unfold _lz4framed_compress_begin.
  rewrite (arg_int_ok _ _ Hbs), (arg_int_ok _ _ Hbm), (arg_int_ok _ _ Hcs),
    (arg_int_ok _ _ Haf), (arg_int_ok _ _ Hlvl).
  unfold bind at 1 2 3 4 5. cbn [ret]. cbv zeta.
  cbn [preferences_of frameInfo blockSizeID compressionLevel].
  destruct (negb (PyCapsule_IsValid cap COMPRESSION_CAPSULE_NAME)); [reflexivity |].
  destruct (negb (_valid_lz4f_block_size_id (arg_value LZ4F_default bs))); [reflexivity |].
  destruct ((arg_value 0 lvl <? 0) || (16 <? arg_value 0 lvl)); [reflexivity |].
  fold (preferences_of bs bm cs lvl 0 (if arg_value 0 af =? 0 then 0 else 1)).
  unfold PyBytes_FromStringAndSize, call_compressBegin. unfold bind at 1 2 3.
  cbn [emit ret].
  destruct (LZ4F_compressBegin c 15 _) as [[code written] c'].
  unfold BAIL_ON_LZ4_ERROR, _PyBytes_Resize, bind, emit, ret.
  destruct (LZ4F_isError code); reflexivity.
Qed.
End Extra_checks.

Section Extra_contexts.
Context {L : LZ4F}.

(** X10 ([_lz4framed_compress_begin]): the preferences a frame is begun
    with, for any library: no content size, whatever the input will be,
    auto-flush 1 for every nonzero [autoflush], and a destination of 15
    bytes.  The header the library writes is returned, and the context is
    left as the library left it. *)
Theorem compress_begin_returns_header (bs bm cs af lvl : option Z) (c c' : cctx)
        (header : list byte) :
  valid_preferences bs bm cs lvl ->
  arg_in_range af ->
  LZ4F_compressBegin c 15 (preferences_of bs bm cs lvl 0 (if arg_value 0 af =? 0 then 0 else 1))
  = (len header, header, c') ->
  LZ4F_isError (len header) = false ->
  _lz4framed_compress_begin (Capsule COMPRESSION_CAPSULE_NAME) bs bm cs af lvl c
  = (Returns header, c', [EvAlloc 15; EvResize (len header)]).
Proof.
  intros (Hbs & Hbm & Hcs & Hlvl & Hvid & Hlevel) Haf Hbegin Herr.
  rewrite (compress_begin_unfold _ bs bm cs af lvl c Hbs Hbm Hcs Haf Hlvl). cbv zeta.
  change (PyCapsule_IsValid (Capsule COMPRESSION_CAPSULE_NAME) COMPRESSION_CAPSULE_NAME)
    with true.
  cbn [negb preferences_of frameInfo blockSizeID compressionLevel].
  rewrite Hvid. cbn [negb].
  replace ((arg_value 0 lvl <? 0) || (16 <? arg_value 0 lvl)) with false
    by (symmetry; apply orb_false_iff; split; apply Z.ltb_ge; lia).
  fold (preferences_of bs bm cs lvl 0 (if arg_value 0 af =? 0 then 0 else 1)).
  rewrite Hbegin, Herr, wrote_whole. reflexivity.
Qed.

(** X11 ([_lz4framed_compress_update]): for any library, the destination
    handed to [LZ4F_compressUpdate] has [LZ4F_compressBound(len(b), NULL)]
    bytes, the bound for the default preferences and not for those the frame
    was begun with.  The bytes the library writes are returned, possibly
    none, and the context is left as the library left it. *)
Theorem compress_update_returns_what_library_wrote (b written : list byte) (c c' : cctx) :
  b <> [] ->
  LZ4F_isError (LZ4F_compressBound (len b) None) = false ->
  LZ4F_compressUpdate c (LZ4F_compressBound (len b) None) b = (len written, written, c') ->
  LZ4F_isError (len written) = false ->
  _lz4framed_compress_update (Capsule COMPRESSION_CAPSULE_NAME) b c
  = (Returns written, c',
     [EvAlloc (LZ4F_compressBound (len b) None); EvResize (len written)]).
Proof.
  intros Hne Hbound Hupdate Herr.
  rewrite compress_update_unfold. cbv zeta.
  change (PyCapsule_IsValid (Capsule COMPRESSION_CAPSULE_NAME) COMPRESSION_CAPSULE_NAME)
    with true.
  cbn [negb].
  replace (len b <=? 0) with false by (symmetry; apply Z.leb_gt, len_nonempty, Hne).
  rewrite Hbound, Hupdate, Herr, wrote_whole. reflexivity.
Qed.

Lemma update_body_raises (chunk_len : Z) (v : update_vars) (d d' : dctx) (x : PyExc)
      (ev : list event) :
  decompress_update_body chunk_len v d = (Raises x, d', ev) -> not_value_error x.
Proof.
  intros H.
  destruct (LZ4F_decompress d (du_chunk_remaining (next_chunk chunk_len v)) (du_input v) false)
    as [[[code w] n] d1] eqn:Hcall.
  rewrite (update_body_eq chunk_len v d d1 code n w Hcall) in H. cbv zeta in H.
  destruct (LZ4F_isError code); [| discriminate H].
  injection H as <- _ _. exact I.
Qed.

Lemma decompress_body_raises (rt : PyRuntime) (info : LZ4F_frameInfo_t) (stable : bool)
      (v : decompress_vars) (d d' : dctx) (x : PyExc) (ev : list event) :
  decompress_body rt info stable v d = (Raises x, d', ev) -> not_value_error x.
Proof.
  intros H.
  destruct (LZ4F_decompress d (dv_output_remaining v) (dv_input v) stable)
    as [[[code w] n] d1] eqn:Hcall.
  destruct (LZ4F_isError code) eqn:Herr.
  - unfold decompress_body, call_decompress, bind, BAIL_ON_LZ4_ERROR in H.
    rewrite Hcall, Herr in H. injection H as <- _ _. exact I.
  - rewrite (decompress_body_eq rt info stable v d d1 code n w Hcall Herr) in H.
    cbv zeta in H.
    destruct (code =? 0); [discriminate H |].
    destruct (0 <? size_sub (len (dv_input v)) n); [| discriminate H].
    destruct ((0 <? contentSize info) && warnings_as_errors rt); [| discriminate H].
    injection H as <- _ _. exact I.
Qed.

Lemma get_frame_info_unfold (cap : capsule) (d : dctx) :
  _lz4framed_get_frame_info cap d =
  if negb (PyCapsule_IsValid cap DECOMPRESSION_CAPSULE_NAME) then
    (Raises (ValueError "ctx invalid"), d, [])
  else _lz4framed_get_frame_info (Capsule DECOMPRESSION_CAPSULE_NAME) d.
Proof.
  unfold _lz4framed_get_frame_info.
  change (PyCapsule_IsValid (Capsule DECOMPRESSION_CAPSULE_NAME) DECOMPRESSION_CAPSULE_NAME)
    with true.
  cbn [negb]. destruct (negb (PyCapsule_IsValid cap DECOMPRESSION_CAPSULE_NAME)); reflexivity.
Qed.

Lemma update_overflow (fuel : nat) (cap : capsule) (b : list byte) (z : Z) (d : dctx) :
  ~ INT_MIN <= z <= INT_MAX ->
  _lz4framed_decompress_update fuel cap b (Some z) d = (Raises OverflowError, d, []).
Proof.
  intros Hr. unfold _lz4framed_decompress_update, arg_int_into_size_t.
  replace ((INT_MIN <=? z) && (z <=? INT_MAX)) with false; [reflexivity |].
  symmetry. apply andb_false_iff.
  destruct (Z.leb_spec INT_MIN z); [| now left].
  destruct (Z.leb_spec z INT_MAX); [lia | now right].
Qed.

(** X12 (the five functions that take a context): a capsule of the other
    kind, or an object that is no capsule, is refused with [ValueError("ctx
    invalid")] before anything else is looked at; the codec context is not
    touched and nothing is allocated.  In particular a decompression context
    cannot be driven through the compression functions, nor the reverse. *)
Theorem foreign_capsule_rejected (cap : capsule) :
  (cap <> Capsule COMPRESSION_CAPSULE_NAME ->
   (forall (bs bm cs af lvl : option Z) (c : cctx),
       arg_in_range bs -> arg_in_range bm -> arg_in_range cs -> arg_in_range af ->
       arg_in_range lvl ->
       _lz4framed_compress_begin cap bs bm cs af lvl c
       = (Raises (ValueError "ctx invalid"), c, [])) /\
   (forall (b : list byte) (c : cctx),
       _lz4framed_compress_update cap b c = (Raises (ValueError "ctx invalid"), c, [])) /\
   (forall c : cctx,
       _lz4framed_compress_end cap c = (Raises (ValueError "ctx invalid"), c, []))) /\
  (cap <> Capsule DECOMPRESSION_CAPSULE_NAME ->
   (forall d : dctx,
       _lz4framed_get_frame_info cap d = (Raises (ValueError "ctx invalid"), d, [])) /\
   (forall (fuel : nat) (b : list byte) (a : option Z) (d : dctx),
       arg_in_range a ->
       _lz4framed_decompress_update fuel cap b a d
       = (Raises (ValueError "ctx invalid"), d, []))) /\
  Capsule DECOMPRESSION_CAPSULE_NAME <> Capsule COMPRESSION_CAPSULE_NAME.
Proof.
  split; [| split].
  - intros Hcap. pose proof (capsule_invalid cap _ Hcap) as Hinv.
    split; [| split].
    + intros bs bm cs af lvl c Hbs Hbm Hcs Haf Hlvl.
      rewrite (compress_begin_unfold cap bs bm cs af lvl c Hbs Hbm Hcs Haf Hlvl).
      cbv zeta. rewrite Hinv. reflexivity.
    + intros b c. rewrite compress_update_unfold, Hinv. reflexivity.
    + intros c. rewrite compress_end_unfold, Hinv. reflexivity.
  - intros Hcap. pose proof (capsule_invalid cap _ Hcap) as Hinv.
    split.
    + intros d. rewrite get_frame_info_unfold, Hinv. reflexivity.
    + intros fuel b a d Ha. rewrite (update_unfold fuel cap b a d Ha). cbv zeta.
      rewrite Hinv. reflexivity.
  - discriminate.
Qed.

(** X13 (the five functions that take a context): a call that raises
    [ValueError] has had no effect.  The context is as it was and nothing
    was allocated, whatever the arguments and whatever the library does. *)
Theorem value_error_leaves_context (msg : string) (ev : list event) :
  (forall (cap : capsule) (bs bm cs af lvl : option Z) (c c' : cctx),
      _lz4framed_compress_begin cap bs bm cs af lvl c = (Raises (ValueError msg), c', ev) ->
      c' = c /\ ev = []) /\
  (forall (cap : capsule) (b : list byte) (c c' : cctx),
      _lz4framed_compress_update cap b c = (Raises (ValueError msg), c', ev) ->
      c' = c /\ ev = []) /\
  (forall (cap : capsule) (c c' : cctx),
      _lz4framed_compress_end cap c = (Raises (ValueError msg), c', ev) ->
      c' = c /\ ev = []) /\
  (forall (cap : capsule) (d d' : dctx),
      _lz4framed_get_frame_info cap d = (Raises (ValueError msg), d', ev) ->
      d' = d /\ ev = []) /\
  (forall (fuel : nat) (cap : capsule) (b : list byte) (a : option Z) (d d' : dctx),
      _lz4framed_decompress_update fuel cap b a d = (Raises (ValueError msg), d', ev) ->
      d' = d /\ ev = []).
Proof.
  split; [| split; [| split; [| split]]].
  - intros cap bs bm cs af lvl c c' H.
    unfold _lz4framed_compress_begin in H.
    destruct (@arg_int_cases cctx LZ4F_default bs c) as [[Hbs Rbs] | Hbs];
      [| unfold bind at 1 in H; rewrite Hbs in H; discriminate H].
    destruct (@arg_int_cases cctx 1 bm c) as [[Hbm Rbm] | Hbm];
      [| unfold bind at 1 2 in H; rewrite Hbs, Hbm in H; discriminate H].
    destruct (@arg_int_cases cctx 0 cs c) as [[Hcs Rcs] | Hcs];
      [| unfold bind at 1 2 3 in H; rewrite Hbs, Hbm, Hcs in H; discriminate H].
    destruct (@arg_int_cases cctx 0 af c) as [[Haf Raf] | Haf];
      [| unfold bind at 1 2 3 4 in H; rewrite Hbs, Hbm, Hcs, Haf in H; discriminate H].
    destruct (@arg_int_cases cctx 0 lvl c) as [[Hlvl Rlvl] | Hlvl];
      [| unfold bind at 1 2 3 4 5 in H; rewrite Hbs, Hbm, Hcs, Haf, Hlvl in H;
         discriminate H].
    fold (_lz4framed_compress_begin cap bs bm cs af lvl) in H.
    rewrite (compress_begin_unfold cap bs bm cs af lvl c Rbs Rbm Rcs Raf Rlvl) in H.
    cbv zeta in H.
    destruct (negb (PyCapsule_IsValid cap COMPRESSION_CAPSULE_NAME));
      [injection H as _ <- <-; split; reflexivity |].
    destruct (negb (_valid_lz4f_block_size_id _));
      [injection H as _ <- <-; split; reflexivity |].
    destruct ((_ <? 0) || (16 <? _)); [injection H as _ <- <-; split; reflexivity |].
    destruct (LZ4F_compressBegin c 15 _) as [[code written] c1].
    destruct (LZ4F_isError code); discriminate H.
  - intros cap b c c' H. rewrite compress_update_unfold in H. cbv zeta in H.
    destruct (negb (PyCapsule_IsValid cap COMPRESSION_CAPSULE_NAME));
      [injection H as _ <- <-; split; reflexivity |].
    destruct (len b <=? 0); [injection H as _ <- <-; split; reflexivity |].
    destruct (LZ4F_isError _); [discriminate H |].
    destruct (LZ4F_compressUpdate c _ b) as [[code written] c1].
    destruct (LZ4F_isError code); discriminate H.
  - intros cap c c' H. rewrite compress_end_unfold in H. cbv zeta in H.
    destruct (negb (PyCapsule_IsValid cap COMPRESSION_CAPSULE_NAME));
      [injection H as _ <- <-; split; reflexivity |].
    destruct (LZ4F_isError _); [discriminate H |].
    destruct (LZ4F_compressEnd c _) as [[code written] c1].
    destruct (LZ4F_isError code); discriminate H.
  - intros cap d d' H. rewrite get_frame_info_unfold in H.
    destruct (negb (PyCapsule_IsValid cap DECOMPRESSION_CAPSULE_NAME));
      [injection H as _ <- <-; split; reflexivity |].
    rewrite get_frame_info_calls_parser in H.
    destruct (LZ4F_getFrameInfo d []) as [[[code info] n] d1].
    destruct (LZ4F_isError code); discriminate H.
  - intros fuel cap b a d d' H.
    assert (Hr : forall c, a = Some c -> INT_MIN <= c <= INT_MAX).
    { intros z ->.
      assert (Hdec : INT_MIN <= z <= INT_MAX \/ ~ INT_MIN <= z <= INT_MAX)
        by (unfold INT_MIN, INT_MAX; lia).
      destruct Hdec as [Hz | Hz]; [exact Hz |].
      rewrite (update_overflow fuel cap b z d Hz) in H. discriminate H. }
    rewrite (update_unfold fuel cap b a d Hr) in H. cbv zeta in H.
    destruct (negb (PyCapsule_IsValid cap DECOMPRESSION_CAPSULE_NAME));
      [injection H as _ <- <-; split; reflexivity |].
    destruct (len b <=? 0); [injection H as _ <- <-; split; reflexivity |].
    destruct (chunk_len_of a <=? 0); [injection H as _ <- <-; split; reflexivity |].
    destruct (decompress_update_loop fuel (chunk_len_of a) (update_init b (chunk_len_of a)) d)
      as [[[v | x |] d1] ev1] eqn:Hloop.
    + destruct (du_chunk_remaining v <? chunk_len_of a); discriminate H.
    + exfalso. injection H as -> _ _.
      unfold decompress_update_loop in Hloop.
      exact (while_loop_raises not_value_error _ _
               (fun s st x st' ev0 Hb => update_body_raises _ s st st' x ev0 Hb)
               _ _ _ _ _ _ Hloop).
    + discriminate H.
Qed.

Lemma decompress_with_context_raises (rt : PyRuntime) (fuel : nat) (b : list byte)
      (buffer_size : Z) (d d' : dctx) (x : PyExc) (ev : list event) :
  decompress_with_context rt fuel b buffer_size d = (Raises x, d', ev) -> not_value_error x.
Proof.
  intros H. unfold decompress_with_context, call_getFrameInfo in H.
  unfold bind at 1 in H.
  destruct (LZ4F_getFrameInfo d b) as [[[code info] n] d1].
  unfold BAIL_ON_LZ4_ERROR at 1 in H. unfold bind at 1 in H.
  destruct (LZ4F_isError code); [injection H as <- _ _; exact I |].
  cbn [ret] in H. unfold PyBytes_FromStringAndSize in H. unfold bind at 1 2 in H.
  cbn [emit ret] in H. unfold bind at 1 in H.
  match type of H with
  | context [while_loop fuel ?c ?body ?v d1] =>
    destruct (while_loop fuel c body v d1) as [[[v' | y |] d2] e2] eqn:Hloop
  end.
  - unfold _PyBytes_Resize, bind, emit, ret in H. discriminate H.
  - injection H as <- _ _.
    exact (while_loop_raises not_value_error _ _
             (fun s st x st' ev0 Hb => decompress_body_raises rt _ _ s st st' x ev0 Hb)
             _ _ _ _ _ _ Hloop).
  - discriminate H.
Qed.

(** X14 ([_lz4framed_decompress]): the argument checks, with any library.
    An empty input and a [buffer_size] that is not positive are refused in
    this order with [ValueError]; a [ValueError] has no other cause, and
    when one is raised nothing has been allocated. *)
Theorem decompress_value_errors (rt : PyRuntime) (fuel : nat) (b : list byte)
        (a : option Z) :
  arg_in_range a ->
  let buffer_size := arg_value 1024 a in
  (b = [] ->
   _lz4framed_decompress rt fuel b a = (Raises (ValueError "b (data) is empty"), [])) /\
  (b <> [] -> buffer_size <= 0 ->
   _lz4framed_decompress rt fuel b a
   = (Raises (ValueError ("buffer_size (" ++ dec buffer_size ++ ") invalid")), [])) /\
  (forall (msg : string) (ev : list event),
      _lz4framed_decompress rt fuel b a = (Raises (ValueError msg), ev) ->
      ev = [] /\ (b = [] \/ buffer_size <= 0)).
Proof.
  intros Ha buffer_size.
  unfold _lz4framed_decompress. rewrite (arg_int_ok _ _ Ha). unfold bind. cbn [ret].
  fold buffer_size.
  split; [| split].
  - intros ->. reflexivity.
  - intros Hne Hbs.
    replace (len b <=? 0) with false by (symmetry; apply Z.leb_gt, len_nonempty, Hne).
    replace (buffer_size <=? 0) with true by (symmetry; apply Z.leb_le, Hbs).
    reflexivity.
  - intros msg ev H.
    destruct (Z.leb_spec (len b) 0) as [Hb | Hb].
    { injection H as _ <-. split; [reflexivity |]. left.
      destruct b as [| x b']; [reflexivity |].
      rewrite len_cons in Hb. pose proof (len_nonneg b'). lia. }
    destruct (Z.leb_spec buffer_size 0) as [Hbs | Hbs].
    { injection H as _ <-. split; [reflexivity |]. right. exact Hbs. }
    exfalso.
    destruct LZ4F_createDecompressionContext as [code0 d0].
    unfold BAIL_ON_LZ4_ERROR in H.
    destruct (LZ4F_isError code0); [discriminate H |].
    cbn [ret] in H.
    destruct (decompress_with_context rt fuel b buffer_size d0) as [[r d1] e1] eqn:Hrun.
    cbn [app] in H. injection H as -> _.
    exact (decompress_with_context_raises rt fuel b buffer_size d0 d1 _ e1 Hrun).
Qed.
End Extra_contexts.

(** ** Instances on the reference codec *)

Lemma decompress_hangs_on_truncated_frame_witness :
  fst (@_lz4framed_decompress (Ref.codec Ref.rle) no_warning_errors 50
                              (firstn 12 a100_stream) (Some 1))
  = OutOfFuel.
Proof.
  apply (@decompress_hangs_on_truncated_frame (Ref.codec Ref.rle) (Ref.Decoding Ref.rle)
           (ref_decoder_spec Ref.rle) no_warning_errors (firstn 12 a100_stream)
           (skipn 12 a100_stream) a100
           (frameInfo (preferences_of (Some 4) None None None 0 0)) 4 7 1
           (snd (Ref.getFrameInfo Ref.rle Ref.new_decompression_context
                                  (firstn 12 a100_stream))) 50).
  - vm_compute. reflexivity.
  - vm_compute. reflexivity.
  - discriminate.
  - vm_compute. split; discriminate.
  - vm_compute. reflexivity.
  - discriminate.
  - discriminate.
  - unfold INT_MAX. lia.
  - vm_compute. reflexivity.
  - vm_compute. reflexivity.
  - vm_compute. split; [discriminate | reflexivity].
  - left. reflexivity.
Defined.

Lemma decompress_reallocation_count_witness :
  exists k : nat,
    @_lz4framed_decompress (Ref.codec Ref.rle) no_warning_errors 101 a100_stream (Some 1)
    = (Returns a100,
       EvAlloc 10 :: growth_events false (doubled 10 k) ++ [EvResize (len a100)]) /\
    len a100 <= 10 * 2 ^ Z.of_nat k /\
    (k <> 0%nat -> 10 * 2 ^ Z.of_nat k < 2 * len a100) /\
    (len a100 <= 10 -> k = 0%nat).
Proof.
  apply (@decompress_reallocation_count (Ref.codec Ref.rle) (Ref.Decoding Ref.rle)
           (ref_decoder_spec Ref.rle) no_warning_errors a100_stream a100
           (frameInfo (preferences_of (Some 4) None None None 0 0)) 7 1 101).
  - exact a100_stream_decodes.
  - discriminate.
  - unfold INT_MAX. lia.
  - vm_compute. reflexivity.
  - vm_compute. reflexivity.
  - vm_compute. split; [discriminate | reflexivity].
  - left. reflexivity.
  - vm_compute. lia.
Defined.

Lemma decompress_buffer_size_ignored_witness :
  @_lz4framed_decompress (Ref.codec Ref.rle) no_warning_errors 101 a100_stream (Some 1)
  = @_lz4framed_decompress (Ref.codec Ref.rle) no_warning_errors 101 a100_stream (Some 10).
Proof.
  apply (@decompress_buffer_size_ignored (Ref.codec Ref.rle) no_warning_errors 101 a100_stream
           1 10 4 7 (frameInfo (preferences_of (Some 4) None None None 0 0))
           (snd (Ref.getFrameInfo Ref.rle Ref.new_decompression_context a100_stream))).
  - unfold INT_MAX. lia.
  - unfold INT_MAX. lia.
  - vm_compute. reflexivity.
  - right. vm_compute. split; discriminate.
Defined.

Lemma decompress_update_result_shape_witness :
  Capsule DECOMPRESSION_CAPSULE_NAME = Capsule DECOMPRESSION_CAPSULE_NAME /\
  a100_stream <> [] /\
  0 < chunk_len_of None <= 2 ^ 32 /\
  (@None Z = None -> chunk_len_of None = 65536) /\
  (forall c, None = Some c -> chunk_len_of None = c mod 2 ^ 32) /\
  exists (full last : list (list byte)) (hint : Z),
    chunked_result (chunk_len_of None) full last hint [PyBytes a100; PyLong 0].
Proof.
  apply (@decompress_update_result_shape (Ref.codec Ref.rle) 102
           (Capsule DECOMPRESSION_CAPSULE_NAME) a100_stream None
           Ref.new_decompression_context Ref.new_decompression_context
           [PyBytes a100; PyLong 0] [EvAlloc 65536; EvResize 100]).
  - exact (ref_api_bounds Ref.rle).
  - vm_compute. reflexivity.
Defined.

Lemma decompress_updates_content_witness :
  exists (rs : list (list PyObject)) (r : list PyObject) (d' : Ref.decompression_context)
         (ev : list event),
    @decompress_updates (Ref.codec Ref.rle) 102 (Capsule DECOMPRESSION_CAPSULE_NAME)
                        [firstn 9 a100_stream; skipn 9 a100_stream] (Some 30)
                        Ref.new_decompression_context
    = (Returns (rs ++ [r]), d', ev) /\
    length (rs ++ [r]) = length [firstn 9 a100_stream; skipn 9 a100_stream] /\
    concat (map bytes_of (rs ++ [r])) = a100 /\
    Forall (fun r' => exists h, hint_of r' = Some h /\ 0 < h) rs /\
    hint_of r = Some 0.
Proof.
  apply (@decompress_updates_content (Ref.codec Ref.rle) (Ref.Decoding Ref.rle)
           (ref_decoder_spec Ref.rle) 30 102 [firstn 9 a100_stream; skipn 9 a100_stream]
           ltac:(unfold INT_MAX; lia) ltac:(discriminate)
           ltac:(repeat constructor; discriminate)
           Ref.new_decompression_context a100_stream a100).
  - vm_compute. reflexivity.
  - vm_compute. reflexivity.
  - vm_compute. reflexivity.
  - vm_compute. lia.
Defined.

Lemma none_in_range : arg_in_range None.
Proof. intros z Hz. discriminate Hz. Qed.

Lemma compress_value_errors_witness :
  (abc = [] ->
   @_lz4framed_compress (Ref.codec Ref.rle) abc (Some 3) None None (Some 17) tt
   = (Raises (ValueError "b (data) is empty"), tt, [])) /\
  (abc <> [] -> ~ In 3 [0; 4; 5; 6; 7] ->
   @_lz4framed_compress (Ref.codec Ref.rle) abc (Some 3) None None (Some 17) tt
   = (Raises (ValueError ("block_size_id (" ++ dec 3 ++ ") invalid")), tt, [])) /\
  (abc <> [] -> In 3 [0; 4; 5; 6; 7] -> ~ 0 <= 17 <= 16 ->
   @_lz4framed_compress (Ref.codec Ref.rle) abc (Some 3) None None (Some 17) tt
   = (Raises (ValueError ("compression_level (" ++ dec 17 ++ ") invalid")), tt, [])) /\
  (forall (msg : string) (st : unit) (ev : list event),
      @_lz4framed_compress (Ref.codec Ref.rle) abc (Some 3) None None (Some 17) tt
      = (Raises (ValueError msg), st, ev) ->
      ev = [] /\ (abc = [] \/ ~ In 3 [0; 4; 5; 6; 7] \/ ~ 0 <= 17 <= 16)).
Proof.
  apply (@compress_value_errors (Ref.codec Ref.rle) abc (Some 3) None None (Some 17)).
  - intros z [= <-]. unfold INT_MIN, INT_MAX. lia.
  - exact none_in_range.
  - exact none_in_range.
  - intros z [= <-]. unfold INT_MIN, INT_MAX. lia.
Defined.

Lemma compress_returns_what_library_wrote_witness :
  @_lz4framed_compress (Ref.codec Ref.rle) abc None None None None tt
  = (Returns abc_frame, tt,
     [EvAlloc (Ref.compressFrameBound 3 (default_preferences 3)); EvResize (len abc_frame)]).
Proof.
  apply (@compress_returns_what_library_wrote (Ref.codec Ref.rle) abc abc_frame
           None None None None).
  - exact default_preferences_valid.
  - discriminate.
  - vm_compute. reflexivity.
  - vm_compute. reflexivity.
  - vm_compute. reflexivity.
Defined.

Lemma compress_begin_returns_header_witness :
  @_lz4framed_compress_begin (Ref.codec Ref.rle) (Capsule COMPRESSION_CAPSULE_NAME)
                             None None None (Some 5) None Ref.new_compression_context
  = (Returns (Ref.frame_header (frameInfo (default_preferences 0))),
     mid_frame (preferences_of None None None None 0 1) [] [],
     [EvAlloc 15; EvResize (len (Ref.frame_header (frameInfo (default_preferences 0))))]).
Proof.
  apply (@compress_begin_returns_header (Ref.codec Ref.rle) None None None (Some 5) None).
  - exact default_preferences_valid.
  - intros z [= <-]. unfold INT_MIN, INT_MAX. lia.
  - vm_compute. reflexivity.
  - vm_compute. reflexivity.
Defined.

Lemma compress_update_returns_what_library_wrote_witness :
  @_lz4framed_compress_update (Ref.codec Ref.rle) (Capsule COMPRESSION_CAPSULE_NAME) abc
                              (mid_frame (default_preferences 0) [] [])
  = (Returns [], mid_frame (default_preferences 0) abc abc,
     [EvAlloc (Ref.compressBound (len abc) None); EvResize (len (@nil byte))]).
Proof.
  apply (@compress_update_returns_what_library_wrote (Ref.codec Ref.rle) abc []).
  - discriminate.
  - vm_compute. reflexivity.
  - vm_compute. reflexivity.
  - vm_compute. reflexivity.
Defined.

Lemma decompress_value_errors_witness :
  (abc_frame = [] ->
   @_lz4framed_decompress (Ref.codec Ref.rle) no_warning_errors 4 abc_frame (Some (-5))
   = (Raises (ValueError "b (data) is empty"), [])) /\
  (abc_frame <> [] -> -5 <= 0 ->
   @_lz4framed_decompress (Ref.codec Ref.rle) no_warning_errors 4 abc_frame (Some (-5))
   = (Raises (ValueError ("buffer_size (" ++ dec (-5) ++ ") invalid")), [])) /\
  (forall (msg : string) (ev : list event),
      @_lz4framed_decompress (Ref.codec Ref.rle) no_warning_errors 4 abc_frame (Some (-5))
      = (Raises (ValueError msg), ev) ->
      ev = [] /\ (abc_frame = [] \/ -5 <= 0)).
Proof.
  apply (@decompress_value_errors (Ref.codec Ref.rle) no_warning_errors 4 abc_frame (Some (-5))).
  intros z [= <-]. unfold INT_MIN, INT_MAX. lia.
Defined.

(** ** [compress] then [decompress] *)

Section Extra_round_trip.
Context {L : LZ4F}.
Variable Decoding : dctx -> list byte -> list byte -> Prop.
Hypothesis HD : DecoderSpec Decoding.

(** X15 ([_lz4framed_compress], [_lz4framed_decompress]): with a library
    whose decoder reads the frames its encoder writes, [decompress] gives
    back the input of [compress].  Because [compress] has the content size
    declared, [decompress] allocates the output once, of exactly the length
    of the input, ignores [buffer_size] and issues no warning. *)
Theorem compress_decompress_round_trip (rt : PyRuntime) (b frame : list byte)
        (bs bm cs lvl : option Z) (info : LZ4F_frameInfo_t) (h buffer_size : Z)
        (fuel : nat) :
  valid_preferences bs bm cs lvl ->
  b <> [] -> len b < 2 ^ 62 ->
  let p := preferences_of bs bm cs lvl (len b) 0 in
  let bound := LZ4F_compressFrameBound (len b) p in
  LZ4F_isError bound = false ->
  LZ4F_compressFrame bound b p = (len frame, frame) ->
  frame <> [] -> len frame < 2 ^ 62 ->
  frame_decodes Decoding frame info h b ->
  contentSize info = contentSize (frameInfo p) ->
  0 < buffer_size <= INT_MAX ->
  (length b < fuel)%nat ->
  _lz4framed_compress b bs bm cs lvl tt
  = (Returns frame, tt, [EvAlloc bound; EvResize (len frame)]) /\
  _lz4framed_decompress rt fuel frame (Some buffer_size)
  = (Returns b, [EvAlloc (len b); EvResize (len b)]).
Proof.
  intros Hvalid Hne Hlen p bound Hbound Hframe Hfne Hflen Hdec Hcs Hbs Hfuel.
  pose proof (len_nonempty b Hne) as Hpos.
  cbn [p preferences_of frameInfo contentSize] in Hcs.
  assert (Herr : LZ4F_isError (len frame) = false) by (apply LZ4F_isError_small; lia).
  split.
  - exact (compress_returns_library_frame b frame bs bm cs lvl Hvalid Hne Hbound Hframe Herr).
  - assert (Hcap : initial_capacity info buffer_size (len frame - h) = len b).
    { unfold initial_capacity. rewrite Hcs.
      replace (0 <? len b) with true by (symmetry; apply Z.ltb_lt; lia). reflexivity. }
    destruct (decompress_spec Decoding HD rt frame b info h buffer_size Hdec Hfne Hbs Hflen Hlen)
      with (fuel := fuel) as (caps & Hchain & Hrun); [lia | | exact Hfuel |].
    + right. rewrite Hcap. lia.
    + rewrite Hcap in Hchain, Hrun.
      rewrite (doubling_chain_exact _ _ _ Hchain) in Hrun by lia.
      exact Hrun.
Qed.
End Extra_round_trip.

Lemma compress_decompress_round_trip_witness :
  @_lz4framed_compress (Ref.codec Ref.rle) abc None None None None tt
  = (Returns abc_frame, tt,
     [EvAlloc (Ref.compressFrameBound 3 (default_preferences 3)); EvResize (len abc_frame)]) /\
  @_lz4framed_decompress (Ref.codec Ref.rle) warning_errors 4 abc_frame (Some 1)
  = (Returns abc, [EvAlloc (len abc); EvResize (len abc)]).
Proof.
  apply (@compress_decompress_round_trip (Ref.codec Ref.rle) (Ref.Decoding Ref.rle)
           (ref_decoder_spec Ref.rle) warning_errors abc abc_frame None None None None
           (frameInfo (preferences_of (Some 4) None None None 3 0)) 15 1 4).
  - exact default_preferences_valid.
  - discriminate.
  - vm_compute. reflexivity.
  - vm_compute. reflexivity.
  - vm_compute. reflexivity.
  - discriminate.
  - vm_compute. reflexivity.
  - exact abc_frame_decodes.
  - reflexivity.
  - unfold INT_MAX. lia.
  - vm_compute. lia.
Defined.
